(** * cos-customizer: OEM partition sealing and disk budget validation

    A shallow embedding of

    - [src/tools/seal_oem_partition.go]  (package [tools]):
      [SealOEMPartition], [loadVeritysetupImage], [removeVeritysetupImage],
      [mountEFIPartition], [unmountOEMPartition], [veritysetup],
      [appendDMEntryToGRUB];
    - [src/cmd/finish_image_build.go]  (package [cmd]): [validateOEM].

    Go strings are byte sequences: they are modelled as [string], whose
    characters ([ascii]) are exactly the 256 byte values.  Go's [int] and
    [uint64] are modelled as [Z], with the wrap-around of every [uint64]
    operation written out. *)

From Stdlib Require Import ZArith List Bool Ascii String Sorted Permutation Lia.
Import ListNotations.

Open Scope string_scope.
Open Scope Z_scope.

(** ** The Go library functions the sources call *)

Module Go.

(** [len(s)] *)
Definition len (s : string) : Z := Z.of_nat (String.length s).

(** The byte value of a character. *)
Definition byte (c : ascii) : Z := Z.of_N (N_of_ascii c).

Definition chr (z : Z) : ascii := ascii_of_N (Z.to_N z).

(** The double quote, byte 34. *)
Definition dquote : ascii := "034"%char.

(** The line feed, byte 10. *)
Definition LF : ascii := "010"%char.

(** [uint64] wrap-around. *)
Definition u64 (z : Z) : Z := z mod 2 ^ 64.

(** [strings.HasPrefix(s, prefix)] *)
Definition HasPrefix (s p : string) : bool := String.prefix p s.

(** Offset of the first occurrence of [sub] in [s], if any. *)
Fixpoint index_nat (s sub : string) : option nat :=
  if String.prefix sub s then Some O
  else match s with
       | EmptyString => None
       | String _ s' => option_map S (index_nat s' sub)
       end.

(** [strings.Index(s, substr)]: byte offset of the first occurrence, or -1. *)
Definition Index (s sub : string) : Z :=
  match index_nat s sub with
  | Some n => Z.of_nat n
  | None => -1
  end.

(** [strings.Contains(s, substr)], which is [Index(s, substr) >= 0]. *)
Definition Contains (s sub : string) : bool := 0 <=? Index s sub.

(** [strings.Split(s, sep)] for a one-byte separator (every call site of the
    sources passes ["\n"], [","] or [":"]).  The result is never empty:
    splitting the empty string gives one empty field. *)
Fixpoint Split (s : string) (sep : ascii) : list string :=
  match s with
  | EmptyString => [EmptyString]
  | String c s' =>
      if Ascii.eqb c sep then EmptyString :: Split s' sep
      else match Split s' sep with
           | f :: fs => String c f :: fs
           | [] => [String c EmptyString]
           end
  end.

(** [strings.Join(elems, sep)] *)
Fixpoint Join (elems : list string) (sep : string) : string :=
  match elems with
  | [] => EmptyString
  | [e] => e
  | e :: es => e ++ sep ++ Join es sep
  end.

(** [s[:n]] for [0 <= n <= len(s)] (the bounds are checked at the call). *)
Fixpoint take (n : nat) (s : string) : string :=
  match n, s with
  | S k, String c s' => String c (take k s')
  | _, _ => EmptyString
  end.

Fixpoint drop (n : nat) (s : string) : string :=
  match n, s with
  | S k, String _ s' => drop k s'
  | _, _ => s
  end.

(** *** UTF-8 ([unicode/utf8]) *)

Definition RuneError : Z := 65533.

Definition between (lo x hi : Z) : bool := (lo <=? x) && (x <=? hi).

(** The continuation-byte range [utf8.DecodeRune] accepts after the lead
    byte [p0] (the table [acceptRanges]). *)
Definition accept (p0 b1 : Z) : bool :=
  if p0 =? 224 then between 160 b1 191
  else if p0 =? 237 then between 128 b1 159
  else if p0 =? 240 then between 144 b1 191
  else if p0 =? 244 then between 128 b1 143
  else between 128 b1 191.

Definition cont (b : Z) : bool := between 128 b 191.

(** [utf8.DecodeRuneInString(s)]: the first rune of [s] and its width in
    bytes; an invalid or truncated encoding is [RuneError] of width 1, the
    empty string [RuneError] of width 0. *)
Definition DecodeRune (s : string) : Z * nat :=
  match s with
  | EmptyString => (RuneError, 0%nat)
  | String c0 s1 =>
      let p0 := byte c0 in
      if p0 <? 128 then (p0, 1%nat)
      else if (p0 <? 194) || (244 <? p0) then (RuneError, 1%nat)
      else
        match s1 with
        | EmptyString => (RuneError, 1%nat)
        | String c1 s2 =>
            let b1 := byte c1 in
            if negb (accept p0 b1) then (RuneError, 1%nat)
            else if p0 <? 224 then
              (Z.lor (Z.shiftl (Z.land p0 31) 6) (Z.land b1 63), 2%nat)
            else
              match s2 with
              | EmptyString => (RuneError, 1%nat)
              | String c2 s3 =>
                  let b2 := byte c2 in
                  if negb (cont b2) then (RuneError, 1%nat)
                  else if p0 <? 240 then
                    (Z.lor (Z.shiftl (Z.land p0 15) 12)
                       (Z.lor (Z.shiftl (Z.land b1 63) 6) (Z.land b2 63)),
                     3%nat)
                  else
                    match s3 with
                    | EmptyString => (RuneError, 1%nat)
                    | String c3 _ =>
                        let b3 := byte c3 in
                        if negb (cont b3) then (RuneError, 1%nat)
                        else
                          (Z.lor (Z.shiftl (Z.land p0 7) 18)
                             (Z.lor (Z.shiftl (Z.land b1 63) 12)
                                (Z.lor (Z.shiftl (Z.land b2 63) 6)
                                   (Z.land b3 63))),
                           4%nat)
                    end
              end
        end
  end.

(** The conversion [[]rune(s)]: [skip] counts the bytes of the rune being
    read that are still to be passed over. *)
Fixpoint runes_from (skip : nat) (s : string) : list Z :=
  match s with
  | EmptyString => []
  | String _ s' =>
      match skip with
      | S k => runes_from k s'
      | O => let (r, w) := DecodeRune s in r :: runes_from (Nat.pred w) s'
      end
  end.

Definition runes (s : string) : list Z := runes_from 0 s.

(** [utf8.AppendRune]: the UTF-8 encoding of one rune; surrogates and values
    outside the Unicode range are encoded as [RuneError]. *)
Definition EncodeRune (r : Z) : string :=
  if between 0 r 127 then String (chr r) EmptyString
  else if between 128 r 2047 then
    String (chr (Z.lor 192 (Z.shiftr r 6)))
      (String (chr (Z.lor 128 (Z.land r 63))) EmptyString)
  else if (r <? 0) || (1114111 <? r) || between 55296 r 57343 then
    String (chr 239) (String (chr 191) (String (chr 189) EmptyString))
  else if r <=? 65535 then
    String (chr (Z.lor 224 (Z.shiftr r 12)))
      (String (chr (Z.lor 128 (Z.land (Z.shiftr r 6) 63)))
         (String (chr (Z.lor 128 (Z.land r 63))) EmptyString))
  else
    String (chr (Z.lor 240 (Z.shiftr r 18)))
      (String (chr (Z.lor 128 (Z.land (Z.shiftr r 12) 63)))
         (String (chr (Z.lor 128 (Z.land (Z.shiftr r 6) 63)))
            (String (chr (Z.lor 128 (Z.land r 63))) EmptyString))).

(** The conversion [string(rs)] of a rune slice. *)
Fixpoint string_of_runes (rs : list Z) : string :=
  match rs with
  | [] => EmptyString
  | r :: rs' => EncodeRune r ++ string_of_runes rs'
  end.

(** [buf[i] = r] on a slice: [None] is the run-time panic "index out of
    range". *)
Fixpoint set_index {A} (buf : list A) (i : nat) (r : A) : option (list A) :=
  match buf, i with
  | [], _ => None
  | _ :: t, O => Some (r :: t)
  | h :: t, S k => option_map (cons h) (set_index t k r)
  end.

(** *** [strings.TrimSpace] *)

(** [unicode.IsSpace]: the Latin-1 spaces and the [White_Space] table. *)
Definition IsSpace (r : Z) : bool :=
  between 9 r 13 || (r =? 32) || (r =? 133) || (r =? 160) || (r =? 5760)
  || between 8192 r 8202 || (r =? 8232) || (r =? 8233) || (r =? 8239)
  || (r =? 8287) || (r =? 12288).

Definition byte_at (s : string) (i : Z) : Z :=
  match String.get (Z.to_nat i) s with
  | Some c => byte c
  | None => 0
  end.

(** [utf8.RuneStart(b)] *)
Definition RuneStart (b : Z) : bool := negb (Z.land b 192 =? 128).

(** The backwards scan of [utf8.DecodeLastRuneInString] for the byte that
    starts the last rune, looking at no more than [utf8.UTFMax] bytes. *)
Fixpoint last_start (fuel : nat) (s : string) (start lim : Z) : Z :=
  match fuel with
  | O => start
  | S f =>
      if start <? lim then start
      else if RuneStart (byte_at s start) then start
      else last_start f s (start - 1) lim
  end.

(** [utf8.DecodeLastRuneInString(s)] *)
Definition DecodeLastRune (s : string) : Z * nat :=
  let n := len s in
  if n =? 0 then (RuneError, 0%nat)
  else
    let r := byte_at s (n - 1) in
    if r <? 128 then (r, 1%nat)
    else
      let lim := Z.max 0 (n - 4) in
      let start := Z.max 0 (last_start 4 s (n - 2) lim) in
      let (r', size) := DecodeRune (drop (Z.to_nat start) s) in
      if start + Z.of_nat size =? n then (r', size) else (RuneError, 1%nat).

(** [strings.TrimLeftFunc(s, unicode.IsSpace)] *)
Fixpoint TrimLeftSpace (fuel : nat) (s : string) : string :=
  match fuel with
  | O => s
  | S f =>
      let (r, w) := DecodeRune s in
      match w with
      | O => s
      | _ => if IsSpace r then TrimLeftSpace f (drop w s) else s
      end
  end.

(** [strings.TrimRightFunc(s, unicode.IsSpace)] *)
Fixpoint TrimRightSpace (fuel : nat) (s : string) : string :=
  match fuel with
  | O => s
  | S f =>
      let (r, w) := DecodeLastRune s in
      match w with
      | O => s
      | _ =>
          if IsSpace r then TrimRightSpace f (take (String.length s - w) s)
          else s
      end
  end.

(** [strings.TrimSpace(s)]: leading and trailing Unicode white space
    removed.  Each round removes at least one byte, so [length s] rounds
    are enough. *)
Definition TrimSpace (s : string) : string :=
  let l := TrimLeftSpace (String.length s) s in
  TrimRightSpace (String.length l) l.

(** *** [strconv.FormatUint(n, 10)] *)

Definition digit (d : Z) : ascii := chr (48 + d).

Fixpoint format_digits (fuel : nat) (n : Z) (acc : string) : string :=
  match fuel with
  | O => acc
  | S f =>
      let acc' := String (digit (n mod 10)) acc in
      if n <? 10 then acc' else format_digits f (n / 10) acc'
  end.

(** A [uint64] has at most 20 decimal digits. *)
Definition FormatUint (n : Z) : string := format_digits 20 n EmptyString.

End Go.


(** ** Package [partutil]: size strings *)

Module partutil.

Definition is_digit (c : ascii) : bool := Go.between 48 (Go.byte c) 57.

(** Bytes per unit: [B], [K] = 1024 B, [M] = 1024 K, [G] = 1024 M. *)
Definition unit_bytes (c : ascii) : option Z :=
  if Ascii.eqb c "B" then Some 1
  else if Ascii.eqb c "K" then Some 1024
  else if Ascii.eqb c "M" then Some (1024 * 1024)
  else if Ascii.eqb c "G" then Some (1024 * 1024 * 1024)
  else None.

(** A decimal number, then nothing (a count of 512-byte sectors) or one
    unit letter; [acc] is the number read so far, [None] before the first
    digit. *)
Fixpoint parse_size (acc : option Z) (s : string) : option Z :=
  match s with
  | EmptyString => option_map (fun n => n * 512) acc
  | String c s' =>
      if is_digit c then
        parse_size
          (Some (10 * match acc with Some n => n | None => 0 end
                 + (Go.byte c - 48))) s'
      else
        match s', acc with
        | EmptyString, Some n => option_map (Z.mul n) (unit_bytes c)
        | _, _ => None
        end
  end.

(** Modelled from the spec: [partutil.ConvertSizeToBytes] is called by
    [validateOEM] but its file is not among the sources.  Spec 4.1: it
    "accepts a decimal number followed by an optional single-letter unit
    (B, K, M, G; absence of a unit means the number is already a count of
    512-byte sectors and must be multiplied by 512)" and fails "on
    non-numeric input, unknown unit suffix, or negative values"; the
    conversion "must be exact", so a size that does not fit the [uint64]
    result is refused too.  [None] is the error result. *)
Definition ConvertSizeToBytes (size : string) : option Z :=
  match parse_size None size with
  | Some b => if b <? 2 ^ 64 then Some b else None
  | None => None
  end.

(** Modelled from the spec: [partutil.ConvertSizeToGBRoundUp] is not among
    the sources either.  Spec 4.1: "integer division rounded up", "must
    never round down". *)
Definition ConvertSizeToGBRoundUp (size : string) : option Z :=
  option_map (fun b => (b + (2 ^ 30 - 1)) / 2 ^ 30) (ConvertSizeToBytes size).

End partutil.

(** ** Package [cmd]: [validateOEM] *)

Module cmd.

(** The fields of [config.Build] that [validateOEM] reads and writes.
    [DiskSize] is a Go [int], [OEMFSSize4K] a [uint64]. *)
Record Build : Type := mkBuild {
  SealOEM : bool;
  OEMSize : string;
  OEMFSSize4K : Z;
  DiskSize : Z
}.

Definition set_OEMSize (b : Build) (v : string) : Build :=
  mkBuild (SealOEM b) v (OEMFSSize4K b) (DiskSize b).

Definition set_OEMFSSize4K (b : Build) (v : Z) : Build :=
  mkBuild (SealOEM b) (OEMSize b) v (DiskSize b).

(** The error values [validateOEM] builds with [fmt.Errorf]. *)
Inductive Error : Type :=
| InvalidOEMSizeFormat (oemSize : string)
    (* "invalid format of oem-size: %q, error msg:(%v)" *)
| NeedExtraDiskSpace
    (* "need extra disk space to seal the OEM partition, disk-size-gb
       should be at least 11" *)
| DiskSizeTooSmall (sizeErrorMsg : string) (imgSize : Z).
    (* fmt.Errorf(sizeErrorMsg, imgSize) *)

Definition msgNoSeal : string :=
  "'disk-size-gb' must be at least 'oem-size' + image size (%dGB)".

Definition msgSeal : string :=
  "'disk-size-gb' must be at least 'oem-size' x 2 + image size (%dGB)".

(** The default size of a COS image, in GB. *)
Definition imgSize : Z := 10.

(** The part of [validateOEM] after the [if]/[else] (lines 209-229): round
    the partition size up to whole GB, compare with the disk size, shrink
    the OEM size by 1 MB. *)
Definition checkDiskSize (b : Build) (sizeErrorMsg : string)
    (oemSizeBytes : Z) : Build * option Error :=
  match partutil.ConvertSizeToGBRoundUp (Go.FormatUint oemSizeBytes ++ "B") with
  | None => (b, Some (InvalidOEMSizeFormat (OEMSize b)))
  | Some oemSizeGB =>
      if Go.u64 (DiskSize b) <? Go.u64 (imgSize + oemSizeGB) then
        (b, Some (DiskSizeTooSmall sizeErrorMsg imgSize))
      else
        (set_OEMSize b
           (Go.FormatUint (Go.u64 (Z.shiftr oemSizeBytes 20 - 1)) ++ "M"),
         None)
  end.

(** [validateOEM(buildConfig *config.Build) error]: the configuration as the
    call leaves it, and the error returned ([None] is [nil]). *)
Definition validateOEM (b : Build) : Build * option Error :=
  if negb (SealOEM b) then
    if String.eqb (OEMSize b) "" then (b, None)
    else
      match partutil.ConvertSizeToBytes (OEMSize b) with
      | None => (b, Some (InvalidOEMSizeFormat (OEMSize b)))
      | Some oemSizeBytes => checkDiskSize b msgNoSeal oemSizeBytes
      end
  else
    if String.eqb (OEMSize b) "" then
      if DiskSize b <? 11 then (b, Some NeedExtraDiskSpace)
      else (set_OEMFSSize4K (set_OEMSize b "32M") 4096, None)
    else
      match partutil.ConvertSizeToBytes (OEMSize b) with
      | None => (b, Some (InvalidOEMSizeFormat (OEMSize b)))
      | Some oemSizeBytes =>
          let b := set_OEMFSSize4K b (Z.shiftr oemSizeBytes 12) in
          let oemSizeBytes := Go.u64 (Z.shiftl oemSizeBytes 1) in
          checkDiskSize b msgSeal oemSizeBytes
      end.

End cmd.


(** ** Package [tools]: sealing the OEM partition *)

Module tools.

(** *** Effects

    The functions of [seal_oem_partition.go] run external commands, log,
    read the partition UUID and read and write [grub.cfg].  What the outside
    world answers is an environment [Env]; what the code does to it is the
    list of [Event]s of a run, in the order they happen, and the file store
    it leaves.  A run of [SealOEMPartition] issues no command line twice,
    so one answer per command line describes any behaviour of the outside
    world during a run. *)

Inductive Event : Type :=
| Exec (argv : list string)          (* cmd.Run() of exec.Command(argv...) *)
| Log (msg : string)                 (* log.Println(msg) *)
| GetPartUUID (path : string)        (* partutil.GetPartUUID(path) *)
| ReadFile (path : string)           (* ioutil.ReadFile(path) *)
| WriteFile (path content : string). (* ioutil.WriteFile(path, content, 0755) *)

(** What becomes of a call [ioutil.WriteFile(path, data, perm)], which opens
    the file with [O_WRONLY|O_CREATE|O_TRUNC], writes the data and closes
    the file. *)
Inductive WriteOutcome : Type :=
| Written            (* the call returns [nil]: the file holds the data *)
| NotOpened          (* [os.OpenFile] fails: the file is as it was *)
| CutShort (k : nat).
    (* the file was opened, hence truncated, and the write or the close
       failed: the file holds the first [k] bytes of the data *)

Record Env : Type := mkEnv {
  (** standard output of a command that exits with status 0; [None] when
      [cmd.Run()] returns an error *)
  run : list string -> option string;
  (** the answer of [partutil.GetPartUUID]; [None] is its error *)
  partUUID : string -> option string;
  (** what becomes of [ioutil.WriteFile(path, data, 0755)] *)
  writeOutcome : string -> string -> WriteOutcome
}.

(** The files, by path. *)
Definition Files : Type := string -> option string.

Definition write (path content : string) (fs : Files) : Files :=
  fun p => if String.eqb p path then Some content else fs p.

(** A call either returns a value or panics (a run-time error that ends the
    process: an index or slice bound out of range). *)
Inductive Result (A : Type) : Type :=
| Val (a : A)
| Panic.
Arguments Val {A} a.
Arguments Panic {A}.

(** Go [error] values: the failure of a library call, or an [fmt.Errorf] of
    one of the sources' call sites around the error it reports.  The sites,
    by the words their messages start with:
    - in [SealOEMPartition]: [CannotLoadImage] (cannot load veritysetup
      image), [CannotUmountOEM] (cannot umount OEM partition),
      [CannotRunVeritysetup] (cannot run veritysetup), [CannotMountEFI]
      (cannot mount EFI partition), [CannotReadPartUUID] (cannot read
      partUUID of /dev/sda8), [ErrorAppendingEntry] (error in appending
      entry to grub.cfg), [CannotRemoveImage] (cannot remove veritysetup
      container or image);
    - in [loadVeritysetupImage]: [LoadingDockerImage], [ReadingImageID],
      [ImageIDNotFound]; in [removeVeritysetupImage]: [RemovingDockerImage];
    - in [mountEFIPartition]: [CreatingTmpDir], [MountingEFI]; in
      [unmountOEMPartition]: [RunningDf], [UnmountingOEM];
    - in [veritysetup]: [RunningDockerVeritysetup],
      [VeritysetupOutputFormat] (error in veritsetup output format, cannot
      find Salt: or Root hash:);
    - in [appendDMEntryToGRUB]: [CannotReadGrub], [CannotWriteGrub]. *)
Inductive Site : Type :=
| CannotLoadImage | CannotUmountOEM | CannotRunVeritysetup | CannotMountEFI
| CannotReadPartUUID | ErrorAppendingEntry | CannotRemoveImage
| LoadingDockerImage | ReadingImageID | ImageIDNotFound
| RemovingDockerImage
| CreatingTmpDir | MountingEFI
| RunningDf | UnmountingOEM
| RunningDockerVeritysetup | VeritysetupOutputFormat
| CannotReadGrub | CannotWriteGrub.

Inductive error : Type :=
| LibError                              (* returned by the library call *)
| Errorf (site : Site)                  (* fmt.Errorf without a cause *)
| Wrapf (site : Site) (cause : error).  (* fmt.Errorf("... (%v)", err) *)

Definition M (A : Type) : Type := Files -> Result A * list Event * Files.

Definition ret {A} (a : A) : M A := fun fs => (Val a, [], fs).

Definition bind {A B} (m : M A) (f : A -> M B) : M B :=
  fun fs =>
    match m fs with
    | (Val a, ev, fs') =>
        match f a fs' with
        | (r, ev', fs'') => (r, (ev ++ ev')%list, fs'')
        end
    | (Panic, ev, fs') => (Panic, ev, fs')
    end.

Definition emit (e : Event) : M unit := fun fs => (Val tt, [e], fs).

Declare Scope go_scope.
Delimit Scope go_scope with go.
Notation "x <- m ;; k" := (bind m (fun x => k))
  (at level 61, m at next level, right associativity) : go_scope.
Notation "m ;;; k" := (bind m (fun _ => k))
  (at level 61, right associativity) : go_scope.
Open Scope go_scope.

Definition Println (msg : string) : M unit := emit (Log msg).

(** A computation without effects, run inside [M]. *)
Definition lift {A} (r : Result A) : M A := fun fs => (r, [], fs).

(** [s[:n]], which panics unless [0 <= n <= len(s)]. *)
Definition slice (s : string) (n : Z) : Result string :=
  if (0 <=? n) && (n <=? Go.len s) then Val (Go.take (Z.to_nat n) s)
  else Panic.

Definition slice_to (s : string) (n : Z) : M string := lift (slice s n).

(** [ioutil.ReadFile(path)]: the contents, or [None] for its error. *)
Definition readFile (path : string) : M (option string) :=
  fun fs => (Val (fs path), [ReadFile path], fs).

Definition nl : string := String Go.LF EmptyString.

Section WithEnv.

Variable env : Env.

(** [cmd.Run()]: the standard output, or [None] when the command fails. *)
Definition Run (argv : list string) : M (option string) :=
  emit (Exec argv) ;;; ret (run env argv).

(** [loadVeritysetupImage(imgPath) (string, error)] *)
Definition loadVeritysetupImage (imgPath : string)
  : M (string * option error) :=
  r <- Run ["sudo"; "docker"; "load"; "-i"; imgPath] ;;
  match r with
  | None => ret ("", Some (Wrapf LoadingDockerImage LibError))
  | Some _ =>
      r <- Run ["sudo"; "docker"; "images"; "veritysetup:veritysetup"; "-q"] ;;
      match r with
      | None => ret ("", Some (Wrapf ReadingImageID LibError))
      | Some idBuf =>
          if Go.len idBuf =? 0 then
            ret ("", Some (Errorf ImageIDNotFound))
          else
            imageID <- slice_to idBuf (Go.len idBuf - 1) ;;
            ret (imageID, None)
      end
  end.

(** [removeVeritysetupImage(imageID) error] *)
Definition removeVeritysetupImage (imageID : string) : M (option error) :=
  r <- Run ["sudo"; "docker"; "rmi"; imageID] ;;
  match r with
  | None => ret (Some (Wrapf RemovingDockerImage LibError))
  | Some _ => ret None
  end.

(** [mountEFIPartition() (string, error)] *)
Definition mountEFIPartition : M (string * option error) :=
  r <- Run ["mktemp"; "-d"] ;;
  match r with
  | None => ret ("", Some (Wrapf CreatingTmpDir LibError))
  | Some tmpDirBuf =>
      dir <- slice_to tmpDirBuf (Go.len tmpDirBuf - 1) ;;
      r <- Run ["sudo"; "mount"; "/dev/sda12"; dir] ;;
      match r with
      | None => ret ("", Some (Wrapf MountingEFI LibError))
      | Some _ => ret (dir ++ "/efi/boot", None)
      end
  end.

(** [unmountOEMPartition() error] *)
Definition unmountOEMPartition : M (option error) :=
  r <- Run ["df"] ;;
  match r with
  | None => ret (Some (Wrapf RunningDf LibError))
  | Some buf =>
      if negb (Go.Contains buf "/dev/sda8") then ret None
      else
        r <- Run ["sudo"; "umount"; "/dev/sda8"] ;;
        match r with
        | None => ret (Some (Wrapf UnmountingOEM LibError))
        | Some _ => ret None
        end
  end.

(** The loop of [veritysetup] over the lines of the tool's report (lines
    159-165); [hash] and [salt] are the values found so far.
    [strings.Split(line, ":")[1]] is an index expression, hence the
    [Panic] case. *)
Definition field1 (line : string) : Result string :=
  match nth_error (Go.Split line ":"%char) 1 with
  | Some f => Val f
  | None => Panic
  end.

Fixpoint scanReport (lines : list string) (hash salt : string)
  : Result (string * string) :=
  match lines with
  | [] => Val (hash, salt)
  | line :: rest =>
      if Go.HasPrefix line "Root hash:" then
        match field1 line with
        | Val f => scanReport rest (Go.TrimSpace f) salt
        | Panic => Panic
        end
      else if Go.HasPrefix line "Salt:" then
        match field1 line with
        | Val f => scanReport rest hash (Go.TrimSpace f)
        | Panic => Panic
        end
      else scanReport rest hash salt
  end.

(** The command line of the hash-tree tool (lines 135-140). *)
Definition veritysetupArgv (imageID : string) (oemFSSize4K : Z)
  : list string :=
  let dataBlocks := "--data-blocks=" ++ Go.FormatUint oemFSSize4K in
  let hashOffset :=
    "--hash-offset=" ++ Go.FormatUint (Go.u64 (Z.shiftl oemFSSize4K 12)) in
  ["sudo"; "docker"; "run"; "--rm"; "--name"; "veritysetup"; "--privileged";
   "-v"; "/dev:/dev"; imageID; "veritysetup"; "format"; "/dev/sda8";
   "/dev/sda8"; "--data-block-size=4096"; "--hash-block-size=4096";
   dataBlocks; hashOffset; "--no-superblock"; "--format=0"].

(** [veritysetup(imageID, oemFSSize4K) (string, string, error)] *)
Definition veritysetup (imageID : string) (oemFSSize4K : Z)
  : M (string * string * option error) :=
  r <- Run (veritysetupArgv imageID oemFSSize4K) ;;
  match r with
  | None => ret ("", "", Some (Wrapf RunningDockerVeritysetup LibError))
  | Some verityBuf =>
      hs <- lift (scanReport (Go.Split verityBuf Go.LF) "" "") ;;
      let (hash, salt) := hs : string * string in
      if String.eqb hash "" || String.eqb salt "" then
        ret ("", "", Some (Errorf VeritysetupOutputFormat))
      else ret (hash, salt, None)
  end.

(** The table entry [appendDMEntryToGRUB] appends (lines 179-181); the
    format ends with the closing double quote. *)
Definition entryString (name partUUID hash salt : string) (oemFSSize4K : Z)
  : string :=
  let oemFSSizeSector := Go.u64 (Z.shiftl oemFSSize4K 3) in
  name ++ " none ro 1, 0 " ++ Go.FormatUint oemFSSizeSector
  ++ " verity payload=PARTUUID=" ++ partUUID
  ++ " hashtree=PARTUUID=" ++ partUUID
  ++ " hashstart=" ++ Go.FormatUint oemFSSizeSector
  ++ " alg=sha256 root_hexdigest=" ++ hash
  ++ " salt=" ++ salt ++ String Go.dquote EmptyString.

(** The rune ['2']. *)
Definition rune2 : Z := 50.

(** The body of the loop of [appendDMEntryToGRUB] (lines 190-199): the
    value of [lines[idx]] after the iteration. *)
Definition patchLine (entry line : string) : Result string :=
  if negb (Go.Contains line "dm=") then Val line
  else
    let startPos := Go.Index line "dm=" in
    match slice line (Go.len line - 1) with
    | Panic => Panic
    | Val truncated =>
        let lineBuf := Go.runes truncated in
        if startPos + 4 <? 0 then Panic
        else
          match Go.set_index lineBuf (Z.to_nat (startPos + 4)) rune2 with
          | None => Panic
          | Some lineBuf =>
              Val (Go.Join
                     (Go.Split (Go.string_of_runes lineBuf) ","%char
                      ++ [entry])%list ",")
          end
    end.

Fixpoint patchLines (entry : string) (lines : list string)
  : Result (list string) :=
  match lines with
  | [] => Val []
  | line :: rest =>
      match patchLine entry line with
      | Panic => Panic
      | Val line' =>
          match patchLines entry rest with
          | Panic => Panic
          | Val rest' => Val (line' :: rest')
          end
      end
  end.

(** [ioutil.WriteFile(path, content, 0755)]: [false] is its error.  A call
    that fails leaves the file as it was if it could not open it, and
    otherwise truncated, with as much of the content as was written. *)
Definition writeFile (path content : string) : M bool :=
  fun fs =>
    match writeOutcome env path content with
    | Written =>
        (Val true, [WriteFile path content], write path content fs)
    | NotOpened => (Val false, [WriteFile path content], fs)
    | CutShort k =>
        (Val false, [WriteFile path content],
         write path (Go.take k content) fs)
    end.

(** [appendDMEntryToGRUB(grubPath, name, partUUID, hash, salt, oemFSSize4K)
    error] *)
Definition appendDMEntryToGRUB (grubPath name partUUID hash salt : string)
    (oemFSSize4K : Z) : M (option error) :=
  let grubPath := grubPath ++ "/grub.cfg" in
  let entry := entryString name partUUID hash salt oemFSSize4K in
  r <- readFile grubPath ;;
  match r with
  | None => ret (Some (Wrapf CannotReadGrub LibError))
  | Some grubContent =>
      lines <- lift (patchLines entry (Go.Split grubContent Go.LF)) ;;
      ok <- writeFile grubPath (Go.Join lines nl) ;;
      if ok : bool then ret None
      else ret (Some (Wrapf CannotWriteGrub LibError))
  end.

(** [partutil.GetPartUUID(path)], answered by the environment. *)
Definition getPartUUID (path : string) : M (option string) :=
  emit (GetPartUUID path) ;;; ret (partUUID env path).

(** [SealOEMPartition(oemFSSize4K) error] *)
Definition SealOEMPartition (oemFSSize4K : Z) : M (option error) :=
  let devName := "oemroot" in
  let veritysetupImgPath := "./veritysetup.img" in
  p <- loadVeritysetupImage veritysetupImgPath ;;
  let (imageID, err) := p : string * option error in
  match err with
  | Some e => ret (Some (Wrapf CannotLoadImage e))
  | None =>
  Println "docker image for veritysetup loaded." ;;;
  err <- unmountOEMPartition ;;
  match err with
  | Some e => ret (Some (Wrapf CannotUmountOEM e))
  | None =>
  Println "OEM parititon unmounted." ;;;
  p <- veritysetup imageID oemFSSize4K ;;
  let '(hash, salt, err) := p : string * string * option error in
  match err with
  | Some e => ret (Some (Wrapf CannotRunVeritysetup e))
  | None =>
  p <- mountEFIPartition ;;
  let (grubPath, err) := p : string * option error in
  Println "EFI parititon mounted." ;;;
  match err with
  | Some e => ret (Some (Wrapf CannotMountEFI e))
  | None =>
  u <- getPartUUID "/dev/sda8" ;;
  match u with
  | None => ret (Some (Errorf CannotReadPartUUID))
  | Some partUUID =>
  err <- appendDMEntryToGRUB grubPath devName partUUID hash salt oemFSSize4K ;;
  match err with
  | Some e => ret (Some (Wrapf ErrorAppendingEntry e))
  | None =>
  Println "kernel command line modified." ;;;
  err <- removeVeritysetupImage imageID ;;
  match err with
  | Some e => ret (Some (Wrapf CannotRemoveImage e))
  | None =>
  Println "docker image and container for veritysetup removed." ;;;
  ret None
  end end end end end end end.

End WithEnv.

End tools.

(** ** More of the Go library: [strconv.Atoi] and [%d] *)

Module GoConv.
Import Go.

(** The value of a non-empty string of decimal digits; [acc] is the number
    read so far, [None] before the first digit. *)
Fixpoint digits_value (acc : option Z) (s : string) : option Z :=
  match s with
  | EmptyString => acc
  | String c s' =>
      if between 48 (byte c) 57 then
        digits_value
          (Some (10 * match acc with Some n => n | None => 0 end
                 + (byte c - 48))) s'
      else None
  end.

(** [strconv.Atoi(s)] for a 64-bit [int]: an optional sign, then decimal
    digits, at least one; [None] is the error (a syntax error, or a value
    outside the range of [int]). *)
Definition Atoi (s : string) : option Z :=
  match s with
  | EmptyString => None
  | String c rest =>
      let neg := Ascii.eqb c "-" in
      let ds := if Ascii.eqb c "-" || Ascii.eqb c "+" then rest else s in
      match digits_value None ds with
      | Some u =>
          let n := if neg then - u else u in
          if (- 2 ^ 63 <=? n) && (n <=? 2 ^ 63 - 1) then Some n else None
      | None => None
      end
  end.

(** The verb [%d] of [fmt] on an [int], which is [strconv.Itoa]. *)
Definition Itoa (n : Z) : string :=
  if n <? 0 then String "-" (FormatUint (- n)) else FormatUint n.

End GoConv.

(** ** Package [partutil]: [MovePartition] *)

Module movepart.
Import Go GoConv.

Inductive Event : Type :=
| ExecCmdToStdout (cmd : string)  (* partutil.ExecCmdToStdout(cmd) *)
| Printf (msg : string).          (* log.Printf *)

Inductive error : Type :=
| InvalidInput (disk : string) (partNumInt : Z) (dest : string)
    (* "invalid input: disk=%s, partNumInt=%d, dest=%s" *)
| SfdiskFailed (disk : string) (partNumInt : Z) (dest : string).
    (* "error in executing sfdisk --move-data, ..." *)

(** The shell command line of [MovePartition] (line 29 of its file). *)
Definition moveCommand (disk : string) (partNumInt : Z) (dest : string)
  : string :=
  "echo " ++ dest
  ++ " | sudo sfdisk --no-reread --move-data=/dev/null " ++ disk
  ++ " -N " ++ Itoa partNumInt.

(** [MovePartition(disk, partNumInt, dest) error]; [execOK] says whether
    [partutil.ExecCmdToStdout], which is not among the sources, returns
    [nil] for a command line.  The result is the error ([None] is [nil])
    and what the call did. *)
Definition MovePartition (execOK : string -> bool)
    (disk : string) (partNumInt : Z) (dest : string)
  : option error * list Event :=
  if (len disk <=? 0) || (partNumInt <=? 0) || (len dest <=? 0) then
    (Some (InvalidInput disk partNumInt dest), [])
  else
    let cmd := moveCommand disk partNumInt dest in
    if negb (execOK cmd) then
      (Some (SfdiskFailed disk partNumInt dest), [ExecCmdToStdout cmd])
    else
      (None,
       [ExecCmdToStdout cmd;
        Printf (String LF "Completed moving " ++ disk ++ Itoa partNumInt
                ++ " " ++ String LF (String LF ""))]).

End movepart.

(** ** The command [extend_oem]: [main] *)

Module extend_oem.
Import Go GoConv.

(** How the process ends: [main] returns (exit status 0) or
    [log.Fatalln] ends it with status 1 after logging. *)
Inductive Fatal : Type :=
| WrongArgumentCount   (* "error: must have 4 arguments: ..." *)
| BadStatePartNum      (* "error: the 2nd argument statePartNum must be an int" *)
| BadOEMPartNum        (* "error: the 3rd argument oemPartNum must be an int" *)
| ExtendFailed.        (* log.Fatalln(err) *)

(** A call [tools.ExtendOEMPartition(disk, statePartNum, oemPartNum,
    oemSize)]. *)
Record Call : Type := mkCall {
  disk : string; statePartNum : Z; oemPartNum : Z; oemSize : string
}.

(** [main()] on [os.Args = args]; [extendOK] says whether
    [tools.ExtendOEMPartition], which is not among the sources, returns
    [nil].  The result is the fatal error, if any, and the calls of
    [ExtendOEMPartition] made. *)
Definition main (extendOK : Call -> bool) (args : list string)
  : option Fatal * list Call :=
  if negb (Z.of_nat (List.length args) =? 5) then (Some WrongArgumentCount, [])
  else
    match Atoi (nth 2 args "") with
    | None => (Some BadStatePartNum, [])
    | Some statePartNum =>
        match Atoi (nth 3 args "") with
        | None => (Some BadOEMPartNum, [])
        | Some oemPartNum =>
            let c := mkCall (nth 1 args "") statePartNum oemPartNum
                       (nth 4 args "") in
            if extendOK c then (None, [c]) else (Some ExtendFailed, [c])
        end
    end.

End extend_oem.

(** ** Package [cmd]: the command [finish-image-build] *)

Module finish.
Import Go.

(** A Go [map[string]string]: its entries, keys distinct, in the order a
    [range] over it happens to visit them. *)
Definition Map : Type := list (string * string).

(** [m[k]] with the comma-ok form: the value, if the key is present. *)
Fixpoint lookup (k : string) (m : Map) : option string :=
  match m with
  | [] => None
  | (k', v) :: m' => if String.eqb k' k then Some v else lookup k m'
  end.

(** [m[k] = v] for a key that is not in [m]. *)
Definition insert_new (k v : string) (m : Map) : Map := (m ++ [(k, v)])%list.

(** [update(dst, src)]: [dst] after the loop over the entries of [src]. *)
Fixpoint update (dst src : Map) : Map :=
  match src with
  | [] => dst
  | (k, v) :: src' =>
      match lookup k dst with
      | Some _ => update dst src'
      | None => update (insert_new k v dst) src'
      end
  end.

(** The receiver of the methods: the values of the flags.  [timeout] stands
    for [f.timeout.String()], [labels] for [f.labels.m] and [licenses] for
    [f.licenses.l]; [oldImageTTLSec] and [diskSize] are Go [int]s. *)
Record FinishImageBuild : Type := mkFinishImageBuild {
  imageProject : string;
  zone : string;
  project : string;
  imageName : string;
  imageSuffix : string;
  imageFamily : string;
  deprecateOld : bool;
  oldImageTTLSec : Z;
  labels : Map;
  licenses : list string;
  inheritLabels : bool;
  oemSize : string;
  diskSize : Z;
  timeout : string
}.

(** The errors of [validate]. *)
Inductive FlagError : Type :=
| InvalidOEMSize (oemSize : string)
    (* "invalid format of oem-size: %q, error msg:(%v)" *)
| OEMSizeTooSmall (defaultOEMSizeMB : Z)
    (* "oem-size must be at least %dM" *)
| NameOrSuffixRequired
    (* "one of 'image-name' or 'image-suffix' must be set" *)
| NameAndSuffixExclusive
    (* "'image-name' and 'image-suffix' are mutually exclusive" *)
| DeprecateNeedsFamily
    (* "'deprecate-old-images' can only be used if 'image-family' is set" *)
| TTLNeedsDeprecate
    (* "'old-image-ttl' can only be used if 'deprecate-old-images' is set" *)
| ZoneRequired      (* "'zone' must be set" *)
| ProjectRequired.  (* "'project' must be set" *)

(** The default size of the OEM partition of a COS image, in MB. *)
Definition defaultOEMSizeMB : Z := 16.

Definition nonempty (s : string) : bool := negb (String.eqb s "").

(** The [switch] of [validate] (lines 121-136). *)
Definition validateSwitch (f : FinishImageBuild) : option FlagError :=
  if String.eqb (imageName f) "" && String.eqb (imageSuffix f) "" then
    Some NameOrSuffixRequired
  else if nonempty (imageName f) && nonempty (imageSuffix f) then
    Some NameAndSuffixExclusive
  else if deprecateOld f && String.eqb (imageFamily f) "" then
    Some DeprecateNeedsFamily
  else if negb (oldImageTTLSec f =? 0) && negb (deprecateOld f) then
    Some TTLNeedsDeprecate
  else if String.eqb (zone f) "" then Some ZoneRequired
  else if String.eqb (project f) "" then Some ProjectRequired
  else None.

(** [(f *FinishImageBuild) validate() error] *)
Definition validate (f : FinishImageBuild) : option FlagError :=
  if nonempty (oemSize f) then
    match partutil.ConvertSizeToBytes (oemSize f) with
    | None => Some (InvalidOEMSize (oemSize f))
    | Some oemSizeBytes =>
        if oemSizeBytes <? Z.shiftl defaultOEMSizeMB 20 then
          Some (OEMSizeTooSmall defaultOEMSizeMB)
        else validateSwitch f
    end
  else validateSwitch f.

(** The fields of [config.Image] that the command reads and writes. *)
Record Image : Type := mkImage {
  Name : string;
  Project : string;
  Labels : Map;
  Licenses : list string;
  Family : string
}.

(** [config.Build] as the command sees it: the fields [validateOEM] works
    on, and the three [loadConfigs] sets besides. *)
Record BuildConfig : Type := mkBuildConfig {
  BuildProject : string;
  BuildZone : string;
  BuildTimeout : string;
  build : cmd.Build
}.

(** [config.NewImage(name, project)], which is not among the sources: an
    image configuration with this name and project and nothing else
    set. *)
Definition NewImage (name project : string) : Image :=
  mkImage name project [] [] "".

(** [(f *FinishImageBuild) loadConfigs(files)]: [source] and [buildFile] are
    what [config.LoadFromFile] reads from the two files, [None] for its
    error.  The result is the source image, the build and the output image
    configurations, or [None] for the error. *)
Definition loadConfigs (f : FinishImageBuild)
    (source : option Image) (buildFile : option BuildConfig)
  : option (Image * BuildConfig * Image) :=
  match source with
  | None => None
  | Some sourceImageConfig =>
      let imageName :=
        if nonempty (imageSuffix f) then
          Name sourceImageConfig ++ imageSuffix f
        else imageName f in
      match buildFile with
      | None => None
      | Some buildConfig =>
          let buildConfig :=
            mkBuildConfig (project f) (zone f) (timeout f)
              (cmd.mkBuild (cmd.SealOEM (build buildConfig)) (oemSize f)
                 (cmd.OEMFSSize4K (build buildConfig)) (diskSize f)) in
          let outputImageConfig :=
            mkImage imageName (imageProject f) (labels f) (licenses f)
              (imageFamily f) in
          Some (sourceImageConfig, buildConfig, outputImageConfig)
      end
  end.

(** [subcommands.ExitStatus] *)
Inductive ExitStatus : Type := ExitSuccess | ExitFailure | ExitUsageError.

(** What [preloader.BuildImage] returns: [nil], an [*exec.ExitError], or
    another error. *)
Inductive BuildOutcome : Type := BuildOK | BuildExitError | BuildError.

(** The errors [Execute] logs. *)
Inductive ExecError : Type :=
| ClientsError
| FlagsError (e : FlagError)
| ConfigError
| OEMError (e : cmd.Error)
| ArchiveError
| ImageExistsError
| ImagesGetError
| BuildFailure (exitError : bool)
| DeprecateError.

(** What a run of [Execute] does, in order. *)
Inductive Event : Type :=
| FlagsUsage                             (* flags.Usage() *)
| NewServiceClients                      (* args[1].(ServiceClients)(ctx, false) *)
| LoadSourceImageConfig                  (* config.LoadFromFile(files.SourceImageConfig, ...) *)
| LoadBuildConfig                        (* config.LoadFromFile(files.BuildConfig, ...) *)
| CreateBuildContextArchive              (* fs.CreateBuildContextArchive(...) *)
| ImageExists (project name : string)    (* gce.ImageExists(svc, project, name) *)
| ImagesGet (project name : string)      (* svc.Images.Get(project, name).Do() *)
| BuildImage (source output : Image) (b : BuildConfig)
                                         (* preloader.BuildImage(...) *)
| DeprecateInFamily (output : Image) (ttl : Z)
                                         (* gce.DeprecateInFamily(...) *)
| LogError (e : ExecError)               (* log.Println(err), log.Printf *)
| LogExists (name project : string)      (* "Result image %s already exists ..." *)
| GcsClientClose                         (* deferred gcsClient.Close() *)
| CleanupAllPersistent.                  (* deferred files.CleanupAllPersistent() *)

(** The answers of what [Execute] calls outside the sources. *)
Record World : Type := mkWorld {
  NArg : Z;                                  (* flags.NArg() *)
  serviceClients : bool;                     (* no error from args[1] *)
  sourceImageFile : option Image;
  buildConfigFile : option BuildConfig;
  createArchive : bool;
  imageExists : string -> string -> option bool;
  imagesGet : string -> string -> option Map; (* the image's labels *)
  buildImage : Image -> Image -> BuildConfig -> BuildOutcome;
  deprecateInFamily : Image -> Z -> bool
}.

(** A function body between a [defer] and the function's return: the
    deferred call runs after everything the body did. *)
Definition defer (d : Event) (body : ExitStatus * list Event)
  : ExitStatus * list Event :=
  let (status, ev) := body in (status, (ev ++ [d])%list).

(** A call that is made and then the rest of the body. *)
Definition after (e : list Event) (rest : ExitStatus * list Event)
  : ExitStatus * list Event :=
  let (status, ev) := rest in (status, (e ++ ev)%list).

Definition fail (e : ExecError) : ExitStatus * list Event :=
  (ExitFailure, [LogError e]).

Section WithWorld.

Variable w : World.

(** [Execute] from the call of [preloader.BuildImage] on (lines
    289-303). *)
Definition buildAndDeprecate (f : FinishImageBuild)
    (sourceImage outputImage : Image) (buildConfig : BuildConfig)
  : ExitStatus * list Event :=
  after [BuildImage sourceImage outputImage buildConfig]
    match buildImage w sourceImage outputImage buildConfig with
    | BuildExitError => fail (BuildFailure true)
    | BuildError => fail (BuildFailure false)
    | BuildOK =>
        if deprecateOld f then
          after [DeprecateInFamily outputImage (oldImageTTLSec f)]
            (if deprecateInFamily w outputImage (oldImageTTLSec f) then
               (ExitSuccess, [])
             else fail DeprecateError)
        else (ExitSuccess, [])
    end.

(** [Execute] from [loadConfigs] on (lines 259-303). *)
Definition configureAndBuild (f : FinishImageBuild)
  : ExitStatus * list Event :=
  after [LoadSourceImageConfig]
    match sourceImageFile w with
    | None => fail ConfigError
    | Some _ =>
  after [LoadBuildConfig]
    match loadConfigs f (sourceImageFile w) (buildConfigFile w) with
    | None => fail ConfigError
    | Some (sourceImage, buildConfig, outputImage) =>
  match cmd.validateOEM (build buildConfig) with
  | (_, Some e) => fail (OEMError e)
  | (b, None) =>
  let buildConfig :=
    mkBuildConfig (BuildProject buildConfig) (BuildZone buildConfig)
      (BuildTimeout buildConfig) b in
  after [CreateBuildContextArchive]
    (if negb (createArchive w) then fail ArchiveError
     else
  after [ImageExists (Project outputImage) (Name outputImage)]
    match imageExists w (Project outputImage) (Name outputImage) with
    | None => fail ImageExistsError
    | Some true =>
        (ExitSuccess, [LogExists (Name outputImage) (Project outputImage)])
    | Some false =>
        if inheritLabels f then
          after [ImagesGet (Project sourceImage) (Name sourceImage)]
            match imagesGet w (Project sourceImage) (Name sourceImage) with
            | None => fail ImagesGetError
            | Some imageLabels =>
                let outputImage :=
                  mkImage (Name outputImage) (Project outputImage)
                    (update (Labels outputImage) imageLabels)
                    (Licenses outputImage) (Family outputImage) in
                buildAndDeprecate f sourceImage outputImage buildConfig
            end
        else buildAndDeprecate f sourceImage outputImage buildConfig
    end)
  end end end.

(** [(f *FinishImageBuild) Execute(ctx, flags, args...)], with [args[0]]
    and [args[1]] of the types the method asserts. *)
Definition Execute (f : FinishImageBuild) : ExitStatus * list Event :=
  if negb (NArg w =? 0) then (ExitUsageError, [FlagsUsage])
  else
    defer CleanupAllPersistent
      (after [NewServiceClients]
         (if negb (serviceClients w) then fail ClientsError
          else
            defer GcsClientClose
              match validate f with
              | Some e => fail (FlagsError e)
              | None => configureAndBuild f
              end)).

End WithWorld.

End finish.

(** ** Vocabulary of the statements *)

Module Spec.
Import Go.

(** The byte values of a string. *)
Fixpoint bytes (s : string) : list Z :=
  match s with
  | EmptyString => []
  | String c s' => byte c :: bytes s'
  end.

(** Every byte is below [utf8.RuneSelf]: the string is plain ASCII, and its
    runes are its bytes. *)
Fixpoint is_ascii (s : string) : bool :=
  match s with
  | EmptyString => true
  | String c s' => (byte c <? 128) && is_ascii s'
  end.

(** The characters up to the first space. *)
Fixpoint token (s : string) : string :=
  match s with
  | EmptyString => EmptyString
  | String c s' => if Ascii.eqb c " " then EmptyString else String c (token s')
  end.

(** A string of decimal digits as a number; [None] if it is empty or holds
    anything else. *)
Fixpoint decimal (acc : option Z) (s : string) : option Z :=
  match s with
  | EmptyString => acc
  | String c s' =>
      if partutil.is_digit c then
        decimal (Some (10 * match acc with Some n => n | None => 0 end
                       + (byte c - 48))) s'
      else None
  end.

(** The table-entry count of a boot line as the spec reads it (4.5): the
    token immediately following [dm=] and its opening double quote, located
    from the first [dm=] of the line. *)
Definition dmCount (line : string) : option Z :=
  match index_nat line "dm=" with
  | None => None
  | Some i =>
      match drop (i + 3) line with
      | String q t => if Ascii.eqb q dquote then decimal None (token t) else None
      | EmptyString => None
      end
  end.

(** The value the report loop of [veritysetup] reads off a line: the field
    between the first and the second colon, trimmed. *)
Definition fieldValue (line : string) : string :=
  TrimSpace (nth 1 (Split line ":"%char) EmptyString).

(** No line of the report starts with [p]. *)
Definition Absent (p : string) (lines : list string) : Prop :=
  forall line, In line lines -> HasPrefix line p = false.

(** The last line that starts with [p] carries an empty value. *)
Definition LastEmpty (p : string) (lines : list string) : Prop :=
  exists l1 x l2,
    lines = (l1 ++ x :: l2)%list /\ HasPrefix x p = true
    /\ fieldValue x = EmptyString /\ Absent p l2.

(** The report gives no value for the field with prefix [p]. *)
Definition Lacks (p : string) (lines : list string) : Prop :=
  Absent p lines \/ LastEmpty p lines.

(** The value of the last line with prefix [p], [cur] if there is none. *)
Fixpoint lastOf (p : string) (lines : list string) (cur : string) : string :=
  match lines with
  | [] => cur
  | line :: rest =>
      if HasPrefix line p then lastOf p rest (fieldValue line)
      else lastOf p rest cur
  end.

(** The three steps of sealing whose order the spec fixes (4.4). *)
Inductive Step : Type := LoadImage | EnsureUnmounted | RunHashTool.

(** The step a command belongs to: [docker load] and [docker images] load
    the tool's image, [df] and [umount] make sure the OEM partition is not
    mounted, [docker run] runs the hash-tree tool. *)
Definition stepOf (e : tools.Event) : option Step :=
  match e with
  | tools.Exec (a :: b :: c :: _) =>
      if String.eqb a "sudo" && String.eqb b "docker" then
        if String.eqb c "load" || String.eqb c "images" then Some LoadImage
        else if String.eqb c "run" then Some RunHashTool
        else None
      else if String.eqb a "sudo" && String.eqb b "umount" then
        Some EnsureUnmounted
      else None
  | tools.Exec [a] => if String.eqb a "df" then Some EnsureUnmounted else None
  | _ => None
  end.

Fixpoint steps (ev : list tools.Event) : list Step :=
  match ev with
  | [] => []
  | e :: ev' =>
      match stepOf e with
      | Some s => s :: steps ev'
      | None => steps ev'
      end
  end.

(** The order of the steps in the code: load, unmount, run. *)
Definition codeRank (s : Step) : nat :=
  match s with LoadImage => 0 | EnsureUnmounted => 1 | RunHashTool => 2 end.

(** The order of the steps in the spec: unmount, load, run. *)
Definition specRank (s : Step) : nat :=
  match s with EnsureUnmounted => 0 | LoadImage => 1 | RunHashTool => 2 end.

(** No step of a later rank happens before a step of an earlier one. *)
Definition inOrder (rank : Step -> nat) (ev : list tools.Event) : Prop :=
  StronglySorted le (map rank (steps ev)).

(** The result, the events and the files of a run. *)
Definition result {A} (x : tools.Result A * list tools.Event * tools.Files)
  : tools.Result A := fst (fst x).
Definition events {A} (x : tools.Result A * list tools.Event * tools.Files)
  : list tools.Event := snd (fst x).
Definition filesAfter {A}
    (x : tools.Result A * list tools.Event * tools.Files) : tools.Files :=
  snd x.

(** The number a size-string parser has read so far, 0 before the first
    digit. *)
Definition value (acc : option Z) : Z :=
  match acc with Some n => n | None => 0 end.

(** The string holds no line feed: it is a single line. *)
Fixpoint no_LF (s : string) : bool :=
  match s with
  | EmptyString => true
  | String c s' => negb (Ascii.eqb c LF) && no_LF s'
  end.

End Spec.

(** ** Example inputs *)

Module Example.
Import Go tools.

Definition q : string := String dquote EmptyString.

(** The boot line of the spec's example (section 8), with one table
    entry. *)
Definition bootLine : string :=
  "... root=/dev/dm-0 dm=" ++ q ++ "1 vroot none ro 1,0 100 verity ..." ++ q.

(** The row the spec's example expects to be appended. *)
Definition newRow : string :=
  "oemroot none ro 1, 0 2048 verity payload=PARTUUID=ABCD "
  ++ "hashtree=PARTUUID=ABCD hashstart=2048 alg=sha256 "
  ++ "root_hexdigest=h salt=s" ++ q.

Definition patchedBootLine : string :=
  "... root=/dev/dm-0 dm=" ++ q ++ "2 vroot none ro 1,0 100 verity ...,"
  ++ newRow.

(** A boot line whose table already has two entries. *)
Definition bootLine2 : string :=
  "linux /syslinux/vmlinuz.A root=/dev/dm-0 dm=" ++ q
  ++ "2 vroot none ro 1,0 100 verity a, vboot none ro 1,0 50 verity b" ++ q.

(** A line that stops right after the count. *)
Definition shortLine : string := "dm=" ++ q ++ "1".

(** A [grub.cfg] with one line without [dm=] and the boot line. *)
Definition grubCfg : string :=
  "set timeout=0" ++ nl ++ bootLine ++ nl.

Definition patchedGrubCfg : string :=
  "set timeout=0" ++ nl ++ patchedBootLine ++ nl.

Definition grubDir : string := "/tmp/tmp.x/efi/boot".

Definition files : Files :=
  fun p => if String.eqb p (grubDir ++ "/grub.cfg") then Some grubCfg else None.

(** The report of the hash-tree tool as the comment of [veritysetup]
    shows it. *)
Definition report : string :=
  "VERITY header information for /dev/sdb1" ++ nl
  ++ "UUID:" ++ nl
  ++ "Hash type:              0" ++ nl
  ++ "Data blocks:            2048" ++ nl
  ++ "Data block size:        4096" ++ nl
  ++ "Hash block size:        4096" ++ nl
  ++ "Hash algorithm:         sha256" ++ nl
  ++ "Salt:                   9cd7ba29" ++ nl
  ++ "Root hash:              d6b862d0" ++ nl.

(** The same report without its [Salt:] line. *)
Definition reportNoSalt : string :=
  "VERITY header information for /dev/sdb1" ++ nl
  ++ "Hash algorithm:         sha256" ++ nl
  ++ "Root hash:              d6b862d0" ++ nl.

(** An environment in which the OEM partition is mounted and every command
    succeeds, [docker rmi] or not as [rmiOK] says; the tool prints
    [verityOut]. *)
Definition env (rmiOK : bool) (verityOut : string) : Env :=
  mkEnv
    (fun argv =>
       match argv with
       | ["sudo"; "docker"; "images"; _; _] => Some ("0123abcd" ++ nl)
       | ["df"] => Some ("/dev/sda8  16M  1M  15M  /usr/share/oem" ++ nl)
       | ["mktemp"; "-d"] => Some ("/tmp/tmp.x" ++ nl)
       | "sudo" :: "docker" :: "run" :: _ => Some verityOut
       | ["sudo"; "docker"; "rmi"; _] => if rmiOK then Some "" else None
       | _ => Some ""
       end)
    (fun _ => Some "ABCD")
    (fun _ _ => Written).

End Example.

(** ** Vocabulary of the further statements *)

Module Vocab.
Import Go finish.

(** The errors a run of [Execute] logs. *)
Fixpoint loggedErrors (ev : list Event) : list ExecError :=
  match ev with
  | [] => []
  | LogError e :: ev' => e :: loggedErrors ev'
  | _ :: ev' => loggedErrors ev'
  end.

(** The calls of [preloader.BuildImage] in a run. *)
Fixpoint builds (ev : list Event) : list (Image * Image * BuildConfig) :=
  match ev with
  | [] => []
  | BuildImage s o b :: ev' => (s, o, b) :: builds ev'
  | _ :: ev' => builds ev'
  end.

(** The build configuration [loadConfigs] makes of the flags and of the
    configuration read from the build file. *)
Definition flagsOver (f : FinishImageBuild) (file : BuildConfig) : cmd.Build :=
  cmd.mkBuild (cmd.SealOEM (build file)) (oemSize f)
    (cmd.OEMFSSize4K (build file)) (diskSize f).

(** The name [loadConfigs] gives the output image. *)
Definition outputName (f : FinishImageBuild) (source : Image) : string :=
  if nonempty (imageSuffix f) then Name source ++ imageSuffix f
  else imageName f.

(** Every byte is one of the six ASCII white-space characters. *)
Fixpoint all_space (s : string) : bool :=
  match s with
  | EmptyString => true
  | String c s' =>
      (between 9 (byte c) 13 || (byte c =? 32)) && all_space s'
  end.

(** An ASCII character that is neither white space nor a colon. *)
Definition plain (c : ascii) : bool :=
  (byte c <? 128) && negb (between 9 (byte c) 13) && negb (byte c =? 32)
  && negb (byte c =? 58).

Fixpoint all_plain (s : string) : bool :=
  match s with
  | EmptyString => true
  | String c s' => plain c && all_plain s'
  end.

End Vocab.

(** ** Example inputs of [finish-image-build] *)

Module FinishExample.
Import Go finish.

(** [-image-project=out-project -zone=us-west1-b -project=build-project
    -image-suffix=-sealed -image-family=cos-custom -deprecate-old-images
    -old-image-ttl=3600 -labels=env=prod -licenses=license-1
    -inherit-labels -oem-size=1G -disk-size-gb=12] *)
Definition flags : FinishImageBuild :=
  mkFinishImageBuild "out-project" "us-west1-b" "build-project"
    "" "-sealed" "cos-custom" true 3600 [("env", "prod")] ["license-1"]
    true "1G" 12 "1h0m0s".

Definition source : Image :=
  mkImage "cos-stable-81" "cos-cloud" [] [] "cos-stable".

(** The build configuration file of a build that seals the OEM
    partition. *)
Definition buildFile : BuildConfig :=
  mkBuildConfig "" "" "" (cmd.mkBuild true "" 0 0).

(** A world in which every call succeeds and the result image does not
    exist yet; the source image has the labels [env=dev] and [os=cos]. *)
Definition world : World :=
  mkWorld 0 true (Some source) (Some buildFile) true
    (fun _ _ => Some false)
    (fun _ _ => Some [("env", "dev"); ("os", "cos")])
    (fun _ _ _ => BuildOK)
    (fun _ _ => true).

Definition builtOutput : Image :=
  mkImage "cos-stable-81-sealed" "out-project"
    [("env", "prod"); ("os", "cos")] ["license-1"] "cos-custom".

Definition builtConfig : BuildConfig :=
  mkBuildConfig "build-project" "us-west1-b" "1h0m0s"
    (cmd.mkBuild true "2047M" 262144 12).

End FinishExample.

(** ** Vocabulary and example inputs of the runs of [SealOEMPartition] *)

Module SealVocab.
Import Go tools.

(** [s[:len(s)-1]] for a string that is not empty. *)
Definition chop (s : string) : string := take (String.length s - 1) s.

(** The path of [grub.cfg] when [mktemp -d] has printed [tmpOut]. *)
Definition grubFile (tmpOut : string) : string :=
  (chop tmpOut ++ "/efi/boot") ++ "/grub.cfg".

(** The error of a failed [docker rmi], as [SealOEMPartition] returns
    it. *)
Definition rmiError : error :=
  Wrapf CannotRemoveImage (Wrapf RemovingDockerImage LibError).

(** The error of a failed write of [grub.cfg], as [SealOEMPartition]
    returns it. *)
Definition grubWriteError : error :=
  Wrapf ErrorAppendingEntry (Wrapf CannotWriteGrub LibError).

(** An environment like [Example.env] in which the write of [grub.cfg]
    fails after the file was opened, with [k] bytes written. *)
Definition cutEnv (k : nat) : Env :=
  mkEnv (run (Example.env true Example.report))
    (partUUID (Example.env true Example.report))
    (fun _ _ => CutShort k).

(** A [grub.cfg] whose only line stops right after the count. *)
Definition shortFiles : Files :=
  fun p =>
    if String.eqb p (Example.grubDir ++ "/grub.cfg") then
      Some Example.shortLine
    else None.

End SealVocab.

(** * Properties *)

(** ** Lemmas on the Go library model *)

Module GoFacts.
Import Go.

Lemma append_assoc (s t u : string) : (s ++ t) ++ u = s ++ t ++ u.
Proof. induction s; simpl; congruence. Qed.

Lemma append_nil_r (s : string) : s ++ "" = s.
Proof. induction s; simpl; congruence. Qed.

Lemma Split_not_nil (s : string) (sep : ascii) : Split s sep <> [].
Proof.
  destruct s as [|c s]; simpl; [discriminate|].
  destruct (Ascii.eqb c sep); [discriminate|].
  destruct (Split s sep); discriminate.
Qed.

(** Joining the fields of a split with the separator gives the string
    back. *)
Lemma Join_Split (s : string) (sep : ascii) :
  Join (Split s sep) (String sep EmptyString) = s.
Proof.
  induction s as [|c s IH]; simpl; [reflexivity|].
  destruct (Ascii.eqb_spec c sep) as [->|Hne].
  - assert (H := Split_not_nil s sep).
    destruct (Split s sep) as [|f fs]; [contradiction|].
    simpl in *. now rewrite IH.
  - assert (H := Split_not_nil s sep).
    destruct (Split s sep) as [|f fs]; [contradiction|].
    destruct fs as [|g fs]; simpl in *; now rewrite <- IH.
Qed.

Lemma Join_snoc (l : list string) (e sep : string) :
  l <> [] -> Join (l ++ [e]) sep = Join l sep ++ sep ++ e.
Proof.
  induction l as [|a l IH]; intros Hl; [contradiction|].
  destruct l as [|b l].
  - reflexivity.
  - change (Join ((a :: b :: l) ++ [e]) sep)
      with (a ++ sep ++ Join ((b :: l) ++ [e]) sep).
    rewrite IH by discriminate.
    change (Join (a :: b :: l) sep) with (a ++ sep ++ Join (b :: l) sep).
    now rewrite !append_assoc.
Qed.

(** Appending one element to the fields of [s] and joining them again is
    appending the separator and the element to [s]. *)
Lemma Join_Split_snoc (s e : string) (sep : ascii) :
  Join (Split s sep ++ [e]) (String sep EmptyString)
  = s ++ String sep EmptyString ++ e.
Proof.
  rewrite Join_snoc by apply Split_not_nil.
  now rewrite Join_Split.
Qed.

Lemma prefix_app (p s : string) :
  String.prefix p s = true -> exists r, s = p ++ r.
Proof.
  revert s; induction p as [|a p IH]; intros s H; simpl in *.
  - now exists s.
  - destruct s as [|b s]; [discriminate|]. simpl in H.
    destruct (ascii_dec a b) as [->|]; [|discriminate].
    destruct (IH _ H) as [r ->]. now exists r.
Qed.

Lemma take_app_one (s : string) (c : ascii) :
  take (String.length (s ++ String c EmptyString) - 1)
       (s ++ String c EmptyString) = s.
Proof.
  induction s as [|a s IH]; simpl; [reflexivity|].
  assert (L : forall t, String.length (t ++ String c EmptyString)
                        = S (String.length t)).
  { induction t; simpl; congruence. }
  rewrite L in *. simpl in *. rewrite Nat.sub_0_r in *.
  destruct s; simpl in *; [reflexivity|].
  now rewrite IH.
Qed.

Lemma length_app (s t : string) :
  String.length (s ++ t) = (String.length s + String.length t)%nat.
Proof. induction s; simpl; congruence. Qed.

Lemma set_index_app {A} (l1 l2 : list A) (x v : A) :
  set_index (l1 ++ x :: l2) (List.length l1) v = Some (l1 ++ v :: l2)%list.
Proof.
  induction l1 as [|a l1 IH]; simpl; [reflexivity|]. now rewrite IH.
Qed.

Lemma set_index_None {A} (l : list A) (i : nat) (v : A) :
  set_index l i v = None <-> (List.length l <= i)%nat.
Proof.
  revert i; induction l as [|a l IH]; intros i; simpl.
  - split; [lia|reflexivity].
  - destruct i as [|i]; simpl.
    + split; [discriminate|lia].
    + specialize (IH i). destruct (set_index l i v); simpl.
      * split; [discriminate|]. intros H.
        assert (Hle : (List.length l <= i)%nat) by lia.
        apply IH in Hle. discriminate.
      * split; [|reflexivity]. intros _.
        assert (List.length l <= i)%nat by now apply IH. lia.
Qed.

Lemma byte_range (c : ascii) : 0 <= byte c < 256.
Proof.
  unfold byte. pose proof (N_ascii_bounded c) as H.
  split; [apply N2Z.is_nonneg|].
  change 256 with (Z.of_N 256). now apply N2Z.inj_lt.
Qed.

Lemma chr_byte (c : ascii) : chr (byte c) = c.
Proof. unfold chr, byte. rewrite N2Z.id. apply ascii_N_embedding. Qed.

Lemma EncodeRune_byte (c : ascii) :
  (byte c <? 128) = true -> EncodeRune (byte c) = String c EmptyString.
Proof.
  intros H. apply Z.ltb_lt in H. pose proof (byte_range c).
  unfold EncodeRune, between.
  replace (0 <=? byte c) with true by (symmetry; apply Z.leb_le; lia).
  replace (byte c <=? 127) with true by (symmetry; apply Z.leb_le; lia).
  simpl. now rewrite chr_byte.
Qed.

(** The runes of an ASCII string are its bytes, whatever follows it. *)
Lemma runes_ascii_app (s t : string) :
  Spec.is_ascii s = true ->
  runes (s ++ t) = (Spec.bytes s ++ runes t)%list.
Proof.
  unfold runes. induction s as [|c s IH]; intros H; [reflexivity|].
  simpl in H. apply andb_prop in H as [Hc Hs].
  cbn [append runes_from DecodeRune Spec.bytes List.app].
  rewrite Hc. cbn [Nat.pred]. now rewrite IH.
Qed.

Lemma string_of_runes_bytes_app (s : string) (rs : list Z) :
  Spec.is_ascii s = true ->
  string_of_runes (Spec.bytes s ++ rs) = s ++ string_of_runes rs.
Proof.
  induction s as [|c s IH]; intros H; [reflexivity|].
  simpl in H. apply andb_prop in H as [Hc Hs].
  cbn [Spec.bytes List.app string_of_runes].
  rewrite EncodeRune_byte by assumption. simpl. now rewrite IH.
Qed.

Lemma runes_ascii (s : string) :
  Spec.is_ascii s = true -> runes s = Spec.bytes s.
Proof.
  intros H. rewrite <- (append_nil_r s) at 1.
  rewrite runes_ascii_app by assumption. apply app_nil_r.
Qed.

Lemma string_of_runes_bytes (s : string) :
  Spec.is_ascii s = true -> string_of_runes (Spec.bytes s) = s.
Proof.
  intros H. rewrite <- (app_nil_r (Spec.bytes s)).
  rewrite string_of_runes_bytes_app by assumption. apply append_nil_r.
Qed.

Lemma length_bytes (s : string) : List.length (Spec.bytes s) = String.length s.
Proof. induction s; simpl; congruence. Qed.

Lemma is_ascii_app (s t : string) :
  Spec.is_ascii (s ++ t) = Spec.is_ascii s && Spec.is_ascii t.
Proof.
  induction s as [|c s IH]; simpl; [reflexivity|].
  now rewrite IH, andb_assoc.
Qed.

Lemma bytes_app (s t : string) :
  Spec.bytes (s ++ t) = (Spec.bytes s ++ Spec.bytes t)%list.
Proof. induction s; simpl; congruence. Qed.

End GoFacts.

(** ** The boot configuration patcher *)

Module PatchFacts.
Import Go GoFacts Spec tools.

Lemma prefix_length (p s : string) :
  String.prefix p s = true -> (String.length p <= String.length s)%nat.
Proof.
  intros H. destruct (prefix_app _ _ H) as [r ->]. rewrite length_app. lia.
Qed.

Lemma index_nat_bound (s sub : string) (n : nat) :
  index_nat s sub = Some n -> (n + String.length sub <= String.length s)%nat.
Proof.
  revert n; induction s as [|c s IH]; intros n; cbn [index_nat].
  - destruct (String.prefix sub "") eqn:P; [|discriminate].
    intros [= <-]. apply prefix_length in P. simpl in *. lia.
  - destruct (String.prefix sub (String c s)) eqn:P.
    + intros [= <-]. apply prefix_length in P. simpl in *. lia.
    + destruct (index_nat s sub) as [m|]; [|discriminate].
      intros [= <-]. specialize (IH m eq_refl). simpl. lia.
Qed.

Lemma Contains_Index (s sub : string) :
  Contains s sub = true ->
  exists n, index_nat s sub = Some n /\ Index s sub = Z.of_nat n.
Proof.
  unfold Contains, Index. destruct (index_nat s sub) as [n|].
  - intros _. now exists n.
  - intros H. apply Z.leb_le in H. lia.
Qed.

Lemma Contains_false (s sub : string) :
  Contains s sub = false <-> index_nat s sub = None.
Proof.
  unfold Contains, Index. destruct (index_nat s sub) as [n|]; split; try easy.
  intros H. apply Z.leb_gt in H. lia.
Qed.

(** A line without [dm=] is left as it is. *)
Lemma patchLine_other (entry line : string) :
  Contains line "dm=" = false -> patchLine entry line = Val line.
Proof. intros H. unfold patchLine. now rewrite H. Qed.

(** The iteration on a line with [dm=], the slice bound discharged. *)
Lemma patchLine_dm (entry line : string) :
  Contains line "dm=" = true ->
  patchLine entry line =
  match set_index (runes (take (String.length line - 1) line))
          (Z.to_nat (Index line "dm=" + 4)) rune2 with
  | Some buf => Val (string_of_runes buf ++ "," ++ entry)
  | None => Panic
  end.
Proof.
  intros H. unfold patchLine. rewrite H. cbn [negb].
  destruct (Contains_Index _ _ H) as (n & Hn & HI).
  apply index_nat_bound in Hn. simpl in Hn.
  unfold slice, len.
  replace (0 <=? Z.of_nat (String.length line) - 1) with true
    by (symmetry; apply Z.leb_le; lia).
  replace (Z.of_nat (String.length line) - 1 <=? Z.of_nat (String.length line))
    with true by (symmetry; apply Z.leb_le; lia).
  cbn [andb].
  replace (Z.to_nat (Z.of_nat (String.length line) - 1))
    with (String.length line - 1)%nat by lia.
  replace (Index line "dm=" + 4 <? 0) with false
    by (symmetry; apply Z.ltb_ge; lia).
  destruct (set_index _ _ _); [|reflexivity].
  now rewrite Join_Split_snoc.
Qed.

End PatchFacts.

Module PatchAscii.
Import Go GoFacts Spec tools PatchFacts.

Lemma is_ascii_take (n : nat) (s : string) :
  is_ascii s = true -> is_ascii (take n s) = true.
Proof.
  revert n; induction s as [|c s IH]; intros [|n] H; try reflexivity.
  simpl in *. apply andb_prop in H as [-> Hs]. now apply IH.
Qed.

Lemma length_take (n : nat) (s : string) :
  (n <= String.length s)%nat -> String.length (take n s) = n.
Proof.
  revert n; induction s as [|c s IH]; intros [|n] H; simpl in *;
    try reflexivity; try lia.
  rewrite IH; lia.
Qed.

Lemma prefix_nil (t : string) : String.prefix "" t = true.
Proof. now destruct t. Qed.

(** The first [dm=] of [pre ++ "dm=" ++ t] is the one written out, when
    [pre] holds none. *)
Lemma index_nat_first (pre t : string) :
  Contains pre "dm=" = false ->
  index_nat (pre ++ "dm=" ++ t) "dm=" = Some (String.length pre).
Proof.
  rewrite Contains_false.
  induction pre as [|c pre IH]; intros H.
  { cbn. now destruct t. }
  cbn [index_nat] in H.
  destruct (String.prefix "dm=" (String c pre)) eqn:P; [discriminate|].
  destruct (index_nat pre "dm=") eqn:E; [discriminate|].
  change ((String c pre) ++ "dm=" ++ t) with (String c (pre ++ "dm=" ++ t)).
  cbn [index_nat].
  replace (String.prefix "dm=" (String c (pre ++ "dm=" ++ t))) with false.
  - rewrite IH by reflexivity. reflexivity.
  - symmetry. revert P. clear.
    destruct pre as [|a [|b pre]]; cbn [append String.prefix];
      rewrite ?prefix_nil;
      repeat (match goal with
              | |- context [ascii_dec ?x ?y] => destruct (ascii_dec x y)
              end; try discriminate; try congruence).
Qed.

Lemma patchLine_ascii_decomposed (entry pre rest : string) (x d last : ascii) :
  Contains pre "dm=" = false ->
  is_ascii pre = true -> (byte x <? 128) = true -> (byte d <? 128) = true ->
  is_ascii rest = true ->
  patchLine entry
    (pre ++ "dm=" ++ String x (String d (rest ++ String last "")))
  = Val (pre ++ "dm=" ++ String x (String "2" rest) ++ "," ++ entry).
Proof.
  intros Hpre Apre Ax Ad Arest.
  set (body := pre ++ "dm=" ++ String x (String d rest)).
  assert (Hline : pre ++ "dm=" ++ String x (String d (rest ++ String last ""))
                  = body ++ String last "").
  { unfold body. now rewrite !append_assoc. }
  assert (Hidx : index_nat (body ++ String last "") "dm="
                 = Some (String.length pre)).
  { rewrite <- Hline. now apply index_nat_first. }
  rewrite Hline, patchLine_dm
    by (unfold Contains, Index; rewrite Hidx; apply Z.leb_le; lia).
  rewrite take_app_one. unfold Index. rewrite Hidx.
  replace (Z.to_nat (Z.of_nat (String.length pre) + 4))
    with (List.length (bytes (pre ++ "dm=" ++ String x EmptyString)))
    by (rewrite length_bytes, length_app; simpl; lia).
  assert (Hbody : body = (pre ++ "dm=" ++ String x "") ++ String d rest).
  { unfold body. now rewrite !append_assoc. }
  assert (A1 : is_ascii (pre ++ "dm=" ++ String x "") = true).
  { rewrite is_ascii_app, Apre. simpl. now rewrite Ax. }
  rewrite Hbody, runes_ascii_app by assumption.
  rewrite (runes_ascii (String d rest)) by (simpl; now rewrite Ad).
  cbn [bytes]. rewrite set_index_app.
  rewrite string_of_runes_bytes_app by assumption.
  change (string_of_runes (rune2 :: bytes rest))
    with (EncodeRune 50 ++ string_of_runes (bytes rest)).
  rewrite string_of_runes_bytes by assumption.
  change (EncodeRune 50) with "2".
  now rewrite !append_assoc.
Qed.

Lemma drop_app (s t : string) : drop (String.length s) (s ++ t) = t.
Proof. induction s as [|c s IH]; simpl; [now destruct t|exact IH]. Qed.

Lemma dmCount_first (pre t : string) :
  Contains pre "dm=" = false ->
  dmCount (pre ++ "dm=" ++ String dquote t) = decimal None (token t).
Proof.
  intros H. unfold dmCount. rewrite index_nat_first by assumption.
  replace (pre ++ "dm=" ++ String dquote t)
    with ((pre ++ "dm=") ++ String dquote t) by now rewrite append_assoc.
  replace (String.length pre + 3)%nat with (String.length (pre ++ "dm="))
    by (rewrite length_app; reflexivity).
  now rewrite drop_app.
Qed.

Lemma patchLines_spec (entry : string) (lines lines' : list string) :
  patchLines entry lines = Val lines' ->
  List.length lines' = List.length lines /\
  forall (i : nat) (line : string),
    nth_error lines i = Some line -> Contains line "dm=" = false ->
    nth_error lines' i = Some line.
Proof.
  revert lines'; induction lines as [|l ls IH]; intros lines' H; simpl in H.
  - injection H as <-. split; [reflexivity|]. now intros [|i].
  - destruct (patchLine entry l) as [l'|] eqn:El; [|discriminate].
    destruct (patchLines entry ls) as [ls'|]; [|discriminate].
    injection H as <-. destruct (IH ls' eq_refl) as [Hlen Hnth].
    split; [simpl; now rewrite Hlen|].
    intros [|i] line; simpl.
    + intros [= ->] Hc. rewrite patchLine_other in El by assumption.
      now injection El as <-.
    + apply Hnth.
Qed.

End PatchAscii.

(** ** Claims on [appendDMEntryToGRUB] *)

Section PatcherClaims.
Import Go GoFacts Spec tools PatchFacts PatchAscii.

(** C1 (as amended).  On an ASCII line whose first [dm=] is followed by the
    opening quote, a one-character count [d] and a space, the loop body
    overwrites [d] with the digit 2, whatever [d] was, drops the last
    character of the line and appends the new row: the count it leaves is
    2, not the prior count plus one. *)
Theorem C1_count_overwritten_with_2
    (entry pre rest : string) (d last : ascii)
    (Hfirst : Contains pre "dm=" = false)
    (Hpre : is_ascii pre = true)
    (Hd : (byte d <? 128) = true)
    (Hrest : is_ascii rest = true) :
  patchLine entry
    (pre ++ "dm=" ++ String dquote (String d (String " " rest ++ String last "")))
  = Val (pre ++ "dm=" ++ String dquote (String "2" (String " " rest))
         ++ "," ++ entry)
  /\ dmCount (pre ++ "dm=" ++ String dquote (String "2" (String " " rest))
              ++ "," ++ entry) = Some 2.
Proof.
  split.
  - apply (patchLine_ascii_decomposed entry pre (String " " rest) dquote d last);
      try assumption; try reflexivity.
  - replace (pre ++ "dm=" ++ String dquote (String "2" (String " " rest))
             ++ "," ++ entry)
      with (pre ++ "dm=" ++ String dquote
              (String "2" (String " " (rest ++ "," ++ entry))))
      by reflexivity.
    now rewrite dmCount_first.
Qed.

Lemma C1_count_overwritten_with_2_witness :
  patchLine Example.newRow Example.bootLine = Val Example.patchedBootLine
  /\ dmCount Example.patchedBootLine = Some 2.
Proof.
  apply (C1_count_overwritten_with_2 Example.newRow "... root=/dev/dm-0 "
           "vroot none ro 1,0 100 verity ..." "1"%char dquote);
    reflexivity.
Defined.

(** C1, the claim as stated, fails on a line whose table already holds two
    entries: the count of the patched line is 2 again, not 3. *)
Lemma C1_counterexample :
  dmCount Example.bootLine2 = Some 2 /\
  exists out, patchLine Example.newRow Example.bootLine2 = Val out /\
              dmCount out = Some 2 /\ dmCount out <> Some (2 + 1).
Proof.
  split; [reflexivity|].
  eexists. split; [vm_compute; reflexivity|].
  split; [reflexivity|discriminate].
Qed.

(** C5.  The spec's example: the new row is the one the spec writes out,
    the patched line has count 2 and ends with that row after a comma, and
    [appendDMEntryToGRUB] rewrites a [grub.cfg] that holds the line
    accordingly, leaving its other line as it was. *)
Theorem C5_grub_example :
  entryString "oemroot" "ABCD" "h" "s" 256 = Example.newRow
  /\ dmCount Example.bootLine = Some 1
  /\ patchLine Example.newRow Example.bootLine = Val Example.patchedBootLine
  /\ dmCount Example.patchedBootLine = Some 2
  /\ Example.patchedBootLine
     = "... root=/dev/dm-0 dm=" ++ Example.q
       ++ "2 vroot none ro 1,0 100 verity ..." ++ "," ++ Example.newRow
  /\ (let '(r, _, fs') :=
        appendDMEntryToGRUB (Example.env true Example.report) Example.grubDir
          "oemroot" "ABCD" "h" "s" 256 Example.files in
      r = Val None
      /\ fs' (Example.grubDir ++ "/grub.cfg") = Some Example.patchedGrubCfg).
Proof.
  split; [vm_compute; reflexivity|].
  split; [vm_compute; reflexivity|].
  split; [vm_compute; reflexivity|].
  split; [vm_compute; reflexivity|].
  split; [vm_compute; reflexivity|].
  vm_compute. split; reflexivity.
Qed.

(** C8.  The output file is what the call hands to [ioutil.WriteFile]: the
    lines of a list [lines'] joined by line feeds, as many as the input
    had, in which every line of the input without [dm=] stands unchanged
    at its place.  When the call returns [nil], this is the [grub.cfg] it
    leaves.  When it fails or panics, [grub.cfg] is as it was, or cut
    short by a write that failed; no other file changes in any case. *)
Theorem C8_lines_without_dm_unchanged
    (env : Env) (grubPath name partUUID hash salt : string) (oemFSSize4K : Z)
    (fs : Files) (content : string)
    (Hfile : fs (grubPath ++ "/grub.cfg") = Some content) :
  let r := appendDMEntryToGRUB env grubPath name partUUID hash salt
             oemFSSize4K fs in
  (forall p c,
      In (WriteFile p c) (events r) ->
      p = grubPath ++ "/grub.cfg"
      /\ exists lines',
           c = Join lines' nl
           /\ List.length lines' = List.length (Split content LF)
           /\ forall (i : nat) (line : string),
                nth_error (Split content LF) i = Some line ->
                Contains line "dm=" = false ->
                nth_error lines' i = Some line)
  /\ (result r = Val None ->
      exists c,
        In (WriteFile (grubPath ++ "/grub.cfg") c) (events r)
        /\ filesAfter r (grubPath ++ "/grub.cfg") = Some c)
  /\ (result r <> Val None ->
      filesAfter r (grubPath ++ "/grub.cfg") = Some content
      \/ exists c k,
           In (WriteFile (grubPath ++ "/grub.cfg") c) (events r)
           /\ filesAfter r (grubPath ++ "/grub.cfg") = Some (take k c))
  /\ forall p, p <> grubPath ++ "/grub.cfg" -> filesAfter r p = fs p.
Proof.
  unfold appendDMEntryToGRUB, bind, readFile, lift, writeFile, ret,
    result, events, filesAfter.
  rewrite Hfile.
  set (path := grubPath ++ "/grub.cfg") in *.
  set (entry := entryString name partUUID hash salt oemFSSize4K).
  destruct (patchLines entry (Split content LF)) as [lines'|] eqn:E.
  - assert (Hwritten : forall p c,
              WriteFile path (Join lines' nl) = WriteFile p c \/ False ->
              p = path
              /\ exists l,
                   c = Join l nl
                   /\ List.length l = List.length (Split content LF)
                   /\ forall (i : nat) (line : string),
                        nth_error (Split content LF) i = Some line ->
                        Contains line "dm=" = false ->
                        nth_error l i = Some line).
    { intros p c [H|[]]. injection H as <- <-. split; [reflexivity|].
      exists lines'. split; [reflexivity|].
      now apply patchLines_spec with (entry := entry). }
    assert (Hother : forall c p, p <> path -> write path c fs p = fs p).
    { intros c p Hp. unfold write.
      destruct (String.eqb_spec p path); [contradiction|reflexivity]. }
    assert (Hpath : forall c, write path c fs path = Some c).
    { intros c. unfold write. now rewrite String.eqb_refl. }
    destruct (writeOutcome env path (Join lines' nl)) as [| |k] eqn:W;
      cbn [fst snd app In].
    + split; [intros p c [H|H]; [discriminate H|now apply Hwritten]|].
      split; [intros _; exists (Join lines' nl);
              split; [right; now left|apply Hpath]|].
      split; [intros H; now contradiction H|apply Hother].
    + split; [intros p c [H|H]; [discriminate H|now apply Hwritten]|].
      split; [intros H; discriminate H|].
      split; [intros _; now left|reflexivity].
    + split; [intros p c [H|H]; [discriminate H|now apply Hwritten]|].
      split; [intros H; discriminate H|].
      split; [intros _; right; exists (Join lines' nl), k;
              split; [right; now left|apply Hpath]
             |apply Hother].
  - cbn [fst snd app In].
    split; [intros p c [H|[]]; discriminate H|].
    split; [intros H; discriminate H|].
    split; [intros _; now left|reflexivity].
Qed.

Lemma C8_lines_without_dm_unchanged_witness :
  let r := appendDMEntryToGRUB (Example.env true Example.report)
             Example.grubDir "oemroot" "ABCD" "h" "s" 256 Example.files in
  (forall p c,
      In (WriteFile p c) (events r) ->
      p = Example.grubDir ++ "/grub.cfg"
      /\ exists lines',
           c = Join lines' nl
           /\ List.length lines' = List.length (Split Example.grubCfg LF)
           /\ forall (i : nat) (line : string),
                nth_error (Split Example.grubCfg LF) i = Some line ->
                Contains line "dm=" = false ->
                nth_error lines' i = Some line)
  /\ (result r = Val None ->
      exists c,
        In (WriteFile (Example.grubDir ++ "/grub.cfg") c) (events r)
        /\ filesAfter r (Example.grubDir ++ "/grub.cfg") = Some c)
  /\ (result r <> Val None ->
      filesAfter r (Example.grubDir ++ "/grub.cfg") = Some Example.grubCfg
      \/ exists c k,
           In (WriteFile (Example.grubDir ++ "/grub.cfg") c) (events r)
           /\ filesAfter r (Example.grubDir ++ "/grub.cfg")
              = Some (take k c))
  /\ forall p, p <> Example.grubDir ++ "/grub.cfg" ->
               filesAfter r p = Example.files p.
Proof.
  apply (C8_lines_without_dm_unchanged (Example.env true Example.report)
           Example.grubDir "oemroot" "ABCD" "h" "s" 256 Example.files
           Example.grubCfg).
  reflexivity.
Defined.

End PatcherClaims.

Section PatcherSafety.
Import Go GoFacts Spec tools PatchFacts PatchAscii.

(** C10.  On a line with [dm=] the loop body drops the last byte of the
    line, whatever it is, and writes the rune at index [startPos + 4]
    without a check: it panics exactly when the truncated line has no more
    than [startPos + 4] runes, which for an ASCII line is fewer than five
    characters from [dm=] to the truncated end; such lines exist. *)
Theorem C10_patch_needs_five_chars
    (entry line : string) (Hdm : Contains line "dm=" = true) :
  let truncated := take (String.length line - 1) line in
  let startPos := Index line "dm=" in
  patchLine entry line
  = match set_index (runes truncated) (Z.to_nat (startPos + 4)) rune2 with
    | Some buf => Val (string_of_runes buf ++ "," ++ entry)
    | None => Panic
    end
  /\ (forall body last, line = body ++ String last "" -> truncated = body)
  /\ (patchLine entry line = Panic
      <-> Z.of_nat (List.length (runes truncated)) <= startPos + 4)
  /\ (is_ascii line = true ->
      (patchLine entry line = Panic <-> len truncated - startPos < 5))
  /\ exists short, Contains short "dm=" = true
                   /\ patchLine entry short = Panic.
Proof.
  intros truncated startPos.
  assert (Hpanic : patchLine entry line = Panic
                   <-> Z.of_nat (List.length (runes truncated)) <= startPos + 4).
  { rewrite patchLine_dm by assumption. fold truncated startPos.
    destruct (Contains_Index _ _ Hdm) as (n & _ & Hn). fold startPos in Hn.
    pose proof (set_index_None (runes truncated) (Z.to_nat (startPos + 4)) rune2)
      as HN.
    destruct (set_index (runes truncated) (Z.to_nat (startPos + 4)) rune2).
    - split; [discriminate|]. intros H.
      assert (Hle : (List.length (runes truncated) <= Z.to_nat (startPos + 4))%nat)
        by lia.
      apply HN in Hle. discriminate.
    - split; [|reflexivity]. intros _.
      assert (Hle : (List.length (runes truncated) <= Z.to_nat (startPos + 4))%nat)
        by now apply HN.
      lia. }
  split; [now apply patchLine_dm|].
  split; [intros body last ->; apply take_app_one|].
  split; [exact Hpanic|].
  split.
  - intros Ha. rewrite Hpanic.
    rewrite runes_ascii by now apply is_ascii_take.
    rewrite length_bytes. unfold len. lia.
  - exists Example.shortLine. split; [reflexivity|].
    rewrite patchLine_dm by reflexivity. reflexivity.
Qed.

Lemma C10_patch_needs_five_chars_witness :
  patchLine Example.newRow Example.shortLine = Panic.
Proof.
  apply (proj1 (proj2 (proj2 (C10_patch_needs_five_chars Example.newRow
                                Example.shortLine eq_refl)))).
  vm_compute. discriminate.
Defined.

End PatcherSafety.

(** ** The report of the hash-tree tool *)

Module ReportFacts.
Import Go GoFacts Spec tools.

(** A line with a prefix that ends in a colon has a second field, so the
    index expression of the loop does not panic. *)
Lemma field1_after_colon (p r : string) :
  (forall c, In c (list_ascii_of_string p) -> c <> ":"%char) ->
  field1 (p ++ String ":" r) = Val (nth 1 (Split (p ++ String ":" r) ":"%char) "").
Proof.
  intros Hp. unfold field1.
  assert (H : exists f g fs, Split (p ++ String ":" r) ":"%char = f :: g :: fs).
  { induction p as [|c p IH]; simpl.
    - pose proof (Split_not_nil r ":"%char).
      destruct (Split r ":"%char) as [|g fs]; [contradiction|]. now eexists _, _, _.
    - destruct (Ascii.eqb_spec c ":"%char) as [->|_].
      + exfalso. apply (Hp ":"%char); [now left|reflexivity].
      + destruct IH as (f & g & fs & ->).
        * intros c' Hc'. apply Hp. now right.
        * now eexists _, _, _. }
  destruct H as (f & g & fs & ->). reflexivity.
Qed.

Lemma field1_root (line : string) :
  HasPrefix line "Root hash:" = true ->
  field1 line = Val (nth 1 (Split line ":"%char) "").
Proof.
  intros H. destruct (prefix_app _ _ H) as [r ->].
  apply (field1_after_colon "Root hash" r).
  intros c Hc. simpl in Hc.
  repeat (destruct Hc as [<-|Hc]; [discriminate|]). contradiction.
Qed.

Lemma field1_salt (line : string) :
  HasPrefix line "Salt:" = true ->
  field1 line = Val (nth 1 (Split line ":"%char) "").
Proof.
  intros H. destruct (prefix_app _ _ H) as [r ->].
  apply (field1_after_colon "Salt" r).
  intros c Hc. simpl in Hc.
  repeat (destruct Hc as [<-|Hc]; [discriminate|]). contradiction.
Qed.

Lemma salt_not_root (line : string) :
  HasPrefix line "Salt:" = true -> HasPrefix line "Root hash:" = false.
Proof.
  intros H. destruct (prefix_app _ _ H) as [r ->]. reflexivity.
Qed.

(** The loop never panics, and it returns the values of the last
    [Root hash:] line and of the last [Salt:] line. *)
Lemma scanReport_lastOf (lines : list string) (hash salt : string) :
  scanReport lines hash salt
  = Val (lastOf "Root hash:" lines hash, lastOf "Salt:" lines salt).
Proof.
  revert hash salt; induction lines as [|line rest IH]; intros hash salt;
    [reflexivity|].
  cbn [scanReport lastOf].
  destruct (HasPrefix line "Root hash:") eqn:R.
  - rewrite field1_root by assumption.
    destruct (HasPrefix line "Salt:") eqn:S.
    + apply salt_not_root in S. congruence.
    + apply IH.
  - destruct (HasPrefix line "Salt:") eqn:S.
    + rewrite field1_salt by assumption. apply IH.
    + apply IH.
Qed.

Lemma lastOf_absent (p : string) (lines : list string) (cur : string) :
  Absent p lines -> lastOf p lines cur = cur.
Proof.
  revert cur; induction lines as [|l ls IH]; intros cur H; [reflexivity|].
  simpl. rewrite (H l) by now left.
  apply IH. intros x Hx. apply H. now right.
Qed.

Lemma lastOf_app (p : string) (l1 l2 : list string) (cur : string) :
  lastOf p (l1 ++ l2) cur = lastOf p l2 (lastOf p l1 cur).
Proof.
  revert cur; induction l1 as [|l ls IH]; intros cur; [reflexivity|].
  simpl. destruct (HasPrefix l p); apply IH.
Qed.

Lemma lastOf_lacks (p : string) (lines : list string) :
  Lacks p lines -> lastOf p lines "" = "".
Proof.
  intros [H|(l1 & x & l2 & -> & Hx & Hv & Hl2)].
  - now apply lastOf_absent.
  - rewrite lastOf_app. simpl. rewrite Hx, Hv. now apply lastOf_absent.
Qed.

End ReportFacts.

(** ** [SealOEMPartition] *)

Module SealFacts.
Import Go GoFacts Spec tools.

Ltac unfold_seal_in E :=
  unfold SealOEMPartition, loadVeritysetupImage, unmountOEMPartition,
    veritysetup, mountEFIPartition, appendDMEntryToGRUB,
    removeVeritysetupImage, getPartUUID, Run, Println, slice_to, readFile,
    writeFile, bind, emit, ret, lift in E.

(** The first thing a run depends on, in program order: the scrutinee at
    the bottom of the chain of nested case distinctions; [k] is what to do
    with it. *)
Ltac find_scrutinee t k :=
  lazymatch t with
  | match ?x with _ => _ end => first [find_scrutinee x k | k x]
  | ?f _ => find_scrutinee f k
  end.

(** Case analysis of a run [E : SealOEMPartition env n fs = (r, ev, fs')],
    one answer of the environment after the other. *)
Ltac seal_inv E :=
  unfold_seal_in E; cbv beta iota in E;
  repeat (lazymatch type of E with
          | ?lhs = _ => find_scrutinee lhs ltac:(fun x => destruct x eqn:?)
          end; cbv beta iota in E);
  injection E as <- <- <-.

(** Membership of an event in the events of a finished run, decided by
    the events' shapes. *)
Ltac not_in H :=
  cbn [In] in H;
  repeat (destruct H as [H|H]; [try discriminate H|]);
  try contradiction.

End SealFacts.

Section SealClaims.
Import Go GoFacts Spec tools ReportFacts SealFacts.

(** C3 (as amended).  When a run reaches the cleanup and [docker rmi]
    fails, [SealOEMPartition] returns the error "cannot remove veritysetup
    container or image", although the hash computation had succeeded: the
    failure of the cleanup is the result of the call. *)
Theorem C3_cleanup_failure_is_returned
    (env : Env) (oemFSSize4K : Z) (fs : Files) (imageID : string)
    (Hreached : In (Exec ["sudo"; "docker"; "rmi"; imageID])
                   (events (SealOEMPartition env oemFSSize4K fs)))
    (Hfails : run env ["sudo"; "docker"; "rmi"; imageID] = None) :
  result (SealOEMPartition env oemFSSize4K fs)
  = Val (Some (Wrapf CannotRemoveImage (Wrapf RemovingDockerImage LibError)))
  /\ exists hash salt,
       result (veritysetup env imageID oemFSSize4K fs) = Val (hash, salt, None)
       /\ hash <> "" /\ salt <> "".
Proof.
  set (P := exists hash salt,
              result (veritysetup env imageID oemFSSize4K fs)
              = Val (hash, salt, None) /\ hash <> "" /\ salt <> "").
  assert (Hv : forall out hash salt,
             run env (veritysetupArgv imageID oemFSSize4K) = Some out ->
             scanReport (Split out LF) "" "" = Val (hash, salt) ->
             (String.eqb hash "" || String.eqb salt "") = false -> P).
  { intros out hash salt Hout Hscan Hne.
    exists hash, salt. unfold result, veritysetup, Run, bind, emit, ret, lift.
    rewrite Hout, Hscan, Hne. split; [reflexivity|].
    apply orb_false_elim in Hne as [Hh Hs].
    now apply String.eqb_neq in Hh, Hs. }
  clearbody P. revert Hreached.
  destruct (SealOEMPartition env oemFSSize4K fs) as [[r ev] fs'] eqn:E.
  unfold result, events; cbn [fst snd].
  seal_inv E; intros Hin; not_in Hin.
  all: injection Hin as ->; try congruence.
  all: split; [reflexivity|]; eapply Hv; eassumption.
Qed.

Lemma C3_cleanup_failure_is_returned_witness :
  result (SealOEMPartition (Example.env false Example.report) 256
            Example.files)
  = Val (Some (Wrapf CannotRemoveImage (Wrapf RemovingDockerImage LibError)))
  /\ exists hash salt,
       result (veritysetup (Example.env false Example.report) "0123abcd" 256
                 Example.files) = Val (hash, salt, None)
       /\ hash <> "" /\ salt <> "".
Proof.
  apply (C3_cleanup_failure_is_returned (Example.env false Example.report)
           256 Example.files "0123abcd").
  - vm_compute. do 14 right. left. reflexivity.
  - reflexivity.
Defined.

(** C3, the claim as stated, fails: the tool's report gives the root hash
    and the salt, [grub.cfg] is rewritten, the removal of the image fails,
    and the call returns an error instead of [nil]. *)
Lemma C3_counterexample :
  result (veritysetup (Example.env false Example.report) "0123abcd" 256
            Example.files) = Val ("d6b862d0", "9cd7ba29", None)
  /\ filesAfter (SealOEMPartition (Example.env false Example.report) 256
                   Example.files) (Example.grubDir ++ "/grub.cfg")
     <> Example.files (Example.grubDir ++ "/grub.cfg")
  /\ run (Example.env false Example.report)
       ["sudo"; "docker"; "rmi"; "0123abcd"] = None
  /\ result (SealOEMPartition (Example.env false Example.report) 256
               Example.files) <> Val None.
Proof.
  split; [vm_compute; reflexivity|].
  split; [vm_compute; discriminate|].
  split; [reflexivity|].
  vm_compute; discriminate.
Qed.

(** C4 (as amended).  The steps of a run of [SealOEMPartition] happen in
    the order load the tool's image, make sure the OEM partition is not
    mounted, run the hash-tree tool; a run that succeeds has gone through
    all three. *)
Theorem C4_steps_in_code_order (env : Env) (oemFSSize4K : Z) (fs : Files) :
  inOrder codeRank (events (SealOEMPartition env oemFSSize4K fs))
  /\ (result (SealOEMPartition env oemFSSize4K fs) = Val None ->
      steps (events (SealOEMPartition env oemFSSize4K fs))
      = [LoadImage; LoadImage; EnsureUnmounted; RunHashTool]
      \/ steps (events (SealOEMPartition env oemFSSize4K fs))
         = [LoadImage; LoadImage; EnsureUnmounted; EnsureUnmounted;
            RunHashTool]).
Proof.
  destruct (SealOEMPartition env oemFSSize4K fs) as [[r ev] fs'] eqn:E.
  unfold inOrder, result, events; cbn [fst snd].
  seal_inv E; (split; [cbn; repeat constructor|]);
    intros H; try discriminate H; cbn;
    first [left; reflexivity | right; reflexivity].
Qed.

(** C4, the claim as stated, fails: in a run where every command succeeds
    the image is loaded before the OEM partition is unmounted, so the steps
    are not in the order unmount, load, run. *)
Lemma C4_counterexample :
  ~ inOrder specRank
      (events (SealOEMPartition (Example.env true Example.report) 256
                 Example.files)).
Proof.
  unfold inOrder.
  assert (E : map specRank
                (steps (events (SealOEMPartition
                                  (Example.env true Example.report) 256
                                  Example.files)))
              = [1; 1; 0; 0; 2]%nat) by (vm_compute; reflexivity).
  rewrite E. intros H.
  inversion H as [|? ? _ HF]. inversion HF as [|? ? _ HF2].
  inversion HF2 as [|? ? Hle _]. lia.
Qed.

(** C6.  When the report of the tool gives no value for [Root hash:] or no
    value for [Salt:] (no such line, or the last one carries an empty
    value), [veritysetup] returns the output-format error with both strings
    empty, never one of the two values alone; and a run of
    [SealOEMPartition] that gets that report fails with this error and
    leaves the files as they were. *)
Theorem C6_missing_field_is_an_error
    (env : Env) (imageID : string) (oemFSSize4K : Z) (fs : Files)
    (out : string)
    (Hrun : run env (veritysetupArgv imageID oemFSSize4K) = Some out)
    (Hlacks : Lacks "Root hash:" (Split out LF)
              \/ Lacks "Salt:" (Split out LF)) :
  veritysetup env imageID oemFSSize4K fs
  = (Val ("", "", Some (Errorf VeritysetupOutputFormat)),
     [Exec (veritysetupArgv imageID oemFSSize4K)], fs)
  /\ (In (Exec (veritysetupArgv imageID oemFSSize4K))
         (events (SealOEMPartition env oemFSSize4K fs)) ->
      result (SealOEMPartition env oemFSSize4K fs)
      = Val (Some (Wrapf CannotRunVeritysetup (Errorf VeritysetupOutputFormat)))
      /\ filesAfter (SealOEMPartition env oemFSSize4K fs) = fs).
Proof.
  assert (Hempty : (String.eqb (lastOf "Root hash:" (Split out LF) "") ""
                    || String.eqb (lastOf "Salt:" (Split out LF) "") "")
                   = true).
  { destruct Hlacks as [H|H]; apply lastOf_lacks in H; rewrite H;
      [reflexivity|apply orb_true_r]. }
  split.
  - unfold veritysetup, Run, bind, emit, ret, lift.
    now rewrite Hrun, scanReport_lastOf, Hempty.
  - destruct (SealOEMPartition env oemFSSize4K fs) as [[r ev] fs'] eqn:E.
    unfold result, events, filesAfter; cbn [fst snd].
    seal_inv E; intros Hin; unfold veritysetupArgv in *; not_in Hin.
    all: injection Hin as ->.
    all: try (split; reflexivity).
    all: try congruence.
    all: match goal with
         | H1 : run _ ?a = Some ?x, H2 : run _ ?a = Some ?y |- _ =>
             assert (x = y) by congruence; subst
         end.
    all: match goal with
         | H : scanReport _ _ _ = _ |- _ =>
             rewrite scanReport_lastOf in H; try discriminate H;
             injection H as <- <-
         end.
    all: congruence.
Qed.

Lemma C6_missing_field_is_an_error_witness :
  veritysetup (Example.env true Example.reportNoSalt) "0123abcd" 256
    Example.files
  = (Val ("", "", Some (Errorf VeritysetupOutputFormat)),
     [Exec (veritysetupArgv "0123abcd" 256)], Example.files)
  /\ (In (Exec (veritysetupArgv "0123abcd" 256))
         (events (SealOEMPartition (Example.env true Example.reportNoSalt)
                    256 Example.files)) ->
      result (SealOEMPartition (Example.env true Example.reportNoSalt) 256
                Example.files)
      = Val (Some (Wrapf CannotRunVeritysetup (Errorf VeritysetupOutputFormat)))
      /\ filesAfter (SealOEMPartition (Example.env true Example.reportNoSalt)
                       256 Example.files) = Example.files).
Proof.
  apply (C6_missing_field_is_an_error (Example.env true Example.reportNoSalt)
           "0123abcd" 256 Example.files Example.reportNoSalt eq_refl).
  right. left. intros line Hin. vm_compute in Hin.
  repeat (destruct Hin as [<-|Hin]; [reflexivity|]). contradiction.
Defined.

End SealClaims.

(** ** Size strings and [validateOEM] *)

Module SizeFacts.
Import Go GoFacts Spec partutil.

Lemma byte_chr (z : Z) : 0 <= z < 256 -> byte (chr z) = z.
Proof.
  intros H. unfold byte, chr.
  rewrite N_ascii_embedding.
  - now rewrite Z2N.id by lia.
  - change 256%N with (Z.to_N 256). apply Z2N.inj_lt; lia.
Qed.

Lemma is_digit_digit (d : Z) : 0 <= d < 10 -> is_digit (digit d) = true.
Proof.
  intros H. unfold is_digit, digit, between. rewrite byte_chr by lia.
  apply andb_true_intro. split; apply Z.leb_le; lia.
Qed.

Lemma byte_digit (d : Z) : 0 <= d < 10 -> byte (digit d) - 48 = d.
Proof. intros H. unfold digit. rewrite byte_chr by lia. lia. Qed.

Lemma parse_size_digit (acc : option Z) (d : Z) (rest : string) :
  0 <= d < 10 ->
  parse_size acc (String (digit d) rest)
  = parse_size (Some (10 * value acc + d)) rest.
Proof.
  intros H. cbn [parse_size]. rewrite is_digit_digit, byte_digit by assumption.
  reflexivity.
Qed.

Lemma format_digits_S (fuel : nat) (n : Z) (acc : string) :
  format_digits (S fuel) n acc
  = if n <? 10 then String (digit (n mod 10)) acc
    else format_digits fuel (n / 10) (String (digit (n mod 10)) acc).
Proof. reflexivity. Qed.

(** Reading the digits [format_digits] writes gives the number back, in
    front of whatever follows. *)
Lemma parse_size_format_digits (fuel : nat) :
  forall n, 0 <= n < 10 ^ Z.of_nat (S fuel) ->
  exists k, 0 <= k /\
    forall acc rest,
      parse_size acc (format_digits (S fuel) n rest)
      = parse_size (Some (value acc * 10 ^ k + n)) rest.
Proof.
  induction fuel as [|fuel IH]; intros n Hn.
  - exists 1. split; [lia|]. intros acc rest.
    change (10 ^ Z.of_nat 1) with 10 in Hn.
    rewrite format_digits_S, Z.mod_small by lia.
    replace (n <? 10) with true by (symmetry; apply Z.ltb_lt; lia).
    rewrite parse_size_digit by lia. f_equal. f_equal. lia.
  - destruct (Z.ltb_spec n 10) as [Hlt|Hge].
    + exists 1. split; [lia|]. intros acc rest.
      rewrite format_digits_S, Z.mod_small by lia.
      replace (n <? 10) with true by (symmetry; apply Z.ltb_lt; lia).
      rewrite parse_size_digit by lia. f_equal. f_equal. lia.
    + assert (Hq : 0 <= n / 10 < 10 ^ Z.of_nat (S fuel)).
      { split; [apply Z.div_pos; lia|].
        apply Z.div_lt_upper_bound; [lia|].
        replace (Z.of_nat (S (S fuel))) with (Z.of_nat (S fuel) + 1) in Hn
          by lia.
        rewrite Z.pow_add_r, Z.pow_1_r in Hn by lia. lia. }
      destruct (IH _ Hq) as (k & Hk & Hparse).
      exists (k + 1). split; [lia|]. intros acc rest.
      rewrite (format_digits_S (S fuel)).
      replace (n <? 10) with false by (symmetry; apply Z.ltb_ge; lia).
      rewrite Hparse.
      rewrite parse_size_digit by (apply Z.mod_pos_bound; lia).
      f_equal. f_equal. cbn [value].
      rewrite Z.pow_add_r, Z.pow_1_r by lia.
      pose proof (Z.div_mod n 10). lia.
Qed.

Lemma format_digits_app (fuel : nat) (n : Z) (acc t : string) :
  format_digits fuel n acc ++ t = format_digits fuel n (acc ++ t).
Proof.
  revert n acc; induction fuel as [|fuel IH]; intros n acc; [reflexivity|].
  rewrite !format_digits_S. destruct (n <? 10); [reflexivity|].
  now rewrite IH.
Qed.

(** [ConvertSizeToBytes] reads the byte count that [validateOEM] formats
    with [strconv.FormatUint(n, 10) + "B"]. *)
Lemma ConvertSizeToBytes_FormatUint (n : Z) :
  0 <= n < 2 ^ 64 -> ConvertSizeToBytes (FormatUint n ++ "B") = Some n.
Proof.
  intros Hn. unfold ConvertSizeToBytes, FormatUint.
  rewrite format_digits_app.
  destruct (parse_size_format_digits 19 n) as (k & _ & ->).
  { split; [lia|]. apply Z.lt_trans with (2 ^ 64); [lia|reflexivity]. }
  cbn [value parse_size append]. change (is_digit "B") with false.
  change (unit_bytes "B") with (Some 1). cbn [option_map].
  replace (0 * 10 ^ k + n) with n by lia. rewrite Z.mul_1_r.
  destruct (Z.ltb_spec n (2 ^ 64)); [reflexivity|lia].
Qed.

Lemma ConvertSizeToGBRoundUp_FormatUint (n : Z) :
  0 <= n < 2 ^ 64 ->
  ConvertSizeToGBRoundUp (FormatUint n ++ "B")
  = Some ((n + (2 ^ 30 - 1)) / 2 ^ 30).
Proof.
  intros Hn. unfold ConvertSizeToGBRoundUp.
  now rewrite ConvertSizeToBytes_FormatUint.
Qed.

(** What [ConvertSizeToBytes] returns fits a [uint64]. *)
Lemma ConvertSizeToBytes_range (s : string) (n : Z) :
  ConvertSizeToBytes s = Some n -> 0 <= n < 2 ^ 64.
Proof.
  unfold ConvertSizeToBytes.
  assert (Hpos : forall s acc n, 0 <= value acc ->
                   parse_size acc s = Some n -> 0 <= n).
  { clear. induction s as [|c s IH]; intros acc n Hacc; cbn [parse_size].
    - destruct acc; cbn [option_map];
        [intros [= <-]; cbn [value] in Hacc; lia|discriminate].
    - destruct (is_digit c) eqn:D.
      + apply IH. unfold value in *. unfold is_digit, between in D.
        apply andb_prop in D as [D _]. apply Z.leb_le in D.
        destruct acc; lia.
      + destruct s; [|discriminate]. destruct acc as [a|]; [|discriminate].
        unfold unit_bytes.
        repeat (match goal with
                | |- context [Ascii.eqb c ?x] => destruct (Ascii.eqb c x)
                end);
          cbn [option_map]; try discriminate; intros [= <-];
          cbn [value] in Hacc; lia. }
  destruct (parse_size None s) as [b|] eqn:E; [|discriminate].
  destruct (Z.ltb_spec b (2 ^ 64)); [|discriminate].
  intros [= <-]. split; [|assumption].
  apply (Hpos s None b); [cbn; lia|assumption].
Qed.

End SizeFacts.

Module ValidateFacts.
Import Go GoFacts Spec partutil cmd SizeFacts.

Lemma u64_small (z : Z) : 0 <= z < 2 ^ 64 -> u64 z = z.
Proof. intros H. unfold u64. now apply Z.mod_small. Qed.

Lemma roundup_bound (m : Z) :
  0 <= m < 2 ^ 64 -> 0 <= (m + (2 ^ 30 - 1)) / 2 ^ 30 <= 2 ^ 34.
Proof.
  intros H. split.
  - apply Z.div_pos; lia.
  - apply Z.lt_succ_r. apply Z.div_lt_upper_bound; lia.
Qed.

(** The second half of [validateOEM] on a partition size of [m] bytes. *)
Lemma checkDiskSize_eq (b : Build) (msg : string) (m : Z) :
  0 <= m < 2 ^ 64 ->
  checkDiskSize b msg m
  = if u64 (DiskSize b) <? 10 + (m + (2 ^ 30 - 1)) / 2 ^ 30 then
      (b, Some (DiskSizeTooSmall msg 10))
    else
      (set_OEMSize b (FormatUint (u64 (m / 2 ^ 20 - 1)) ++ "M"), None).
Proof.
  intros Hm. unfold checkDiskSize, imgSize.
  rewrite ConvertSizeToGBRoundUp_FormatUint by assumption.
  pose proof (roundup_bound m Hm).
  rewrite (u64_small (10 + _)) by lia.
  now rewrite Z.shiftr_div_pow2 by lia.
Qed.

Lemma eqb_nonempty (s : string) : s <> "" -> String.eqb s "" = false.
Proof. intros H. now apply String.eqb_neq. Qed.

(** [validateOEM] with sealing and a requested size of [n] bytes. *)
Lemma validateOEM_sealed (b : Build) (n : Z) :
  SealOEM b = true -> OEMSize b <> "" ->
  ConvertSizeToBytes (OEMSize b) = Some n ->
  validateOEM b
  = checkDiskSize (set_OEMFSSize4K b (n / 4096)) msgSeal (u64 (2 * n)).
Proof.
  intros Hseal Hsize Hconv. unfold validateOEM.
  rewrite Hseal, eqb_nonempty, Hconv by assumption. cbn [negb].
  apply ConvertSizeToBytes_range in Hconv.
  rewrite Z.shiftr_div_pow2, Z.shiftl_mul_pow2 by lia.
  change (2 ^ 12) with 4096. change (2 ^ 1) with 2.
  now rewrite (Z.mul_comm n 2).
Qed.

(** [validateOEM] without sealing and with a requested size of [n] bytes. *)
Lemma validateOEM_unsealed (b : Build) (n : Z) :
  SealOEM b = false -> OEMSize b <> "" ->
  ConvertSizeToBytes (OEMSize b) = Some n ->
  validateOEM b = checkDiskSize b msgNoSeal n.
Proof.
  intros Hseal Hsize Hconv. unfold validateOEM.
  now rewrite Hseal, eqb_nonempty, Hconv by assumption.
Qed.

End ValidateFacts.

Section ValidateClaims.
Import Go GoFacts Spec partutil cmd SizeFacts ValidateFacts.

(** C9.  With sealing and a requested size of [n] bytes, the data-block
    count [validateOEM] leaves in the configuration is [n / 4096], taken
    from the requested size: whether the call accepts or refuses the disk
    size, and whatever effective size it sets, which it computes from the
    doubled size less 1 MiB. *)
Theorem C9_data_blocks_from_requested_size
    (b : Build) (n : Z)
    (Hseal : SealOEM b = true) (Hsize : OEMSize b <> "")
    (Hconv : ConvertSizeToBytes (OEMSize b) = Some n) :
  OEMFSSize4K (fst (validateOEM b)) = n / 4096
  /\ (snd (validateOEM b) = None ->
      OEMSize (fst (validateOEM b))
      = FormatUint (u64 (u64 (2 * n) / 2 ^ 20 - 1)) ++ "M").
Proof.
  rewrite (validateOEM_sealed b n) by assumption.
  rewrite checkDiskSize_eq by (unfold u64; apply Z.mod_pos_bound; lia).
  cbn [DiskSize set_OEMFSSize4K].
  destruct (u64 (DiskSize b) <? _); cbn; split; try reflexivity; discriminate.
Qed.

Lemma C9_data_blocks_from_requested_size_witness :
  OEMFSSize4K (fst (validateOEM (mkBuild true "1G" 0 12))) = 2 ^ 30 / 4096
  /\ (snd (validateOEM (mkBuild true "1G" 0 12)) = None ->
      OEMSize (fst (validateOEM (mkBuild true "1G" 0 12)))
      = FormatUint (u64 (u64 (2 * 2 ^ 30) / 2 ^ 20 - 1)) ++ "M").
Proof.
  apply (C9_data_blocks_from_requested_size (mkBuild true "1G" 0 12) (2 ^ 30)).
  - reflexivity.
  - discriminate.
  - reflexivity.
Defined.

(** C2 (as amended).  With sealing, a requested size of [n] bytes below
    2^63 and a disk size that is not negative, [validateOEM] accepts
    exactly when the disk size is at least 10 GB plus twice [n] rounded up
    to whole GB; it then sets the effective OEM size to twice [n] in MiB
    less one, which for a request of 1G is 2047M, and leaves the data-block
    count at [n / 4096]. *)
Theorem C2_sealed_budget
    (b : Build) (n : Z)
    (Hseal : SealOEM b = true) (Hsize : OEMSize b <> "")
    (Hconv : ConvertSizeToBytes (OEMSize b) = Some n)
    (Hn : n < 2 ^ 63)
    (Hdisk : 0 <= DiskSize b < 2 ^ 63) :
  (snd (validateOEM b) = None
   <-> 10 + (2 * n + (2 ^ 30 - 1)) / 2 ^ 30 <= DiskSize b)
  /\ (DiskSize b < 10 + (2 * n + (2 ^ 30 - 1)) / 2 ^ 30 ->
      validateOEM b
      = (set_OEMFSSize4K b (n / 4096), Some (DiskSizeTooSmall msgSeal 10)))
  /\ (10 + (2 * n + (2 ^ 30 - 1)) / 2 ^ 30 <= DiskSize b ->
      validateOEM b
      = (set_OEMSize (set_OEMFSSize4K b (n / 4096))
           (FormatUint (u64 (2 * n / 2 ^ 20 - 1)) ++ "M"), None)).
Proof.
  pose proof (ConvertSizeToBytes_range _ _ Hconv) as Hr.
  rewrite (validateOEM_sealed b n) by assumption.
  rewrite (u64_small (2 * n)) by lia.
  rewrite checkDiskSize_eq by lia.
  cbn [DiskSize set_OEMFSSize4K]. rewrite (u64_small (DiskSize b)) by lia.
  destruct (Z.ltb_spec (DiskSize b) (10 + (2 * n + (2 ^ 30 - 1)) / 2 ^ 30));
    cbn [fst snd].
  - split; [split; [discriminate|lia]|]. split; [reflexivity|lia].
  - split; [split; [lia|reflexivity]|]. split; [lia|reflexivity].
Qed.

Lemma C2_sealed_budget_witness :
  validateOEM (mkBuild true "1G" 0 12)
  = (mkBuild true "2047M" 262144 12, None)
  /\ validateOEM (mkBuild true "1G" 0 11)
     = (mkBuild true "1G" 262144 11, Some (DiskSizeTooSmall msgSeal 10)).
Proof.
  assert (Hconv : ConvertSizeToBytes "1G" = Some (2 ^ 30))
    by (vm_compute; reflexivity).
  assert (Hne : "1G" <> "") by discriminate.
  assert (Hn : 2 ^ 30 < 2 ^ 63) by reflexivity.
  split.
  - destruct (C2_sealed_budget (mkBuild true "1G" 0 12) (2 ^ 30) eq_refl Hne
                Hconv Hn) as (_ & _ & H).
    + split; [discriminate|reflexivity].
    + rewrite H by (vm_compute; discriminate). vm_compute. reflexivity.
  - destruct (C2_sealed_budget (mkBuild true "1G" 0 11) (2 ^ 30) eq_refl Hne
                Hconv Hn) as (_ & H & _).
    + split; [discriminate|reflexivity].
    + rewrite H by (vm_compute; reflexivity). vm_compute. reflexivity.
Defined.

(** C2, the claim as stated, fails: for a request of 1G with sealing the
    call accepts a disk of 12 GB and sets the effective OEM size to 2047M,
    not 1023M. *)
Lemma C2_counterexample :
  snd (validateOEM (mkBuild true "1G" 0 12)) = None
  /\ OEMSize (fst (validateOEM (mkBuild true "1G" 0 12))) = "2047M"
  /\ OEMSize (fst (validateOEM (mkBuild true "1G" 0 12))) <> "1023M".
Proof.
  split; [vm_compute; reflexivity|].
  split; [vm_compute; reflexivity|].
  vm_compute. discriminate.
Qed.

(** C7, at the failing input: without sealing, a request of 1G and a disk
    size of -1 GB are accepted, and the OEM size is set to 1023M, although
    -1 is below the 11 GB the request needs; the conversion of the disk
    size to [uint64] makes it 2^64 - 1.  The branch for sealing without a
    requested size compares the disk size as a signed number and refuses
    the same disk size. *)
Theorem C7_negative_disk_size_accepted :
  validateOEM (mkBuild false "1G" 0 (-1))
  = (mkBuild false "1023M" 0 (-1), None)
  /\ u64 (-1) = 2 ^ 64 - 1
  /\ validateOEM (mkBuild true "" 0 (-1))
     = (mkBuild true "" 0 (-1), Some NeedExtraDiskSpace).
Proof. repeat split; vm_compute; reflexivity. Qed.

(** Without sealing, a requested size of [n] bytes and a disk size that is
    not negative, [validateOEM] accepts exactly when the disk size is at
    least 10 GB plus [n] rounded up to whole GB, and refuses with the
    disk-size error otherwise; it then sets the effective OEM size to [n]
    in MiB less one, 1023M for a request of 1G. *)
Theorem validateOEM_unsealed_budget
    (b : Build) (n : Z)
    (Hseal : SealOEM b = false) (Hsize : OEMSize b <> "")
    (Hconv : ConvertSizeToBytes (OEMSize b) = Some n)
    (Hdisk : 0 <= DiskSize b < 2 ^ 63) :
  (snd (validateOEM b) = None
   <-> 10 + (n + (2 ^ 30 - 1)) / 2 ^ 30 <= DiskSize b)
  /\ (DiskSize b < 10 + (n + (2 ^ 30 - 1)) / 2 ^ 30 ->
      validateOEM b = (b, Some (DiskSizeTooSmall msgNoSeal 10)))
  /\ (10 + (n + (2 ^ 30 - 1)) / 2 ^ 30 <= DiskSize b ->
      validateOEM b
      = (set_OEMSize b (FormatUint (u64 (n / 2 ^ 20 - 1)) ++ "M"), None)).
Proof.
  pose proof (ConvertSizeToBytes_range _ _ Hconv) as Hr.
  rewrite (validateOEM_unsealed b n) by assumption.
  rewrite checkDiskSize_eq by lia.
  rewrite (u64_small (DiskSize b)) by lia.
  destruct (Z.ltb_spec (DiskSize b) (10 + (n + (2 ^ 30 - 1)) / 2 ^ 30));
    cbn [fst snd].
  - split; [split; [discriminate|lia]|]. split; [reflexivity|lia].
  - split; [split; [lia|reflexivity]|]. split; [lia|reflexivity].
Qed.

Lemma validateOEM_unsealed_budget_witness :
  validateOEM (mkBuild false "1G" 0 11)
  = (mkBuild false "1023M" 0 11, None)
  /\ validateOEM (mkBuild false "1G" 0 10)
     = (mkBuild false "1G" 0 10, Some (DiskSizeTooSmall msgNoSeal 10)).
Proof.
  assert (Hconv : ConvertSizeToBytes "1G" = Some (2 ^ 30))
    by (vm_compute; reflexivity).
  assert (Hne : "1G" <> "") by discriminate.
  split.
  - destruct (validateOEM_unsealed_budget (mkBuild false "1G" 0 11) (2 ^ 30)
                eq_refl Hne Hconv) as (_ & _ & H).
    + split; [discriminate|reflexivity].
    + rewrite H by (vm_compute; discriminate). vm_compute. reflexivity.
  - destruct (validateOEM_unsealed_budget (mkBuild false "1G" 0 10) (2 ^ 30)
                eq_refl Hne Hconv) as (_ & H & _).
    + split; [discriminate|reflexivity].
    + rewrite H by (vm_compute; reflexivity). vm_compute. reflexivity.
Defined.

End ValidateClaims.

(** ** Further properties *)

Section FurtherProperties.
Import Go GoFacts Spec partutil cmd tools SizeFacts ValidateFacts.

(** Sealing without a requested OEM size is budgeted like an explicit
    request of 16M: for a disk size that is not negative both are accepted
    exactly from 11 GB on, with 4096 data blocks of 4 KiB.  But the default
    is not shrunk: it hands on an OEM size of 32M where the explicit request
    hands on 31M. *)
Theorem sealed_default_is_16M_unshrunk
    (b : Build)
    (Hseal : SealOEM b = true) (Hsize : OEMSize b = "")
    (Hdisk : 0 <= DiskSize b < 2 ^ 63) :
  let dflt := validateOEM b in
  let expl := validateOEM (set_OEMSize b "16M") in
  (snd dflt = None <-> 11 <= DiskSize b)
  /\ (snd expl = None <-> 11 <= DiskSize b)
  /\ (11 <= DiskSize b ->
      OEMFSSize4K (fst dflt) = 4096 /\ OEMFSSize4K (fst expl) = 4096
      /\ OEMSize (fst dflt) = "32M" /\ OEMSize (fst expl) = "31M").
Proof.
  intros dflt expl.
  assert (Hd : dflt = if DiskSize b <? 11 then (b, Some NeedExtraDiskSpace)
                      else (set_OEMFSSize4K (set_OEMSize b "32M") 4096, None)).
  { unfold dflt, validateOEM. rewrite Hseal, Hsize. reflexivity. }
  assert (He : expl
               = if DiskSize b <? 11 then
                   (set_OEMFSSize4K (set_OEMSize b "16M") 4096,
                    Some (DiskSizeTooSmall msgSeal 10))
                 else
                   (set_OEMSize (set_OEMFSSize4K (set_OEMSize b "16M") 4096)
                      "31M", None)).
  { unfold expl.
    rewrite (validateOEM_sealed (set_OEMSize b "16M") 16777216);
      [|exact Hseal|discriminate|vm_compute; reflexivity].
    change (16777216 / 4096) with 4096.
    change (u64 (2 * 16777216)) with 33554432.
    rewrite checkDiskSize_eq by (split; [discriminate|reflexivity]).
    cbn [DiskSize set_OEMFSSize4K set_OEMSize].
    rewrite (u64_small (DiskSize b)) by lia.
    change (10 + (33554432 + (2 ^ 30 - 1)) / 2 ^ 30) with 11.
    change (FormatUint (u64 (33554432 / 2 ^ 20 - 1)) ++ "M") with "31M".
    reflexivity. }
  rewrite Hd, He.
  destruct (Z.ltb_spec (DiskSize b) 11) as [Hlt|Hge]; cbn [fst snd].
  - split; [split; [discriminate|lia]|].
    split; [split; [discriminate|lia]|lia].
  - split; [split; [intros _; exact Hge|reflexivity]|].
    split; [split; [intros _; exact Hge|reflexivity]|].
    intros _. repeat split.
Qed.

Lemma sealed_default_is_16M_unshrunk_witness :
  let dflt := validateOEM (mkBuild true "" 0 11) in
  let expl := validateOEM (set_OEMSize (mkBuild true "" 0 11) "16M") in
  (snd dflt = None <-> 11 <= DiskSize (mkBuild true "" 0 11))
  /\ (snd expl = None <-> 11 <= DiskSize (mkBuild true "" 0 11))
  /\ (11 <= DiskSize (mkBuild true "" 0 11) ->
      OEMFSSize4K (fst dflt) = 4096 /\ OEMFSSize4K (fst expl) = 4096
      /\ OEMSize (fst dflt) = "32M" /\ OEMSize (fst expl) = "31M").
Proof.
  apply (sealed_default_is_16M_unshrunk (mkBuild true "" 0 11)).
  - reflexivity.
  - reflexivity.
  - split; [discriminate|reflexivity].
Defined.

(** The hash-tree tool is run on [/dev/sda8] with the data-block count it
    is given and, for a count below 2^52, a hash offset of 4096 bytes per
    data block. *)
Theorem veritysetup_arguments
    (imageID : string) (oemFSSize4K : Z)
    (Hrange : 0 <= oemFSSize4K < 2 ^ 52) :
  nth_error (veritysetupArgv imageID oemFSSize4K) 16
  = Some ("--data-blocks=" ++ FormatUint oemFSSize4K)
  /\ nth_error (veritysetupArgv imageID oemFSSize4K) 17
     = Some ("--hash-offset=" ++ FormatUint (oemFSSize4K * 4096)).
Proof.
  unfold veritysetupArgv. cbn [nth_error]. split; [reflexivity|].
  rewrite Z.shiftl_mul_pow2 by lia. change (2 ^ 12) with 4096.
  rewrite u64_small; [reflexivity|].
  change (2 ^ 64) with (2 ^ 52 * 4096). lia.
Qed.

Lemma veritysetup_arguments_witness :
  nth_error (veritysetupArgv "0123abcd" 256) 16
  = Some ("--data-blocks=" ++ FormatUint 256)
  /\ nth_error (veritysetupArgv "0123abcd" 256) 17
     = Some ("--hash-offset=" ++ FormatUint (256 * 4096)).
Proof.
  apply (veritysetup_arguments "0123abcd" 256).
  split; [discriminate|reflexivity].
Defined.

(** The size written in the new table row is the data-block count in
    512-byte sectors, eight per block (for a count below 2^61). *)
Theorem entryString_sectors
    (name partUUID hash salt : string) (oemFSSize4K : Z)
    (Hrange : 0 <= oemFSSize4K < 2 ^ 61) :
  entryString name partUUID hash salt oemFSSize4K
  = name ++ " none ro 1, 0 " ++ FormatUint (oemFSSize4K * 8)
    ++ " verity payload=PARTUUID=" ++ partUUID
    ++ " hashtree=PARTUUID=" ++ partUUID
    ++ " hashstart=" ++ FormatUint (oemFSSize4K * 8)
    ++ " alg=sha256 root_hexdigest=" ++ hash
    ++ " salt=" ++ salt ++ String dquote "".
Proof.
  unfold entryString. rewrite Z.shiftl_mul_pow2 by lia. change (2 ^ 3) with 8.
  rewrite u64_small; [reflexivity|].
  change (2 ^ 64) with (2 ^ 61 * 8). lia.
Qed.

Lemma entryString_sectors_witness :
  entryString "oemroot" "ABCD" "h" "s" 256
  = "oemroot" ++ " none ro 1, 0 " ++ FormatUint (256 * 8)
    ++ " verity payload=PARTUUID=" ++ "ABCD"
    ++ " hashtree=PARTUUID=" ++ "ABCD"
    ++ " hashstart=" ++ FormatUint (256 * 8)
    ++ " alg=sha256 root_hexdigest=" ++ "h"
    ++ " salt=" ++ "s" ++ String dquote "".
Proof.
  apply (entryString_sectors "oemroot" "ABCD" "h" "s" 256).
  split; [discriminate|reflexivity].
Defined.

End FurtherProperties.

(** ** Lines of the rewritten file *)

Module LineFacts.
Import Go GoFacts Spec tools PatchFacts PatchAscii SizeFacts.

Lemma no_LF_app (s t : string) : no_LF (s ++ t) = no_LF s && no_LF t.
Proof.
  induction s as [|c s IH]; simpl; [reflexivity|].
  now rewrite IH, andb_assoc.
Qed.

Lemma Split_single (s : string) : no_LF s = true -> Split s LF = [s].
Proof.
  induction s as [|c s IH]; intros H; [reflexivity|].
  simpl in H. apply andb_prop in H as [Hc Hs].
  cbn [Split]. apply negb_true_iff in Hc. rewrite Hc, IH by assumption.
  reflexivity.
Qed.

Lemma Split_app_LF (s t : string) :
  no_LF s = true -> Split (s ++ String LF t) LF = s :: Split t LF.
Proof.
  induction s as [|c s IH]; intros H.
  - cbn [append Split]. now rewrite Ascii.eqb_refl.
  - simpl in H. apply andb_prop in H as [Hc Hs].
    cbn [append Split]. apply negb_true_iff in Hc.
    rewrite Hc, IH by assumption. reflexivity.
Qed.

(** Splitting what [Join] made of single lines gives the lines back. *)
Lemma Split_Join (lines : list string) :
  lines <> [] -> Forall (fun l => no_LF l = true) lines ->
  Split (Join lines nl) LF = lines.
Proof.
  induction lines as [|a lines IH]; intros Hne Hall; [contradiction|].
  inversion Hall as [|? ? Ha Hrest]; subst.
  destruct lines as [|b lines].
  - cbn [Join]. now apply Split_single.
  - change (Join (a :: b :: lines) nl)
      with (a ++ String LF (Join (b :: lines) nl)).
    rewrite Split_app_LF by assumption.
    now rewrite IH by (discriminate || assumption).
Qed.

Lemma Split_no_LF (s : string) :
  Forall (fun l => no_LF l = true) (Split s LF).
Proof.
  induction s as [|c s IH]; cbn [Split].
  - now constructor.
  - destruct (Ascii.eqb c LF) eqn:E.
    + now constructor.
    + pose proof (Split_not_nil s LF).
      destruct (Split s LF) as [|f fs]; [contradiction|].
      inversion IH; subst. constructor; [|assumption].
      cbn [no_LF]. now rewrite E.
Qed.

(** *** No rune of a single line is a line feed, and back *)

Lemma lor_ge16 (a b : Z) :
  0 <= a -> 0 <= b -> 16 <= a \/ 16 <= b -> 16 <= Z.lor a b.
Proof.
  intros Ha Hb H.
  assert (Hl : 4 <= Z.log2 (Z.lor a b)).
  { rewrite Z.log2_lor by assumption.
    destruct H as [H|H]; apply (Z.log2_le_mono 16) in H;
      change (Z.log2 16) with 4 in H; lia. }
  assert (Hpos : 0 < Z.lor a b).
  { destruct (Z.lor a b) eqn:E; try (cbn in Hl; lia). }
  change 16 with (2 ^ 4). now apply Z.log2_le_pow2.
Qed.

Lemma lor_lt256 (a b : Z) :
  0 <= a < 256 -> 0 <= b < 256 -> 0 <= Z.lor a b < 256.
Proof.
  intros Ha Hb.
  assert (Hnn : 0 <= Z.lor a b) by (apply Z.lor_nonneg; lia).
  split; [assumption|].
  destruct (Z.eq_dec (Z.lor a b) 0) as [->|Hne]; [lia|].
  change 256 with (2 ^ 8). apply Z.log2_lt_pow2; [lia|].
  rewrite Z.log2_lor by lia.
  assert (Hlog : forall x, 0 <= x < 256 -> Z.log2 x < 8).
  { intros x Hx. destruct (Z.eq_dec x 0) as [->|]; [reflexivity|].
    apply Z.log2_lt_pow2; lia. }
  pose proof (Hlog a Ha). pose proof (Hlog b Hb). lia.
Qed.

Lemma land_low (x : Z) (n : Z) (m : Z) :
  0 <= n -> m = Z.ones n -> Z.land x m = x mod 2 ^ n.
Proof. intros Hn ->. now apply Z.land_ones. Qed.

Lemma chr_not_LF (z : Z) :
  0 <= z < 256 -> z <> 10 -> Ascii.eqb (chr z) LF = false.
Proof.
  intros Hz Hne. apply Ascii.eqb_neq. intros E.
  apply (f_equal byte) in E. rewrite byte_chr in E by assumption.
  now apply Hne.
Qed.

Lemma byte_not_LF (c : ascii) : Ascii.eqb c LF = false -> byte c <> 10.
Proof.
  intros H E. apply Ascii.eqb_neq in H. apply H.
  rewrite <- (chr_byte c), E. reflexivity.
Qed.

(** Booleans of the decoder and the encoder as arithmetic facts. *)
Ltac bools :=
  unfold accept, cont, between in *;
  repeat match goal with
    | H : negb _ = true |- _ => apply negb_true_iff in H
    | H : negb _ = false |- _ => apply negb_false_iff in H
    | H : (_ && _) = true |- _ => apply andb_prop in H as [? ?]
    | H : (_ || _) = false |- _ => apply orb_false_elim in H as [? ?]
    | H : (_ <? _) = true |- _ => apply Z.ltb_lt in H
    | H : (_ <? _) = false |- _ => apply Z.ltb_ge in H
    | H : (_ <=? _) = true |- _ => apply Z.leb_le in H
    | H : (_ <=? _) = false |- _ => apply Z.leb_gt in H
    | H : (_ =? _) = true |- _ => apply Z.eqb_eq in H
    | H : (_ =? _) = false |- _ => apply Z.eqb_neq in H
    | H : (if ?b then _ else _) = _ |- _ => destruct b eqn:?
    end.

(** A rune decoded from more than one byte is at least 16: only the byte
    10 decodes to the line feed. *)
Lemma DecodeRune_not_LF (c : ascii) (s : string) :
  Ascii.eqb c LF = false -> fst (DecodeRune (String c s)) <> 10.
Proof.
  intros Hc. apply byte_not_LF in Hc.
  pose proof (byte_range c) as Rc.
  unfold DecodeRune.
  destruct (byte c <? 128) eqn:H0; [exact Hc|].
  destruct ((byte c <? 194) || (244 <? byte c)) eqn:H1; [discriminate|].
  destruct s as [|c1 s]; [discriminate|].
  pose proof (byte_range c1) as R1.
  destruct (negb (accept (byte c) (byte c1))) eqn:H2; [discriminate|].
  assert (Hmod32 : Z.land (byte c) 31 = byte c mod 2 ^ 5)
    by now apply land_low.
  assert (Hmod16 : Z.land (byte c) 15 = byte c mod 2 ^ 4)
    by now apply land_low.
  assert (Hmod8 : Z.land (byte c) 7 = byte c mod 2 ^ 3)
    by now apply land_low.
  assert (Hmod64 : Z.land (byte c1) 63 = byte c1 mod 2 ^ 6)
    by now apply land_low.
  assert (Hnn : forall x m, 0 <= x -> 0 <= Z.land x m)
    by (intros; apply Z.land_nonneg; now left).
  assert (Hge : forall r, 16 <= r -> r <> 10) by (intros; lia).
  destruct (byte c <? 224) eqn:H3.
  { cbn [fst]. apply Hge.
    apply lor_ge16; [apply Z.shiftl_nonneg; apply Hnn; lia|apply Hnn; lia|].
    left. rewrite Hmod32, Z.shiftl_mul_pow2 by lia.
    clear Hmod32 Hmod16 Hmod8 Hmod64 H2. bools.
    Z.to_euclidean_division_equations. lia. }
  destruct s as [|c2 s]; [discriminate|].
  pose proof (byte_range c2) as R2.
  destruct (negb (cont (byte c2))) eqn:H4; [discriminate|].
  assert (Hsecond : 224 <= byte c ->
                    16 <= Z.shiftl (Z.land (byte c) 15) 12
                    \/ 16 <= Z.shiftl (Z.land (byte c1) 63) 6).
  { intros Hp. rewrite Hmod16, Hmod64, !Z.shiftl_mul_pow2 by lia.
    clear Hmod32 Hmod16 Hmod8 Hmod64. bools; subst;
      Z.to_euclidean_division_equations; lia. }
  assert (Hthird : 240 <= byte c ->
                   16 <= Z.shiftl (Z.land (byte c) 7) 18
                   \/ 16 <= Z.shiftl (Z.land (byte c1) 63) 12).
  { intros Hp. rewrite Hmod8, Hmod64, !Z.shiftl_mul_pow2 by lia.
    clear Hmod32 Hmod16 Hmod8 Hmod64. bools; subst;
      Z.to_euclidean_division_equations; lia. }
  destruct (byte c <? 240) eqn:H5.
  { cbn [fst]. apply Hge. apply Z.ltb_ge in H3.
    destruct (Hsecond H3) as [Ha|Hb].
    - apply lor_ge16; [apply Z.shiftl_nonneg; apply Hnn; lia| |now left].
      apply Z.lor_nonneg. split; [apply Z.shiftl_nonneg|]; apply Hnn; lia.
    - apply lor_ge16; [apply Z.shiftl_nonneg; apply Hnn; lia| |right].
      + apply Z.lor_nonneg. split; [apply Z.shiftl_nonneg|]; apply Hnn; lia.
      + apply lor_ge16; [apply Z.shiftl_nonneg; apply Hnn; lia
                        |apply Hnn; lia|now left]. }
  destruct s as [|c3 s]; [discriminate|].
  pose proof (byte_range c3) as R3.
  destruct (negb (cont (byte c3))) eqn:H6; [discriminate|].
  cbn [fst]. apply Hge. apply Z.ltb_ge in H5.
  assert (Hin : 0 <= Z.lor (Z.shiftl (Z.land (byte c1) 63) 12)
                     (Z.lor (Z.shiftl (Z.land (byte c2) 63) 6)
                        (Z.land (byte c3) 63))).
  { apply Z.lor_nonneg. split; [apply Z.shiftl_nonneg; apply Hnn; lia|].
    apply Z.lor_nonneg. split; [apply Z.shiftl_nonneg|]; apply Hnn; lia. }
  destruct (Hthird H5) as [Ha|Hb].
  - apply lor_ge16; [apply Z.shiftl_nonneg; apply Hnn; lia|assumption
                    |now left].
  - apply lor_ge16; [apply Z.shiftl_nonneg; apply Hnn; lia|assumption|right].
    apply lor_ge16; [apply Z.shiftl_nonneg; apply Hnn; lia| |now left].
    apply Z.lor_nonneg. split; [apply Z.shiftl_nonneg|]; apply Hnn; lia.
Qed.

Lemma enc_byte_not_LF (a b : Z) :
  16 <= a < 256 -> 0 <= b < 256 -> Ascii.eqb (chr (Z.lor a b)) LF = false.
Proof.
  intros Ha Hb. apply chr_not_LF.
  - apply lor_lt256; lia.
  - assert (16 <= Z.lor a b) by (apply lor_ge16; lia). lia.
Qed.

Lemma land63_range (x : Z) : 0 <= Z.land x 63 < 256.
Proof.
  rewrite (land_low x 6 63) by (reflexivity || lia).
  pose proof (Z.mod_pos_bound x (2 ^ 6)). lia.
Qed.

Lemma shiftr_range (r k hi : Z) :
  0 <= k -> 0 <= r < hi * 2 ^ k -> 0 <= Z.shiftr r k < hi.
Proof.
  intros Hk Hr. rewrite Z.shiftr_div_pow2 by assumption.
  assert (0 < 2 ^ k) by (apply Z.pow_pos_nonneg; lia).
  split; [apply Z.div_pos; lia|].
  apply Z.div_lt_upper_bound; lia.
Qed.

(** The encoding of a rune other than the line feed holds no line feed. *)
Lemma EncodeRune_no_LF (r : Z) : r <> 10 -> no_LF (EncodeRune r) = true.
Proof.
  intros Hr. unfold EncodeRune.
  destruct (between 0 r 127) eqn:B1.
  { bools. cbn [no_LF]. rewrite chr_not_LF by lia. reflexivity. }
  destruct (between 128 r 2047) eqn:B2.
  { unfold between in B2. apply andb_prop in B2 as [L U].
    apply Z.leb_le in L, U. cbn [no_LF].
    pose proof (shiftr_range r 6 32 ltac:(lia) ltac:(lia)).
    pose proof (land63_range r).
    rewrite !enc_byte_not_LF by lia. reflexivity. }
  destruct ((r <? 0) || (1114111 <? r) || between 55296 r 57343) eqn:B3;
    [reflexivity|].
  apply orb_false_elim in B3 as [B3 _]. apply orb_false_elim in B3 as [L U].
  apply Z.ltb_ge in L, U.
  pose proof (land63_range r). pose proof (land63_range (Z.shiftr r 6)).
  pose proof (land63_range (Z.shiftr r 12)).
  destruct (r <=? 65535) eqn:B4.
  - apply Z.leb_le in B4. cbn [no_LF].
    pose proof (shiftr_range r 12 16 ltac:(lia) ltac:(lia)).
    rewrite !enc_byte_not_LF by lia. reflexivity.
  - cbn [no_LF].
    pose proof (shiftr_range r 18 16 ltac:(lia) ltac:(lia)).
    rewrite !enc_byte_not_LF by lia. reflexivity.
Qed.

Lemma runes_from_not_LF (s : string) :
  no_LF s = true ->
  forall skip, Forall (fun r => r <> 10) (runes_from skip s).
Proof.
  induction s as [|c s IH]; intros H skip; [constructor|].
  simpl in H. apply andb_prop in H as [Hc Hs]. apply negb_true_iff in Hc.
  cbn [runes_from]. destruct skip as [|k]; [|now apply IH].
  pose proof (DecodeRune_not_LF c s Hc) as Hr.
  destruct (DecodeRune (String c s)) as [r w]. constructor; [exact Hr|].
  now apply IH.
Qed.

Lemma set_index_Forall {A} (P : A -> Prop) (l l' : list A) (i : nat) (v : A) :
  Forall P l -> P v -> set_index l i v = Some l' -> Forall P l'.
Proof.
  revert i l'; induction l as [|a l IH]; intros i l' Hl Hv; [discriminate|].
  inversion Hl; subst. destruct i as [|i]; cbn [set_index].
  - intros [= <-]. now constructor.
  - destruct (set_index l i v) as [t|] eqn:E; [|discriminate].
    intros [= <-]. constructor; [assumption|]. now apply (IH i).
Qed.

Lemma string_of_runes_no_LF (rs : list Z) :
  Forall (fun r => r <> 10) rs -> no_LF (string_of_runes rs) = true.
Proof.
  induction 1 as [|r rs Hr _ IH]; [reflexivity|].
  cbn [string_of_runes]. now rewrite no_LF_app, EncodeRune_no_LF, IH.
Qed.

Lemma take_no_LF (n : nat) (s : string) :
  no_LF s = true -> no_LF (take n s) = true.
Proof.
  revert n; induction s as [|c s IH]; intros [|n] H; try reflexivity.
  simpl in *. apply andb_prop in H as [-> Hs]. now apply IH.
Qed.

(** The loop body turns a single line into a single line, if the new row
    is one. *)
Lemma patchLine_no_LF (entry line out : string) :
  no_LF entry = true -> no_LF line = true ->
  patchLine entry line = Val out -> no_LF out = true.
Proof.
  intros He Hl. destruct (Contains line "dm=") eqn:C.
  - rewrite patchLine_dm by assumption.
    destruct (set_index _ _ _) as [buf|] eqn:E; [|discriminate].
    intros [= <-]. rewrite no_LF_app. cbn [append no_LF].
    change (Ascii.eqb "," LF) with false. cbn [negb andb].
    rewrite He, andb_true_r.
    apply string_of_runes_no_LF.
    assert (Hv : rune2 <> 10) by (unfold rune2; lia).
    apply (set_index_Forall (fun r => r <> 10) _ _ _ _
             (runes_from_not_LF _ (take_no_LF _ _ Hl) 0%nat) Hv E).
  - rewrite patchLine_other by assumption. now intros [= <-].
Qed.

Lemma patchLines_no_LF (entry : string) (lines lines' : list string) :
  no_LF entry = true -> Forall (fun l => no_LF l = true) lines ->
  patchLines entry lines = Val lines' ->
  Forall (fun l => no_LF l = true) lines'.
Proof.
  intros He. revert lines'.
  induction lines as [|l ls IH]; intros lines' Hall; cbn [patchLines].
  - intros [= <-]. constructor.
  - inversion Hall; subst.
    destruct (patchLine entry l) as [l'|] eqn:El; [|discriminate].
    destruct (patchLines entry ls) as [ls'|]; [|discriminate].
    intros [= <-]. constructor; [|now apply IH].
    now apply (patchLine_no_LF entry l).
Qed.

End LineFacts.

Section FileLines.
Import Go GoFacts Spec tools PatchFacts PatchAscii LineFacts.

(** When the new row holds no line feed and the call returns [nil], the
    lines of the [grub.cfg] that [appendDMEntryToGRUB] has written, read
    off the file by splitting it at line feeds, are as many as before, and
    every line without [dm=] is the same line at the same place. *)
Theorem rewritten_file_lines
    (env : Env) (grubPath name partUUID hash salt : string) (oemFSSize4K : Z)
    (fs : Files) (content : string)
    (Hfile : fs (grubPath ++ "/grub.cfg") = Some content)
    (Hrow : no_LF (entryString name partUUID hash salt oemFSSize4K) = true)
    (Hok : result (appendDMEntryToGRUB env grubPath name partUUID hash salt
                     oemFSSize4K fs) = Val None) :
  exists content',
    filesAfter (appendDMEntryToGRUB env grubPath name partUUID hash salt
                  oemFSSize4K fs) (grubPath ++ "/grub.cfg") = Some content'
    /\ List.length (Split content' LF) = List.length (Split content LF)
    /\ forall (i : nat) (line : string),
         nth_error (Split content LF) i = Some line ->
         Contains line "dm=" = false ->
         nth_error (Split content' LF) i = Some line.
Proof.
  revert Hok.
  unfold appendDMEntryToGRUB, bind, readFile, lift, writeFile, ret,
    result, filesAfter.
  rewrite Hfile.
  set (path := grubPath ++ "/grub.cfg") in *.
  set (entry := entryString name partUUID hash salt oemFSSize4K) in *.
  destruct (patchLines entry (Split content LF)) as [lines'|] eqn:E;
    [|cbn [fst]; discriminate].
  destruct (writeOutcome env path (Join lines' nl)) eqn:W; cbn [fst snd];
    try discriminate.
  intros _.
  exists (Join lines' nl). unfold write. rewrite String.eqb_refl.
  split; [reflexivity|].
  destruct (patchLines_spec _ _ _ E) as [Hlen Hnth].
  rewrite Split_Join.
  - now split.
  - intros ->. pose proof (Split_not_nil content LF).
    destruct (Split content LF); [contradiction|discriminate].
  - apply (patchLines_no_LF entry (Split content LF));
      [assumption|apply Split_no_LF|assumption].
Qed.

Lemma rewritten_file_lines_witness :
  exists content',
    filesAfter (appendDMEntryToGRUB (Example.env true Example.report)
                  Example.grubDir "oemroot" "ABCD" "h" "s" 256 Example.files)
      (Example.grubDir ++ "/grub.cfg") = Some content'
    /\ List.length (Split content' LF)
       = List.length (Split Example.grubCfg LF)
    /\ forall (i : nat) (line : string),
         nth_error (Split Example.grubCfg LF) i = Some line ->
         Contains line "dm=" = false ->
         nth_error (Split content' LF) i = Some line.
Proof.
  apply (rewritten_file_lines (Example.env true Example.report)
           Example.grubDir "oemroot" "ABCD" "h" "s" 256 Example.files
           Example.grubCfg).
  - reflexivity.
  - vm_compute. reflexivity.
  - vm_compute. reflexivity.
Defined.

End FileLines.

(** ** The command [finish-image-build] *)

Module MapFacts.
Import finish.

Lemma lookup_app (k : string) (m1 m2 : Map) :
  lookup k (m1 ++ m2)%list
  = match lookup k m1 with Some v => Some v | None => lookup k m2 end.
Proof.
  induction m1 as [|[k' v] m1 IH]; cbn [lookup List.app]; [reflexivity|].
  destruct (String.eqb k' k); [reflexivity|exact IH].
Qed.

Lemma lookup_None_keys (k : string) (m : Map) :
  lookup k m = None <-> ~ In k (map fst m).
Proof.
  induction m as [|[k' v] m IH]; cbn [lookup map fst In].
  - tauto.
  - destruct (String.eqb_spec k' k) as [->|Hne].
    + split; [discriminate|]. intros H. exfalso. apply H. now left.
    + rewrite IH. tauto.
Qed.

(** With distinct keys, what a key maps to does not depend on the order of
    the entries. *)
Lemma lookup_In (k v : string) (m : Map) :
  NoDup (map fst m) -> (lookup k m = Some v <-> In (k, v) m).
Proof.
  induction m as [|[k' v'] m IH]; cbn [lookup map fst In]; intros Hnd.
  - split; [discriminate|contradiction].
  - inversion Hnd as [|? ? Hnotin Hnd']; subst.
    destruct (String.eqb_spec k' k) as [->|Hne].
    + split.
      * intros [= ->]. now left.
      * intros [[= ->]|Hin]; [reflexivity|].
        exfalso. apply Hnotin. apply (in_map fst) in Hin. exact Hin.
    + rewrite (IH Hnd'). split; [now right|].
      intros [[= -> _]|Hin]; [contradiction|assumption].
Qed.

Lemma lookup_Permutation (k : string) (m m' : Map) :
  NoDup (map fst m) -> Permutation m m' -> lookup k m' = lookup k m.
Proof.
  intros Hnd Hp.
  assert (Hnd' : NoDup (map fst m')).
  { eapply Permutation_NoDup; [|exact Hnd]. now apply Permutation_map. }
  destruct (lookup k m) as [v|] eqn:E.
  - apply (lookup_In _ _ _ Hnd'). apply (Permutation_in _ Hp).
    now apply (lookup_In _ _ _ Hnd).
  - apply lookup_None_keys. apply lookup_None_keys in E. intros Hin.
    apply E. eapply Permutation_in; [|exact Hin].
    apply Permutation_map. now apply Permutation_sym.
Qed.

Lemma lookup_update (k : string) (src dst : Map) :
  lookup k (update dst src)
  = match lookup k dst with Some v => Some v | None => lookup k src end.
Proof.
  revert dst; induction src as [|[k' v'] src IH]; intros dst;
    cbn [update lookup].
  - now destruct (lookup k dst).
  - destruct (lookup k' dst) as [w|] eqn:E.
    + rewrite IH. destruct (lookup k dst) eqn:E2; [reflexivity|].
      destruct (String.eqb_spec k' k) as [->|]; [congruence|reflexivity].
    + rewrite IH. unfold insert_new. rewrite lookup_app. cbn [lookup].
      destruct (lookup k dst) eqn:E2; [reflexivity|].
      destruct (String.eqb_spec k' k) as [->|]; reflexivity.
Qed.

Lemma update_keys_NoDup (src dst : Map) :
  NoDup (map fst dst) -> NoDup (map fst (update dst src)).
Proof.
  revert dst; induction src as [|[k v] src IH]; intros dst Hnd;
    cbn [update]; [assumption|].
  destruct (lookup k dst) eqn:E; [now apply IH|].
  apply IH. unfold insert_new. rewrite map_app. cbn [map fst].
  apply lookup_None_keys in E.
  apply NoDup_app.
  - assumption.
  - constructor; [intros []|constructor].
  - intros x Hx [<-|[]]. contradiction.
Qed.

Lemma update_prefix (src dst : Map) : exists added, update dst src = (dst ++ added)%list.
Proof.
  revert dst; induction src as [|[k v] src IH]; intros dst; cbn [update].
  - exists []. now rewrite app_nil_r.
  - destruct (lookup k dst).
    + apply IH.
    + destruct (IH (insert_new k v dst)) as [added ->].
      exists ((k, v) :: added). unfold insert_new. now rewrite <- app_assoc.
Qed.

End MapFacts.

Section UpdateProperties.
Import finish MapFacts.

(** [update] merges [src] into [dst] without overwriting: a key of [dst]
    keeps its value, any other key gets the value [src] gives it; the keys
    stay distinct, the entries of [dst] stay where they were, and a second
    [update] with the same [src] changes nothing. *)
Theorem update_keeps_dst_and_adds_missing
    (dst src : Map) (Hdst : NoDup (map fst dst)) :
  (forall k, lookup k (update dst src)
             = match lookup k dst with
               | Some v => Some v
               | None => lookup k src
               end)
  /\ NoDup (map fst (update dst src))
  /\ (exists added, update dst src = (dst ++ added)%list)
  /\ update (update dst src) src = update dst src.
Proof.
  split; [intros k; apply lookup_update|].
  split; [now apply update_keys_NoDup|].
  split; [apply update_prefix|].
  assert (Hfix : forall s d,
             (forall k v, In (k, v) s -> lookup k d <> None) ->
             update d s = d).
  { induction s as [|[k v] s IH]; intros d Hd; cbn [update]; [reflexivity|].
    destruct (lookup k d) eqn:E.
    - apply IH. intros k' v' Hin. apply (Hd k' v'). now right.
    - exfalso. apply (Hd k v); [now left|assumption]. }
  apply Hfix. intros k v Hin. rewrite lookup_update.
  destruct (lookup k dst); [discriminate|].
  assert (Hk : In k (map fst src)) by (apply (in_map fst) in Hin; exact Hin).
  intros E. apply lookup_None_keys in E. contradiction.
Qed.

Lemma update_keeps_dst_and_adds_missing_witness :
  (forall k, lookup k (update [("env", "prod")] [("env", "dev"); ("os", "cos")])
             = match lookup k [("env", "prod")] with
               | Some v => Some v
               | None => lookup k [("env", "dev"); ("os", "cos")]
               end)
  /\ NoDup (map fst (update [("env", "prod")] [("env", "dev"); ("os", "cos")]))
  /\ (exists added,
         update [("env", "prod")] [("env", "dev"); ("os", "cos")]
         = ([("env", "prod")] ++ added)%list)
  /\ update (update [("env", "prod")] [("env", "dev"); ("os", "cos")])
       [("env", "dev"); ("os", "cos")]
     = update [("env", "prod")] [("env", "dev"); ("os", "cos")].
Proof.
  apply (update_keeps_dst_and_adds_missing [("env", "prod")]
           [("env", "dev"); ("os", "cos")]).
  constructor; [intros []|constructor].
Defined.

(** The order in which [range] visits the entries of [src] does not change
    what any key maps to after [update]. *)
Theorem update_order_independent
    (dst src src' : Map)
    (Hsrc : NoDup (map fst src)) (Hperm : Permutation src src') :
  forall k, lookup k (update dst src') = lookup k (update dst src).
Proof.
  intros k. rewrite !lookup_update.
  now rewrite (lookup_Permutation k src src').
Qed.

Lemma update_order_independent_witness :
  lookup "os" (update [("env", "prod")] [("os", "cos"); ("env", "dev")])
  = lookup "os" (update [("env", "prod")] [("env", "dev"); ("os", "cos")]).
Proof.
  apply (update_order_independent [("env", "prod")]
           [("env", "dev"); ("os", "cos")] [("os", "cos"); ("env", "dev")]).
  - constructor; [intros [H|[]]; discriminate H|].
    constructor; [intros []|constructor].
  - apply perm_swap.
Defined.

End UpdateProperties.

(** ** The flags of [finish-image-build] *)

Module FlagFacts.
Import Go partutil cmd finish Vocab SizeFacts ValidateFacts.

Lemma eqb_empty (s : string) : String.eqb s "" = true <-> s = "".
Proof. apply String.eqb_eq. Qed.

Lemma nonempty_true (s : string) : nonempty s = true <-> s <> "".
Proof.
  unfold nonempty. rewrite negb_true_iff. apply String.eqb_neq.
Qed.

Lemma nonempty_false (s : string) : nonempty s = false <-> s = "".
Proof.
  unfold nonempty. rewrite negb_false_iff. apply String.eqb_eq.
Qed.

(** The [switch] of [validate] lets pass exactly the flags that meet its
    six conditions. *)
Lemma validateSwitch_None (f : FinishImageBuild) :
  validateSwitch f = None <->
  ((imageName f = "" /\ imageSuffix f <> "")
   \/ (imageName f <> "" /\ imageSuffix f = ""))
  /\ (deprecateOld f = true -> imageFamily f <> "")
  /\ (oldImageTTLSec f <> 0 -> deprecateOld f = true)
  /\ zone f <> "" /\ project f <> "".
Proof.
  unfold validateSwitch, nonempty.
  destruct (String.eqb_spec (imageName f) "") as [Hn|Hn];
    destruct (String.eqb_spec (imageSuffix f) "") as [Hs|Hs];
    cbn [andb negb];
    try (split; [discriminate|intros ([[? ?]|[? ?]] & _); contradiction]).
  all: destruct (deprecateOld f) eqn:Hd;
    destruct (String.eqb_spec (imageFamily f) "") as [Hf|Hf];
    cbn [andb negb];
    try (split; [discriminate|intros (_ & H & _); now specialize (H eq_refl)]).
  all: destruct (Z.eqb_spec (oldImageTTLSec f) 0) as [Ht|Ht]; cbn [andb negb];
    try (split; [discriminate|intros (_ & _ & H & _); now specialize (H Ht)]).
  all: destruct (String.eqb_spec (zone f) "") as [Hz|Hz];
    try (split; [discriminate|intros (_ & _ & _ & H & _); contradiction]).
  all: destruct (String.eqb_spec (project f) "") as [Hp|Hp];
    try (split; [discriminate|intros (_ & _ & _ & _ & H); contradiction]).
  all: split; [intros _|reflexivity].
  all: repeat split; auto; try discriminate; try contradiction.
Qed.

(** The flags [validate] lets pass. *)
Lemma validate_None_iff (f : FinishImageBuild) :
  validate f = None <->
  (oemSize f = ""
   \/ exists n, ConvertSizeToBytes (oemSize f) = Some n /\ 16 * 2 ^ 20 <= n)
  /\ ((imageName f = "" /\ imageSuffix f <> "")
      \/ (imageName f <> "" /\ imageSuffix f = ""))
  /\ (deprecateOld f = true -> imageFamily f <> "")
  /\ (oldImageTTLSec f <> 0 -> deprecateOld f = true)
  /\ zone f <> "" /\ project f <> "".
Proof.
  unfold validate.
  destruct (nonempty (oemSize f)) eqn:Hne.
  - apply nonempty_true in Hne.
    destruct (ConvertSizeToBytes (oemSize f)) as [n|] eqn:Hc.
    + change (Z.shiftl defaultOEMSizeMB 20) with (16 * 2 ^ 20).
      destruct (Z.ltb_spec n (16 * 2 ^ 20)) as [Hlt|Hge].
      * split; [discriminate|].
        intros ([H|(m & Hm & Hle)] & _); [contradiction|].
        injection Hm as <-. lia.
      * rewrite validateSwitch_None. split.
        -- intros H. split; [right; now exists n|exact H].
        -- intros (_ & H). exact H.
    + split; [discriminate|].
      intros ([H|(m & Hm & _)] & _); [contradiction|discriminate].
  - apply nonempty_false in Hne. rewrite validateSwitch_None. split.
    + intros H. split; [now left|exact H].
    + intros (_ & H). exact H.
Qed.

End FlagFacts.

Section FlagProperties.
Import Go partutil cmd finish Vocab SizeFacts ValidateFacts FlagFacts.

(** [validate] accepts the flags iff the OEM size, when given, converts to
    at least 16 MiB, exactly one of the image name and the image suffix is
    set, deprecation comes with an image family, a time-to-live comes with
    deprecation, and zone and project are set. *)
Theorem validate_accepts_iff (f : FinishImageBuild) :
  validate f = None <->
  (oemSize f = ""
   \/ exists n, ConvertSizeToBytes (oemSize f) = Some n /\ 16 * 2 ^ 20 <= n)
  /\ ((imageName f = "" /\ imageSuffix f <> "")
      \/ (imageName f <> "" /\ imageSuffix f = ""))
  /\ (deprecateOld f = true -> imageFamily f <> "")
  /\ (oldImageTTLSec f <> 0 -> deprecateOld f = true)
  /\ zone f <> "" /\ project f <> "".
Proof. exact (validate_None_iff f). Qed.

(** After [validate] has accepted an OEM size of [n] bytes, the size
    [validateOEM] hands on is never wrapped around: with [P] the partition
    size ([n], or [2 n] when sealing), it is [P / 2^20 - 1] MiB, at least
    15 MiB, and between 1 and 2 MiB less than [P]. *)
Theorem validated_oem_size_shrinks_by_1MiB
    (f : FinishImageBuild) (file : BuildConfig) (n : Z)
    (Hflags : validate f = None)
    (Hsize : oemSize f <> "")
    (Hconv : ConvertSizeToBytes (oemSize f) = Some n)
    (Hn : SealOEM (build file) = true -> n < 2 ^ 63)
    (Hok : snd (validateOEM (flagsOver f file)) = None) :
  let P := if SealOEM (build file) then 2 * n else n in
  exists m,
    OEMSize (fst (validateOEM (flagsOver f file))) = FormatUint m ++ "M"
    /\ m = P / 2 ^ 20 - 1
    /\ 15 <= m
    /\ P - 2 ^ 21 < m * 2 ^ 20 <= P - 2 ^ 20.
Proof.
  intros P.
  assert (Hge : 16 * 2 ^ 20 <= n).
  { apply validate_None_iff in Hflags.
    destruct Hflags as ([H|(m & Hm & Hle)] & _); [contradiction|].
    rewrite Hconv in Hm. now injection Hm as <-. }
  pose proof (ConvertSizeToBytes_range _ _ Hconv) as Hr.
  assert (HP : 16 * 2 ^ 20 <= P < 2 ^ 64).
  { unfold P. destruct (SealOEM (build file)); [specialize (Hn eq_refl)|]; lia. }
  assert (Hq : 16 <= P / 2 ^ 20) by (apply Z.div_le_lower_bound; lia).
  assert (Hq' : P / 2 ^ 20 < 2 ^ 44)
    by (apply Z.div_lt_upper_bound; [lia|]; change (2 ^ 20 * 2 ^ 44) with (2 ^ 64); lia).
  exists (P / 2 ^ 20 - 1).
  assert (Hbnd : P - 2 ^ 21 < (P / 2 ^ 20 - 1) * 2 ^ 20 <= P - 2 ^ 20).
  { pose proof (Z.div_mod P (2 ^ 20) ltac:(lia)) as Hdm.
    pose proof (Z.mod_pos_bound P (2 ^ 20) ltac:(lia)) as Hm. lia. }
  split; [|split; [reflexivity|split; [lia|exact Hbnd]]].
  revert Hok. unfold P.
  destruct (SealOEM (build file)) eqn:Hseal.
  - specialize (Hn eq_refl).
    rewrite (validateOEM_sealed (flagsOver f file) n) by assumption.
    rewrite checkDiskSize_eq
      by (rewrite u64_small by lia; lia).
    destruct (_ <? _); cbn [snd fst]; [discriminate|intros _].
    cbn [OEMSize set_OEMSize]. rewrite (u64_small (2 * n)) by lia.
    subst P. cbv beta iota in Hq, Hq'.
    rewrite u64_small by lia. reflexivity.
  - rewrite (validateOEM_unsealed (flagsOver f file) n) by assumption.
    rewrite checkDiskSize_eq by lia.
    destruct (_ <? _); cbn [snd fst]; [discriminate|intros _].
    cbn [OEMSize set_OEMSize].
    subst P. cbv beta iota in Hq, Hq'.
    rewrite u64_small by lia. reflexivity.
Qed.

Lemma validated_oem_size_shrinks_by_1MiB_witness :
  exists m,
    OEMSize (fst (validateOEM
                    (flagsOver FinishExample.flags FinishExample.buildFile)))
    = FormatUint m ++ "M"
    /\ m = 2 * 2 ^ 30 / 2 ^ 20 - 1
    /\ 15 <= m
    /\ 2 * 2 ^ 30 - 2 ^ 21 < m * 2 ^ 20 <= 2 * 2 ^ 30 - 2 ^ 20.
Proof.
  destruct (validated_oem_size_shrinks_by_1MiB
              FinishExample.flags FinishExample.buildFile (2 ^ 30))
    as (m & H1 & H2 & H3 & H4).
  - vm_compute; reflexivity.
  - discriminate.
  - vm_compute; reflexivity.
  - intros _. reflexivity.
  - vm_compute; reflexivity.
  - exists m. split; [exact H1|]. split; [exact H2|]. split; [exact H3|exact H4].
Defined.

(** Without the lower bound of [validate], [validateOEM] lets a partition
    size below 1 MiB pass and its 1 MiB shrink wraps around: the OEM size it
    hands on is [2^64 - 1] MiB. *)
Theorem unvalidated_small_oem_size_wraps
    (b : Build) (n : Z)
    (Hsize : OEMSize b <> "")
    (Hconv : ConvertSizeToBytes (OEMSize b) = Some n)
    (Hsmall : (if SealOEM b then 2 * n else n) < 2 ^ 20)
    (Hdisk : 11 <= DiskSize b < 2 ^ 63) :
  snd (validateOEM b) = None
  /\ OEMSize (fst (validateOEM b)) = "18446744073709551615M".
Proof.
  pose proof (ConvertSizeToBytes_range _ _ Hconv) as Hr.
  set (P := if SealOEM b then 2 * n else n) in *.
  assert (HP : 0 <= P < 2 ^ 20) by (subst P; destruct (SealOEM b); lia).
  assert (Hq : P / 2 ^ 20 = 0) by (apply Z.div_small; lia).
  assert (Hg : (P + (2 ^ 30 - 1)) / 2 ^ 30 <= 1).
  { apply Z.lt_succ_r. apply Z.div_lt_upper_bound; lia. }
  assert (Hcheck : forall b' msg, DiskSize b' = DiskSize b ->
            checkDiskSize b' msg P
            = (set_OEMSize b' "18446744073709551615M", None)).
  { intros b' msg Hd. rewrite checkDiskSize_eq by lia.
    rewrite Hd, (u64_small (DiskSize b)) by lia.
    destruct (Z.ltb_spec (DiskSize b) (10 + (P + (2 ^ 30 - 1)) / 2 ^ 30));
      [lia|].
    rewrite Hq. reflexivity. }
  destruct (SealOEM b) eqn:Hseal.
  - rewrite (validateOEM_sealed b n) by assumption.
    rewrite (u64_small (2 * n)) by (subst P; lia).
    fold P. rewrite Hcheck by reflexivity. split; reflexivity.
  - rewrite (validateOEM_unsealed b n) by assumption.
    fold P. rewrite Hcheck by reflexivity. split; reflexivity.
Qed.

Lemma unvalidated_small_oem_size_wraps_witness :
  snd (validateOEM (mkBuild false "512K" 0 11)) = None
  /\ OEMSize (fst (validateOEM (mkBuild false "512K" 0 11)))
     = "18446744073709551615M".
Proof.
  apply (unvalidated_small_oem_size_wraps (mkBuild false "512K" 0 11)
           (512 * 1024)).
  - discriminate.
  - vm_compute; reflexivity.
  - reflexivity.
  - split; [discriminate|reflexivity].
Defined.

End FlagProperties.

(** ** Runs of [Execute] *)

Module ExecuteFacts.
Import Go finish Vocab SealFacts.

Ltac unfold_execute_in E :=
  unfold Execute, configureAndBuild, buildAndDeprecate, defer, after, fail,
    loadConfigs in E.

(** Case analysis of a run [E : Execute w f = (status, ev)], in program
    order. *)
Ltac execute_inv E :=
  unfold_execute_in E; cbv beta iota in E;
  repeat (lazymatch type of E with
          | ?lhs = _ => find_scrutinee lhs ltac:(fun x => destruct x eqn:?)
          end; cbv beta iota in E);
  injection E as <- <-;
  cbn [Name Project Labels Licenses Family
       BuildProject BuildZone BuildTimeout build] in *.

(** An event is in a list given by its elements: the cases. *)
Ltac in_cases H :=
  cbn [app In] in H;
  repeat (destruct H as [H|H]; [try discriminate H|]);
  try contradiction.

(** The conditions of the run, as equations on what they test. *)
Ltac norm_bools :=
  repeat match goal with
         | H : negb _ = false |- _ => apply negb_false_iff in H
         | H : negb _ = true |- _ => apply negb_true_iff in H
         end.

End ExecuteFacts.

Section ExecuteProperties.
Import Go finish Vocab SealFacts ExecuteFacts FlagFacts MapFacts.

Variable w : World.
Variable f : FinishImageBuild.

(** The deferred calls.  With arguments left on the command line [Execute]
    only prints the usage.  Otherwise every run, failed or not, ends with
    [files.CleanupAllPersistent()], once; and [gcsClient.Close()] is called,
    once and just before it, iff the service clients were created. *)
Theorem Execute_deferred_cleanup :
  if negb (NArg w =? 0) then Execute w f = (ExitUsageError, [FlagsUsage])
  else
    exists body,
      snd (Execute w f)
      = (NewServiceClients :: body
         ++ (if serviceClients w then [GcsClientClose; CleanupAllPersistent]
             else [CleanupAllPersistent]))%list
      /\ ~ In GcsClientClose body
      /\ ~ In CleanupAllPersistent body
      /\ ~ In NewServiceClients body.
Proof.
  destruct (Execute w f) as [st ev] eqn:E. cbn [snd].
  execute_inv E; [reflexivity|..]; norm_bools.
  all: match goal with H : serviceClients w = _ |- _ => rewrite H end.
  all: lazymatch goal with
       | |- exists body, _ :: ?l = _ :: body ++ ?t /\ _ =>
           exists (firstn (List.length l - List.length t) l)
       end.
  all: cbn [firstn List.length Nat.sub app].
  all: split; [reflexivity|].
  all: repeat split; intros H; in_cases H.
Qed.

(** [preloader.BuildImage] is called at most once, and only after every
    check has passed: no arguments left, the clients created, the flags
    valid, both configurations loaded, the disk budget of [validateOEM]
    met, the build context archived and the result image found not to
    exist.  It gets the source image as loaded, the build configuration as
    [validateOEM] left it, and an output image named by the flags. *)
Theorem build_only_after_all_checks
    (s o : Image) (b : BuildConfig)
    (Hbuilt : In (BuildImage s o b) (snd (Execute w f))) :
  builds (snd (Execute w f)) = [(s, o, b)]
  /\ NArg w = 0 /\ serviceClients w = true
  /\ validate f = None
  /\ sourceImageFile w = Some s
  /\ (exists file,
         buildConfigFile w = Some file
         /\ cmd.validateOEM (flagsOver f file) = (build b, None))
  /\ BuildProject b = project f /\ BuildZone b = zone f
  /\ BuildTimeout b = timeout f
  /\ createArchive w = true
  /\ imageExists w (imageProject f) (outputName f s) = Some false
  /\ Name o = outputName f s /\ Project o = imageProject f
  /\ Licenses o = licenses f /\ Family o = imageFamily f.
Proof.
  destruct (Execute w f) as [st ev] eqn:E. cbn [snd] in *.
  execute_inv E; in_cases Hbuilt; injection Hbuilt as <- <- <-.
  all: norm_bools.
  all: cbn [Name Project Labels Licenses Family
            BuildProject BuildZone BuildTimeout build builds].
  all: repeat (split; [first [reflexivity|assumption|now apply Z.eqb_eq]|]).
  all: split; [exists b0; split; [reflexivity|exact Heqp]|].
  all: repeat (split; [first [reflexivity|assumption]|]).
  all: reflexivity.
Qed.

(** The labels of the image that is built: those of the [-labels] flag,
    and with [-inherit-labels] also the labels of the source image under
    the keys the flag does not set. *)
Theorem built_image_labels
    (s o : Image) (b : BuildConfig)
    (Hbuilt : In (BuildImage s o b) (snd (Execute w f))) :
  if inheritLabels f then
    exists inherited,
      imagesGet w (Project s) (Name s) = Some inherited
      /\ forall k, lookup k (Labels o)
                   = match lookup k (labels f) with
                     | Some v => Some v
                     | None => lookup k inherited
                     end
  else Labels o = labels f.
Proof.
  destruct (Execute w f) as [st ev] eqn:E. cbn [snd] in *.
  execute_inv E; in_cases Hbuilt; injection Hbuilt as <- <- <-.
  all: cbn [Labels]; try reflexivity.
  all: eexists; split; [eassumption|]; intros k; apply lookup_update.
Qed.

(** The exit status and the log.  A run that fails logs exactly one error;
    a run that succeeds logs none, and either found the result image to
    exist and built nothing, or built the image once, [BuildImage]
    returning [nil], and with [-deprecate-old-images] deprecated the old
    images of the family without error. *)
Theorem Execute_status_and_log :
  let ev := snd (Execute w f) in
  match fst (Execute w f) with
  | ExitUsageError => NArg w <> 0 /\ ev = [FlagsUsage]
  | ExitFailure => exists e, loggedErrors ev = [e]
  | ExitSuccess =>
      loggedErrors ev = []
      /\ ((exists name project,
              In (LogExists name project) ev
              /\ imageExists w project name = Some true
              /\ builds ev = [])
          \/ (exists s o b,
                 builds ev = [(s, o, b)]
                 /\ buildImage w s o b = BuildOK
                 /\ if deprecateOld f then
                      In (DeprecateInFamily o (oldImageTTLSec f)) ev
                      /\ deprecateInFamily w o (oldImageTTLSec f) = true
                    else forall o' ttl, ~ In (DeprecateInFamily o' ttl) ev))
  end.
Proof.
  destruct (Execute w f) as [st ev] eqn:E. cbn [snd fst].
  execute_inv E; norm_bools; cbv zeta; cbn [app loggedErrors builds].
  all: try (eexists; reflexivity).
  1: { split; [now apply Z.eqb_neq|reflexivity]. }
  1: { split; [reflexivity|left]. eexists _, _.
       split; [cbn [In]; repeat (first [left; reflexivity|right])|].
       split; [eassumption|reflexivity]. }
  all: split; [reflexivity|right]; eexists _, _, _.
  all: split; [reflexivity|]; split; [eassumption|].
  all: try (split; [cbn [In]; tauto|assumption]).
  all: intros o' ttl H; in_cases H.
Qed.

(** [gce.DeprecateInFamily] is called only with [-deprecate-old-images],
    hence with an image family, only after [BuildImage] returned [nil],
    and on the image that was built, with the time-to-live of the flag. *)
Theorem deprecate_only_after_successful_build
    (o : Image) (ttl : Z)
    (Hdep : In (DeprecateInFamily o ttl) (snd (Execute w f))) :
  deprecateOld f = true
  /\ imageFamily f <> ""
  /\ Family o = imageFamily f
  /\ ttl = oldImageTTLSec f
  /\ exists s b,
       builds (snd (Execute w f)) = [(s, o, b)]
       /\ buildImage w s o b = BuildOK.
Proof.
  destruct (Execute w f) as [st ev] eqn:E. cbn [snd] in *.
  execute_inv E; in_cases Hdep; injection Hdep as <- <-.
  all: match goal with H : validate f = None |- _ =>
         apply validate_None_iff in H;
         destruct H as (_ & _ & Hfam & _)
       end.
  all: split; [reflexivity|]; split; [now apply Hfam|].
  all: split; [reflexivity|]; split; [reflexivity|].
  all: eexists _, _; split; [reflexivity|eassumption].
Qed.



End ExecuteProperties.

Section ExecuteWitnesses.
Import Go finish Vocab FinishExample.

Lemma build_only_after_all_checks_witness :
  builds (snd (Execute world flags)) = [(source, builtOutput, builtConfig)]
  /\ NArg world = 0 /\ serviceClients world = true
  /\ validate flags = None
  /\ sourceImageFile world = Some source
  /\ (exists file,
         buildConfigFile world = Some file
         /\ cmd.validateOEM (flagsOver flags file) = (build builtConfig, None))
  /\ BuildProject builtConfig = project flags
  /\ BuildZone builtConfig = zone flags
  /\ BuildTimeout builtConfig = timeout flags
  /\ createArchive world = true
  /\ imageExists world (imageProject flags) (outputName flags source)
     = Some false
  /\ Name builtOutput = outputName flags source
  /\ Project builtOutput = imageProject flags
  /\ Licenses builtOutput = licenses flags
  /\ Family builtOutput = imageFamily flags.
Proof.
  exact (build_only_after_all_checks world flags source builtOutput
           builtConfig
           ltac:(vm_compute; do 6 right; left; reflexivity)).
Defined.

Lemma built_image_labels_witness :
  exists inherited,
    imagesGet world (Project source) (Name source) = Some inherited
    /\ forall k, lookup k (Labels builtOutput)
                 = match lookup k (labels flags) with
                   | Some v => Some v
                   | None => lookup k inherited
                   end.
Proof.
  exact (built_image_labels world flags source builtOutput builtConfig
           ltac:(vm_compute; do 6 right; left; reflexivity)).
Defined.

Lemma deprecate_only_after_successful_build_witness :
  deprecateOld flags = true
  /\ imageFamily flags <> ""
  /\ Family builtOutput = imageFamily flags
  /\ 3600 = oldImageTTLSec flags
  /\ exists s b,
       builds (snd (Execute world flags)) = [(s, builtOutput, b)]
       /\ buildImage world s builtOutput b = BuildOK.
Proof.
  exact (deprecate_only_after_successful_build world flags builtOutput 3600
           ltac:(vm_compute; do 7 right; left; reflexivity)).
Defined.

End ExecuteWitnesses.

(** ** The command line of [extend_oem] *)

Module AtoiFacts.
Import Go GoFacts Spec GoConv SizeFacts.

Lemma digits_value_digit (acc : option Z) (d : Z) (rest : string) :
  0 <= d < 10 ->
  digits_value acc (String (digit d) rest)
  = digits_value (Some (10 * value acc + d)) rest.
Proof.
  intros H. cbn [digits_value].
  change (between 48 (byte (digit d)) 57) with (partutil.is_digit (digit d)).
  rewrite is_digit_digit, byte_digit by assumption. reflexivity.
Qed.

(** Reading the digits [format_digits] writes gives the number back. *)
Lemma digits_value_format_digits (fuel : nat) :
  forall n, 0 <= n < 10 ^ Z.of_nat (S fuel) ->
  exists k, 0 <= k /\
    forall acc rest,
      digits_value acc (format_digits (S fuel) n rest)
      = digits_value (Some (value acc * 10 ^ k + n)) rest.
Proof.
  induction fuel as [|fuel IH]; intros n Hn.
  - exists 1. split; [lia|]. intros acc rest.
    change (10 ^ Z.of_nat 1) with 10 in Hn.
    rewrite format_digits_S, Z.mod_small by lia.
    replace (n <? 10) with true by (symmetry; apply Z.ltb_lt; lia).
    rewrite digits_value_digit by lia. f_equal. f_equal. lia.
  - destruct (Z.ltb_spec n 10) as [Hlt|Hge].
    + exists 1. split; [lia|]. intros acc rest.
      rewrite format_digits_S, Z.mod_small by lia.
      replace (n <? 10) with true by (symmetry; apply Z.ltb_lt; lia).
      rewrite digits_value_digit by lia. f_equal. f_equal. lia.
    + assert (Hq : 0 <= n / 10 < 10 ^ Z.of_nat (S fuel)).
      { split; [apply Z.div_pos; lia|].
        apply Z.div_lt_upper_bound; [lia|].
        replace (Z.of_nat (S (S fuel))) with (Z.of_nat (S fuel) + 1) in Hn
          by lia.
        rewrite Z.pow_add_r, Z.pow_1_r in Hn by lia. lia. }
      destruct (IH _ Hq) as (k & Hk & Hparse).
      exists (k + 1). split; [lia|]. intros acc rest.
      rewrite (format_digits_S (S fuel)).
      replace (n <? 10) with false by (symmetry; apply Z.ltb_ge; lia).
      rewrite Hparse.
      rewrite digits_value_digit by (apply Z.mod_pos_bound; lia).
      f_equal. f_equal. cbn [value].
      rewrite Z.pow_add_r, Z.pow_1_r by lia.
      pose proof (Z.div_mod n 10). lia.
Qed.

Lemma digits_value_FormatUint (n : Z) :
  0 <= n < 2 ^ 64 -> digits_value None (FormatUint n) = Some n.
Proof.
  intros Hn. unfold FormatUint.
  destruct (digits_value_format_digits 19 n) as (k & _ & ->).
  { split; [lia|]. apply Z.lt_trans with (2 ^ 64); [lia|reflexivity]. }
  cbn [value digits_value]. first [reflexivity|f_equal; lia].
Qed.

(** What [format_digits] writes starts with a digit. *)
Lemma format_digits_head (fuel : nat) :
  forall n acc, 0 <= n ->
  exists d t, 0 <= d < 10 /\ format_digits (S fuel) n acc = String (digit d) t.
Proof.
  induction fuel as [|fuel IH]; intros n acc Hn; rewrite format_digits_S.
  - exists (n mod 10). pose proof (Z.mod_pos_bound n 10 ltac:(lia)).
    destruct (n <? 10); eexists; (split; [eassumption|reflexivity]).
  - destruct (n <? 10).
    + exists (n mod 10). pose proof (Z.mod_pos_bound n 10 ltac:(lia)).
      eexists; (split; [eassumption|reflexivity]).
    + apply IH. apply Z.div_pos; lia.
Qed.

Lemma digit_not_sign (d : Z) :
  0 <= d < 10 ->
  Ascii.eqb (digit d) "-" = false /\ Ascii.eqb (digit d) "+" = false.
Proof.
  intros H. split; apply Ascii.eqb_neq; intros E;
    apply (f_equal byte) in E; unfold digit in E;
    rewrite byte_chr in E by lia.
  - change (byte "-") with 45 in E. lia.
  - change (byte "+") with 43 in E. lia.
Qed.

Lemma Atoi_FormatUint (n : Z) :
  0 <= n < 2 ^ 63 -> Atoi (FormatUint n) = Some n.
Proof.
  intros Hn.
  assert (Hd : digits_value None (FormatUint n) = Some n)
    by (apply digits_value_FormatUint; lia).
  unfold FormatUint in *.
  destruct (format_digits_head 19 n "" ltac:(lia)) as (d & t & Hdr & E).
  rewrite E in *. unfold Atoi.
  destruct (digit_not_sign d Hdr) as [-> ->]. cbn [orb].
  rewrite Hd.
  destruct (Z.leb_spec (- 2 ^ 63) n); [|lia].
  destruct (Z.leb_spec n (2 ^ 63 - 1)); [reflexivity|lia].
Qed.

Lemma Atoi_Itoa (n : Z) :
  - 2 ^ 63 <= n < 2 ^ 63 -> Atoi (Itoa n) = Some n.
Proof.
  intros Hn. unfold Itoa.
  destruct (Z.ltb_spec n 0) as [Hneg|Hpos].
  - unfold Atoi. change (Ascii.eqb "-" "-") with true. cbn [orb].
    rewrite digits_value_FormatUint by lia.
    replace (- - n) with n by lia.
    destruct (Z.leb_spec (- 2 ^ 63) n); [|lia].
    destruct (Z.leb_spec n (2 ^ 63 - 1)); [reflexivity|lia].
  - apply Atoi_FormatUint. lia.
Qed.

End AtoiFacts.

Section ExtendOEMProperties.
Import Go GoConv extend_oem AtoiFacts.

(** [main] hands to [tools.ExtendOEMPartition] the disk and the size as
    they stand on the command line, and the two partition numbers that are
    written there in decimal: any Go [int], also zero or a negative one,
    which [main] does not refuse.  It fails iff that call fails. *)
Theorem main_passes_decimal_arguments
    (extendOK : Call -> bool) (prog d sz : string) (s o : Z)
    (Hs : - 2 ^ 63 <= s < 2 ^ 63) (Ho : - 2 ^ 63 <= o < 2 ^ 63) :
  main extendOK [prog; d; Itoa s; Itoa o; sz]
  = (if extendOK (mkCall d s o sz) then None else Some ExtendFailed,
     [mkCall d s o sz]).
Proof.
  unfold main. cbn [List.length nth Z.of_nat Pos.of_succ_nat Pos.succ Z.eqb
                    Pos.eqb negb].
  rewrite !Atoi_Itoa by assumption.
  destruct (extendOK _); reflexivity.
Qed.

Lemma main_passes_decimal_arguments_witness :
  main (fun _ => true) ["extend_oem"; "/dev/sda"; Itoa 1; Itoa (-8); "2G"]
  = (None, [mkCall "/dev/sda" 1 (-8) "2G"]).
Proof.
  rewrite (main_passes_decimal_arguments (fun _ => true)
             "extend_oem" "/dev/sda" "2G" 1 (-8)).
  - reflexivity.
  - split; [discriminate|reflexivity].
  - split; [discriminate|reflexivity].
Defined.

End ExtendOEMProperties.

(** ** Patching a line twice *)

Section PatchTwice.
Import Go GoFacts Spec tools PatchFacts PatchAscii.

(** Patching is not idempotent.  On an ASCII line with [dm=], whatever the
    count character [d], the loop body of [appendDMEntryToGRUB] writes the
    count 2 and appends the row; run again on its own output it drops the
    last byte of that row (the closing quote), appends the row a second
    time and leaves the count at 2, with three rows in the table. *)
Theorem patchLine_twice_appends_twice
    (row pre rest : string) (x d last rlast : ascii)
    (Hpre : Contains pre "dm=" = false)
    (Apre : is_ascii pre = true)
    (Ax : (byte x <? 128) = true) (Ad : (byte d <? 128) = true)
    (Arest : is_ascii rest = true) (Arow : is_ascii row = true) :
  let entry := row ++ String rlast "" in
  let once := pre ++ "dm=" ++ String x (String "2" rest) ++ "," ++ entry in
  patchLine entry
    (pre ++ "dm=" ++ String x (String d (rest ++ String last ""))) = Val once
  /\ patchLine entry once
     = Val (pre ++ "dm=" ++ String x (String "2" rest)
            ++ "," ++ row ++ "," ++ entry).
Proof.
  intros entry once. split.
  - now apply patchLine_ascii_decomposed.
  - assert (E : once = pre ++ "dm="
                     ++ String x (String "2"
                                    ((rest ++ "," ++ row) ++ String rlast ""))).
    { unfold once, entry. cbn [append]. now rewrite !append_assoc. }
    rewrite E, patchLine_ascii_decomposed; try assumption; try reflexivity.
    + cbn [append]. now rewrite !append_assoc.
    + rewrite !is_ascii_app, Arest, Arow. reflexivity.
Qed.

Lemma patchLine_twice_appends_twice_witness :
  patchLine ("oemroot none" ++ String dquote "")
    ("linux " ++ "dm="
     ++ String dquote (String "1" (" vroot,0 1" ++ String dquote "")))
  = Val ("linux " ++ "dm=" ++ String dquote (String "2" " vroot,0 1")
         ++ "," ++ "oemroot none" ++ String dquote "")
  /\ patchLine ("oemroot none" ++ String dquote "")
       ("linux " ++ "dm=" ++ String dquote (String "2" " vroot,0 1")
        ++ "," ++ "oemroot none" ++ String dquote "")
     = Val ("linux " ++ "dm=" ++ String dquote (String "2" " vroot,0 1")
            ++ "," ++ "oemroot none" ++ "," ++ "oemroot none"
            ++ String dquote "").
Proof.
  apply (patchLine_twice_appends_twice "oemroot none" "linux " " vroot,0 1"
           dquote "1" dquote dquote); reflexivity.
Defined.

End PatchTwice.

(** ** Whole runs of [SealOEMPartition] *)

Module RunFacts.
Import Go GoFacts Spec tools SealVocab.

(** [s[:len(s)-1]] returns iff [s] is not empty. *)
Lemma slice_chop (s a : string) :
  slice s (len s - 1) = Val a -> a = chop s /\ s <> "".
Proof.
  unfold slice, len, chop. intros H.
  destruct ((0 <=? _) && _) eqn:Hb; [|discriminate H]. injection H as <-.
  apply andb_prop in Hb as [H0 _]. apply Z.leb_le in H0.
  split; [f_equal; lia|].
  intros ->. cbn [String.length] in H0. lia.
Qed.

Lemma slice_panics (s : string) :
  slice s (len s - 1) = Panic -> s = "".
Proof.
  unfold slice, len. destruct s as [|c s]; [reflexivity|].
  destruct (Z.leb_spec 0 (Z.of_nat (String.length (String c s)) - 1)) as [_|H];
    [|cbn [String.length] in H; lia].
  destruct (Z.leb_spec (Z.of_nat (String.length (String c s)) - 1)
              (Z.of_nat (String.length (String c s)))) as [_|H]; [|lia].
  discriminate.
Qed.

Lemma patchLines_Panic (entry : string) (lines : list string) :
  patchLines entry lines = Panic ->
  exists line, In line lines /\ patchLine entry line = Panic.
Proof.
  induction lines as [|l ls IH]; cbn [patchLines]; [discriminate|].
  destruct (patchLine entry l) eqn:El.
  - destruct (patchLines entry ls); [discriminate|].
    intros _. destruct (IH eq_refl) as (x & Hx & Hp).
    exists x. split; [now right|exact Hp].
  - intros _. exists l. split; [now left|exact El].
Qed.

(** The conditions of a run, as equations on what they test. *)
Ltac run_facts :=
  repeat match goal with
         | H : slice _ _ = Val _ |- _ =>
             apply slice_chop in H; destruct H as [-> ?]
         | H : slice _ _ = Panic |- _ => apply slice_panics in H; subst
         | H : scanReport _ _ _ = Val _ |- _ =>
             rewrite ReportFacts.scanReport_lastOf in H; injection H as <- <-
         | H : scanReport _ _ _ = Panic |- _ =>
             rewrite ReportFacts.scanReport_lastOf in H; discriminate H
         | H : negb _ = false |- _ => apply negb_false_iff in H
         | H : negb _ = true |- _ => apply negb_true_iff in H
         end.

End RunFacts.

Section SealRuns.
Import Go GoFacts Spec tools ReportFacts SealFacts SealVocab RunFacts.

(** What a successful run has done.  When [SealOEMPartition] returns
    [nil], the [grub.cfg] under the directory that [mktemp] printed has
    been rewritten, every line patched with the row made of the partition
    UUID of /dev/sda8 and of the last root hash and the last salt of the
    tool's report, both not empty; no other file has changed, and the image
    whose id [docker images] printed has been removed. *)
Theorem seal_success_rewrites_grub
    (env : Env) (n : Z) (fs : Files)
    (Hok : result (SealOEMPartition env n fs) = Val None) :
  exists idOut report tmpOut uuid content lines',
    run env ["sudo"; "docker"; "images"; "veritysetup:veritysetup"; "-q"]
    = Some idOut
    /\ idOut <> ""
    /\ run env (veritysetupArgv (chop idOut) n) = Some report
    /\ lastOf "Root hash:" (Split report LF) "" <> ""
    /\ lastOf "Salt:" (Split report LF) "" <> ""
    /\ run env ["mktemp"; "-d"] = Some tmpOut
    /\ tmpOut <> ""
    /\ partUUID env "/dev/sda8" = Some uuid
    /\ fs (grubFile tmpOut) = Some content
    /\ patchLines
         (entryString "oemroot" uuid
            (lastOf "Root hash:" (Split report LF) "")
            (lastOf "Salt:" (Split report LF) "") n)
         (Split content LF) = Val lines'
    /\ filesAfter (SealOEMPartition env n fs)
       = write (grubFile tmpOut) (Join lines' nl) fs
    /\ In (Exec ["sudo"; "docker"; "rmi"; chop idOut])
          (events (SealOEMPartition env n fs)).
Proof.
  destruct (SealOEMPartition env n fs) as [[r ev] fs'] eqn:E.
  unfold result, events, filesAfter in *; cbn [fst snd] in *.
  seal_inv E; try discriminate Hok.
  all: repeat match goal with
              | H : slice _ _ = Val _ |- _ =>
                  apply slice_chop in H; destruct H as [-> ?]
              end.
  all: match goal with
       | H : scanReport _ _ _ = Val _ |- _ =>
           rewrite scanReport_lastOf in H; injection H as <- <-
       end.
  all: match goal with
       | H : _ || _ = false |- _ =>
           apply orb_false_elim in H; destruct H as [Hh Hs];
           apply String.eqb_neq in Hh, Hs
       end.
  all: eexists _, _, _, _, _, _.
  all: repeat (split; [first [eassumption|reflexivity]|]).
  all: cbn [In app]; repeat (first [left; reflexivity|right]).
Qed.

(** What a failed run leaves behind.  Unless the run succeeds or fails in
    the last step, the removal of the image, [docker rmi] has not been run
    when it ends (with an error or a panic), so that an image that was
    loaded is still there, and the message that the kernel command line is
    modified has not been logged.  No file has changed, unless the error is
    that of the write of [grub.cfg]: then [grub.cfg], and no other file, is
    as it was or holds the beginning of the new content, as far as the
    write came. *)
Theorem seal_failure_effects
    (env : Env) (n : Z) (fs : Files)
    (Hfail : result (SealOEMPartition env n fs) <> Val None)
    (Hrmi : result (SealOEMPartition env n fs) <> Val (Some rmiError)) :
  (forall id, ~ In (Exec ["sudo"; "docker"; "rmi"; id])
                  (events (SealOEMPartition env n fs)))
  /\ ~ In (Log "kernel command line modified.")
          (events (SealOEMPartition env n fs))
  /\ (result (SealOEMPartition env n fs) <> Val (Some grubWriteError) ->
      filesAfter (SealOEMPartition env n fs) = fs)
  /\ (result (SealOEMPartition env n fs) = Val (Some grubWriteError) ->
      exists tmpOut c,
        run env ["mktemp"; "-d"] = Some tmpOut
        /\ In (WriteFile (grubFile tmpOut) c)
              (events (SealOEMPartition env n fs))
        /\ (filesAfter (SealOEMPartition env n fs) = fs
            \/ exists k,
                 filesAfter (SealOEMPartition env n fs)
                 = write (grubFile tmpOut) (take k c) fs)).
Proof.
  destruct (SealOEMPartition env n fs) as [[r ev] fs'] eqn:E.
  unfold result, events, filesAfter, rmiError, grubWriteError in *;
    cbn [fst snd] in *.
  seal_inv E; try (now contradiction Hfail); try (now contradiction Hrmi).
  all: run_facts.
  all: split; [intros id Hin; cbn [app] in Hin; not_in Hin|].
  all: split; [intros Hin; cbn [app] in Hin; not_in Hin|].
  all: split; [first [intros _; reflexivity
                     |intros Hne; now contradiction Hne]|].
  all: try (intros Heq; discriminate Heq).
  all: intros _; eexists _, _.
  all: split; [reflexivity|].
  all: split; [cbn [app In]; repeat (first [left; reflexivity|right])|].
  all: first [left; reflexivity|right; eexists; reflexivity].
Qed.

(** A run panics in two places only: when [mktemp -d] succeeds and prints
    nothing, at [dir[:len(dir)-1]], which unlike the image id is sliced
    without a check of its length; and when a line of [grub.cfg] with [dm=]
    is too short for the patch.  The report of the tool, whatever it is,
    never makes the run panic. *)
Theorem seal_panics_in_two_places
    (env : Env) (n : Z) (fs : Files)
    (Hpanic : result (SealOEMPartition env n fs) = Panic) :
  run env ["mktemp"; "-d"] = Some ""
  \/ exists tmpOut content entry line,
       run env ["mktemp"; "-d"] = Some tmpOut
       /\ fs (grubFile tmpOut) = Some content
       /\ In line (Split content LF)
       /\ patchLine entry line = Panic.
Proof.
  destruct (SealOEMPartition env n fs) as [[r ev] fs'] eqn:E.
  unfold result in *; cbn [fst snd] in *.
  seal_inv E; try discriminate Hpanic; run_facts.
  all: try match goal with
           | H : (len "" =? 0) = false |- _ => discriminate H
           end.
  all: try (left; reflexivity).
  all: right.
  all: match goal with
       | H : patchLines _ _ = Panic |- _ =>
           apply patchLines_Panic in H; destruct H as (line & Hin & Hp)
       end.
  all: eexists _, _, _, line.
  all: split; [reflexivity|]; split; [eassumption|]; split; eassumption.
Qed.

(** The hash-tree tool, which writes to /dev/sda8, is run only after [df]
    has answered, and then either [df] did not show /dev/sda8 and nothing
    was unmounted, or [umount /dev/sda8] has been run and has succeeded. *)
Theorem hash_tool_runs_on_unmounted_partition
    (env : Env) (n : Z) (fs : Files) (imageID : string)
    (Hrun : In (Exec (veritysetupArgv imageID n))
               (events (SealOEMPartition env n fs))) :
  exists dfOut,
    run env ["df"] = Some dfOut
    /\ if Contains dfOut "/dev/sda8" then
         In (Exec ["sudo"; "umount"; "/dev/sda8"])
            (events (SealOEMPartition env n fs))
         /\ run env ["sudo"; "umount"; "/dev/sda8"] <> None
       else
         ~ In (Exec ["sudo"; "umount"; "/dev/sda8"])
              (events (SealOEMPartition env n fs)).
Proof.
  destruct (SealOEMPartition env n fs) as [[r ev] fs'] eqn:E.
  unfold events in *; cbn [fst snd] in *.
  seal_inv E; run_facts; unfold veritysetupArgv in Hrun;
    cbn [app] in Hrun; not_in Hrun.
  all: clear Hrun.
  all: eexists; (split; [reflexivity|]).
  all: match goal with H : Contains _ _ = _ |- _ => rewrite H end.
  all: try (split; [cbn [app In]; repeat (first [left; reflexivity|right])
                   |congruence]).
  all: intros Hu; cbn [app] in Hu; not_in Hu.
Qed.

End SealRuns.

Section SealRunWitnesses.
Import Go GoFacts Spec tools SealVocab.

Lemma seal_success_rewrites_grub_witness :
  exists idOut report tmpOut uuid content lines',
    run (Example.env true Example.report)
      ["sudo"; "docker"; "images"; "veritysetup:veritysetup"; "-q"]
    = Some idOut
    /\ idOut <> ""
    /\ run (Example.env true Example.report)
         (veritysetupArgv (chop idOut) 256) = Some report
    /\ lastOf "Root hash:" (Split report LF) "" <> ""
    /\ lastOf "Salt:" (Split report LF) "" <> ""
    /\ run (Example.env true Example.report) ["mktemp"; "-d"] = Some tmpOut
    /\ tmpOut <> ""
    /\ partUUID (Example.env true Example.report) "/dev/sda8" = Some uuid
    /\ Example.files (grubFile tmpOut) = Some content
    /\ patchLines
         (entryString "oemroot" uuid
            (lastOf "Root hash:" (Split report LF) "")
            (lastOf "Salt:" (Split report LF) "") 256)
         (Split content LF) = Val lines'
    /\ filesAfter (SealOEMPartition (Example.env true Example.report) 256
                     Example.files)
       = write (grubFile tmpOut) (Join lines' nl) Example.files
    /\ In (Exec ["sudo"; "docker"; "rmi"; chop idOut])
          (events (SealOEMPartition (Example.env true Example.report) 256
                     Example.files)).
Proof.
  apply (seal_success_rewrites_grub (Example.env true Example.report) 256
           Example.files).
  vm_compute. reflexivity.
Defined.

Lemma seal_failure_effects_witness :
  (forall id, ~ In (Exec ["sudo"; "docker"; "rmi"; id])
                  (events (SealOEMPartition (cutEnv 5) 256 Example.files)))
  /\ ~ In (Log "kernel command line modified.")
          (events (SealOEMPartition (cutEnv 5) 256 Example.files))
  /\ (result (SealOEMPartition (cutEnv 5) 256 Example.files)
      <> Val (Some grubWriteError) ->
      filesAfter (SealOEMPartition (cutEnv 5) 256 Example.files)
      = Example.files)
  /\ (result (SealOEMPartition (cutEnv 5) 256 Example.files)
      = Val (Some grubWriteError) ->
      exists tmpOut c,
        run (cutEnv 5) ["mktemp"; "-d"] = Some tmpOut
        /\ In (WriteFile (grubFile tmpOut) c)
              (events (SealOEMPartition (cutEnv 5) 256 Example.files))
        /\ (filesAfter (SealOEMPartition (cutEnv 5) 256 Example.files)
            = Example.files
            \/ exists k,
                 filesAfter (SealOEMPartition (cutEnv 5) 256 Example.files)
                 = write (grubFile tmpOut) (take k c) Example.files)).
Proof.
  apply (seal_failure_effects (cutEnv 5) 256 Example.files).
  - vm_compute. discriminate.
  - vm_compute. discriminate.
Defined.

Lemma seal_panics_in_two_places_witness :
  run (Example.env true Example.report) ["mktemp"; "-d"] = Some ""
  \/ exists tmpOut content entry line,
       run (Example.env true Example.report) ["mktemp"; "-d"] = Some tmpOut
       /\ shortFiles (grubFile tmpOut) = Some content
       /\ In line (Split content LF)
       /\ patchLine entry line = Panic.
Proof.
  apply (seal_panics_in_two_places (Example.env true Example.report) 256
           shortFiles).
  vm_compute. reflexivity.
Defined.

Lemma hash_tool_runs_on_unmounted_partition_witness :
  exists dfOut,
    run (Example.env true Example.report) ["df"] = Some dfOut
    /\ if Contains dfOut "/dev/sda8" then
         In (Exec ["sudo"; "umount"; "/dev/sda8"])
            (events (SealOEMPartition (Example.env true Example.report) 256
                       Example.files))
         /\ run (Example.env true Example.report)
              ["sudo"; "umount"; "/dev/sda8"] <> None
       else
         ~ In (Exec ["sudo"; "umount"; "/dev/sda8"])
              (events (SealOEMPartition (Example.env true Example.report) 256
                         Example.files)).
Proof.
  apply (hash_tool_runs_on_unmounted_partition
           (Example.env true Example.report) 256 Example.files "0123abcd").
  vm_compute. repeat (first [left; reflexivity|right]).
Defined.

End SealRunWitnesses.

(** ** Reading the report of the hash-tree tool *)

Module TrimFacts.
Import Go GoFacts Spec tools Vocab.

Lemma space_IsSpace (c : ascii) :
  between 9 (byte c) 13 || (byte c =? 32) = true ->
  IsSpace (byte c) = true /\ (byte c <? 128) = true.
Proof.
  intros H. split.
  - unfold IsSpace. rewrite H. reflexivity.
  - apply Z.ltb_lt. apply orb_prop in H as [H|H].
    + unfold between in H. apply andb_prop in H as [_ H].
      apply Z.leb_le in H. lia.
    + apply Z.eqb_eq in H. lia.
Qed.

Lemma plain_spec (c : ascii) :
  plain c = true ->
  (byte c <? 128) = true /\ IsSpace (byte c) = false /\ c <> ":"%char.
Proof.
  unfold plain. intros H.
  apply andb_prop in H as [H Hcolon]. apply andb_prop in H as [H H32].
  apply andb_prop in H as [Hlt Hbetween].
  apply negb_true_iff in Hcolon, H32, Hbetween.
  split; [exact Hlt|]. apply Z.ltb_lt in Hlt. split.
  - unfold IsSpace. rewrite Hbetween, H32. cbn [orb].
    repeat (apply orb_false_intro);
      first [apply Z.eqb_neq; lia
            |unfold between; apply andb_false_intro1; apply Z.leb_gt; lia].
  - intros ->. discriminate Hcolon.
Qed.

Lemma DecodeRune_ascii (c : ascii) (s : string) :
  (byte c <? 128) = true -> DecodeRune (String c s) = (byte c, 1%nat).
Proof. intros H. cbn [DecodeRune]. now rewrite H. Qed.

(** [TrimLeftFunc] removes the ASCII white space in front of a character
    that is none. *)
Lemma TrimLeftSpace_pad (pad : string) :
  forall (fuel : nat) (c : ascii) (t : string),
    all_space pad = true -> plain c = true ->
    (String.length pad < fuel)%nat ->
    TrimLeftSpace fuel (pad ++ String c t) = String c t.
Proof.
  induction pad as [|p pad IH]; intros fuel c t Hpad Hc Hfuel.
  - destruct fuel as [|f]; [cbn [String.length] in Hfuel; lia|].
    destruct (plain_spec c Hc) as (Hlt & Hsp & _).
    cbn [append TrimLeftSpace]. rewrite DecodeRune_ascii by assumption.
    now rewrite Hsp.
  - destruct fuel as [|f]; [lia|].
    cbn [all_space] in Hpad. apply andb_prop in Hpad as [Hp Hpad].
    destruct (space_IsSpace p Hp) as [Hsp Hlt].
    cbn [append TrimLeftSpace]. rewrite DecodeRune_ascii by assumption.
    rewrite Hsp. cbn [drop]. apply IH; [assumption..|].
    cbn [String.length] in Hfuel. lia.
Qed.

Lemma snoc_inv (s : string) :
  s <> "" -> exists b c, s = b ++ String c "".
Proof.
  induction s as [|a s IH]; intros H; [contradiction|].
  destruct s as [|a' s'].
  - now exists "", a.
  - destruct IH as (b & c & E); [discriminate|].
    exists (String a b), c. cbn [append]. now rewrite <- E.
Qed.

Lemma get_app_last (b : string) (c : ascii) :
  String.get (String.length b) (b ++ String c "") = Some c.
Proof. induction b as [|a b IH]; [reflexivity|exact IH]. Qed.

Lemma DecodeLastRune_ascii (b : string) (c : ascii) :
  (byte c <? 128) = true -> DecodeLastRune (b ++ String c "") = (byte c, 1%nat).
Proof.
  intros H. unfold DecodeLastRune, len, byte_at.
  rewrite length_app. cbn [String.length].
  destruct (Z.eqb_spec (Z.of_nat (String.length b + 1)) 0) as [E|_]; [lia|].
  replace (Z.to_nat (Z.of_nat (String.length b + 1) - 1))
    with (String.length b) by lia.
  rewrite get_app_last. now rewrite H.
Qed.

Lemma all_space_app (s t : string) :
  all_space (s ++ t) = all_space s && all_space t.
Proof.
  induction s as [|c s IH]; [reflexivity|].
  cbn [append all_space]. now rewrite IH, andb_assoc.
Qed.

Lemma all_plain_app (s t : string) :
  all_plain (s ++ t) = all_plain s && all_plain t.
Proof.
  induction s as [|c s IH]; [reflexivity|].
  cbn [append all_plain]. now rewrite IH, andb_assoc.
Qed.

(** [TrimRightFunc] removes the ASCII white space behind a character that
    is none. *)
Lemma TrimRightSpace_pad (fuel : nat) :
  forall (pad b : string) (c : ascii),
    all_space pad = true -> plain c = true ->
    (String.length pad < fuel)%nat ->
    TrimRightSpace fuel ((b ++ String c "") ++ pad) = b ++ String c "".
Proof.
  induction fuel as [|f IH]; intros pad b c Hpad Hc Hfuel; [lia|].
  destruct (plain_spec c Hc) as (Hlt & Hsp & _).
  destruct (string_dec pad "") as [->|Hne].
  - replace ((b ++ String c "") ++ "") with (b ++ String c "")
      by (generalize (b ++ String c ""); intros s;
          induction s; cbn [append]; congruence).
    cbn [TrimRightSpace]. rewrite DecodeLastRune_ascii by assumption.
    now rewrite Hsp.
  - destruct (snoc_inv pad Hne) as (pad' & p & ->).
    rewrite all_space_app in Hpad. apply andb_prop in Hpad as [Hpad' Hp].
    cbn [all_space] in Hp. rewrite andb_true_r in Hp.
    destruct (space_IsSpace p Hp) as [Hpsp Hplt].
    rewrite <- append_assoc.
    cbn [TrimRightSpace]. rewrite DecodeLastRune_ascii by assumption.
    rewrite Hpsp, take_app_one.
    apply IH; [assumption..|].
    rewrite length_app in Hfuel. cbn [String.length] in Hfuel. lia.
Qed.

(** [strings.TrimSpace] gives back a value without white space from
    between any ASCII white space. *)
Lemma TrimSpace_padded (pad1 v pad2 : string) :
  all_space pad1 = true -> all_space pad2 = true ->
  all_plain v = true -> v <> "" ->
  TrimSpace (pad1 ++ v ++ pad2) = v.
Proof.
  intros H1 H2 Hv Hne. unfold TrimSpace.
  destruct v as [|c t]; [contradiction|].
  assert (Hc : plain c = true)
    by (cbn [all_plain] in Hv; now apply andb_prop in Hv as [? _]).
  cbn [append]. rewrite TrimLeftSpace_pad; [|assumption..|].
  2: { rewrite length_app. cbn [String.length]. lia. }
  destruct (snoc_inv (String c t) Hne) as (b & c' & E).
  change (String c (t ++ pad2)) with (String c t ++ pad2).
  rewrite E. rewrite E in Hv. rewrite all_plain_app in Hv.
  apply andb_prop in Hv as [_ Hc'].
  cbn [all_plain] in Hc'. rewrite andb_true_r in Hc'.
  apply TrimRightSpace_pad; [assumption..|].
  rewrite !length_app. cbn [String.length]. lia.
Qed.

Lemma Split_without (s : string) (sep : ascii) :
  ~ In sep (list_ascii_of_string s) -> Split s sep = [s].
Proof.
  induction s as [|c s IH]; intros H; [reflexivity|].
  cbn [Split]. destruct (Ascii.eqb_spec c sep) as [->|_].
  - exfalso. apply H. now left.
  - rewrite IH; [reflexivity|]. intros Hin. apply H. now right.
Qed.

Lemma all_space_no_colon (s : string) :
  all_space s = true -> ~ In ":"%char (list_ascii_of_string s).
Proof.
  induction s as [|c s IH]; intros H; [intros []|].
  cbn [all_space] in H. apply andb_prop in H as [Hc Hs].
  intros [->|Hin]; [discriminate Hc|now apply IH].
Qed.

Lemma all_plain_no_colon (s : string) :
  all_plain s = true -> ~ In ":"%char (list_ascii_of_string s).
Proof.
  induction s as [|c s IH]; intros H; [intros []|].
  cbn [all_plain] in H. apply andb_prop in H as [Hc Hs].
  destruct (plain_spec c Hc) as (_ & _ & Hcolon).
  intros [->|Hin]; [now apply Hcolon|now apply IH].
Qed.

Lemma list_ascii_app (s t : string) :
  list_ascii_of_string (s ++ t)
  = (list_ascii_of_string s ++ list_ascii_of_string t)%list.
Proof. induction s as [|c s IH]; [reflexivity|]. simpl. now rewrite IH. Qed.

Lemma padded_no_colon (pad1 v pad2 : string) :
  all_space pad1 = true -> all_space pad2 = true -> all_plain v = true ->
  ~ In ":"%char (list_ascii_of_string (pad1 ++ v ++ pad2)).
Proof.
  intros H1 H2 Hv. rewrite !list_ascii_app. intros H.
  apply in_app_or in H as [H|H]; [now apply all_space_no_colon in H|].
  apply in_app_or in H as [H|H];
    [now apply all_plain_no_colon in H|now apply all_space_no_colon in H].
Qed.

Lemma fieldValue_root (pad1 v pad2 : string) :
  all_space pad1 = true -> all_space pad2 = true ->
  all_plain v = true -> v <> "" ->
  fieldValue ("Root hash:" ++ pad1 ++ v ++ pad2) = v.
Proof.
  intros H1 H2 Hv Hne. unfold fieldValue.
  cbn [append Split Ascii.eqb Bool.eqb].
  rewrite Split_without by now apply padded_no_colon.
  cbn [nth]. now apply TrimSpace_padded.
Qed.

Lemma fieldValue_salt (pad1 v pad2 : string) :
  all_space pad1 = true -> all_space pad2 = true ->
  all_plain v = true -> v <> "" ->
  fieldValue ("Salt:" ++ pad1 ++ v ++ pad2) = v.
Proof.
  intros H1 H2 Hv Hne. unfold fieldValue.
  cbn [append Split Ascii.eqb Bool.eqb].
  rewrite Split_without by now apply padded_no_colon.
  cbn [nth]. now apply TrimSpace_padded.
Qed.

End TrimFacts.

Section ReportProperties.
Import Go GoFacts Spec tools Vocab ReportFacts TrimFacts.

(** [veritysetup] reads the values off the report as the tool prints
    them.  When the last [Salt:] and [Root hash:] lines are a [Salt:] line
    followed by a [Root hash:] line, each with a value without white space
    or colon, in any ASCII white space, the call returns exactly the two
    values, whatever the lines before. *)
Theorem veritysetup_reads_padded_values
    (env : Env) (imageID : string) (n : Z) (fs : Files)
    (report : string) (before after : list string)
    (pad1 pad2 pad3 pad4 salt hash : string)
    (Hrun : run env (veritysetupArgv imageID n) = Some report)
    (Hlines : Split report LF
              = List.app before
                  (("Salt:" ++ pad1 ++ salt ++ pad2)
                   :: ("Root hash:" ++ pad3 ++ hash ++ pad4)
                   :: after))
    (Hpad1 : all_space pad1 = true) (Hpad2 : all_space pad2 = true)
    (Hpad3 : all_space pad3 = true) (Hpad4 : all_space pad4 = true)
    (Hsalt : all_plain salt = true) (Hsalt' : salt <> "")
    (Hhash : all_plain hash = true) (Hhash' : hash <> "")
    (Hafter : Absent "Salt:" after /\ Absent "Root hash:" after) :
  veritysetup env imageID n fs
  = (Val (hash, salt, None), [Exec (veritysetupArgv imageID n)], fs).
Proof.
  destruct Hafter as [HaS HaR].
  assert (HR : lastOf "Root hash:" (Split report LF) "" = hash).
  { rewrite Hlines, lastOf_app. cbn [lastOf].
    change (HasPrefix ("Salt:" ++ pad1 ++ salt ++ pad2) "Root hash:")
      with false.
    change (HasPrefix ("Root hash:" ++ pad3 ++ hash ++ pad4) "Root hash:")
      with (String.prefix "" (pad3 ++ hash ++ pad4)).
    rewrite PatchAscii.prefix_nil, fieldValue_root by assumption.
    now apply lastOf_absent. }
  assert (HS : lastOf "Salt:" (Split report LF) "" = salt).
  { rewrite Hlines, lastOf_app. cbn [lastOf].
    change (HasPrefix ("Salt:" ++ pad1 ++ salt ++ pad2) "Salt:")
      with (String.prefix "" (pad1 ++ salt ++ pad2)).
    change (HasPrefix ("Root hash:" ++ pad3 ++ hash ++ pad4) "Salt:")
      with false.
    rewrite PatchAscii.prefix_nil, fieldValue_salt by assumption.
    now apply lastOf_absent. }
  unfold veritysetup, Run, bind, emit, ret, lift.
  rewrite Hrun, scanReport_lastOf, HR, HS.
  apply String.eqb_neq in Hsalt', Hhash'. now rewrite Hsalt', Hhash'.
Qed.

Lemma veritysetup_reads_padded_values_witness :
  veritysetup (Example.env true Example.report) "0123abcd" 256 Example.files
  = (Val ("d6b862d0", "9cd7ba29", None),
     [Exec (veritysetupArgv "0123abcd" 256)], Example.files).
Proof.
  apply (veritysetup_reads_padded_values
           (Example.env true Example.report) "0123abcd" 256 Example.files
           Example.report (firstn 7 (Split Example.report LF)) [""]
           "                   " "" "              " ""
           "9cd7ba29" "d6b862d0").
  - vm_compute. reflexivity.
  - vm_compute. reflexivity.
  - reflexivity.
  - reflexivity.
  - reflexivity.
  - reflexivity.
  - reflexivity.
  - discriminate.
  - reflexivity.
  - discriminate.
  - split; intros line [<-|[]]; reflexivity.
Defined.

End ReportProperties.

(** ** The lines of [grub.cfg] after a successful run *)

Module RowFacts.
Import Go GoFacts Spec tools SizeFacts LineFacts.

Lemma drop_no_LF (n : nat) (s : string) :
  no_LF s = true -> no_LF (drop n s) = true.
Proof.
  revert s; induction n as [|n IH]; intros s H; [now destruct s|].
  destruct s as [|c s]; [reflexivity|].
  cbn [drop]. apply IH. cbn [no_LF] in H. now apply andb_prop in H as [_ ?].
Qed.

Lemma TrimLeftSpace_no_LF (fuel : nat) :
  forall s, no_LF s = true -> no_LF (TrimLeftSpace fuel s) = true.
Proof.
  induction fuel as [|f IH]; intros s H; [exact H|].
  cbn [TrimLeftSpace]. destruct (DecodeRune s) as [r [|w]]; [exact H|].
  destruct (IsSpace r); [|exact H]. apply IH. now apply drop_no_LF.
Qed.

Lemma TrimRightSpace_no_LF (fuel : nat) :
  forall s, no_LF s = true -> no_LF (TrimRightSpace fuel s) = true.
Proof.
  induction fuel as [|f IH]; intros s H; [exact H|].
  cbn [TrimRightSpace]. destruct (DecodeLastRune s) as [r [|w]]; [exact H|].
  destruct (IsSpace r); [|exact H]. apply IH. now apply take_no_LF.
Qed.

Lemma TrimSpace_no_LF (s : string) :
  no_LF s = true -> no_LF (TrimSpace s) = true.
Proof.
  intros H. unfold TrimSpace.
  now apply TrimRightSpace_no_LF, TrimLeftSpace_no_LF.
Qed.

(** The fields of a single line are single lines. *)
Lemma Split_fields_no_LF (sep : ascii) (s : string) :
  no_LF s = true -> Forall (fun f => no_LF f = true) (Split s sep).
Proof.
  induction s as [|c s IH]; intros H; cbn [Split].
  - now constructor.
  - cbn [no_LF] in H. apply andb_prop in H as [Hc Hs].
    specialize (IH Hs).
    destruct (Ascii.eqb c sep); [now constructor|].
    destruct (Split s sep) as [|f fs].
    + constructor; [cbn [no_LF]; now rewrite Hc|constructor].
    + inversion IH; subst.
      constructor; [cbn [no_LF]; now rewrite Hc|assumption].
Qed.

Lemma fieldValue_no_LF (line : string) :
  no_LF line = true -> no_LF (fieldValue line) = true.
Proof.
  intros H. unfold fieldValue. apply TrimSpace_no_LF.
  pose proof (Split_fields_no_LF ":"%char line H) as Hall.
  destruct (Split line ":"%char) as [|f0 [|f1 fs]]; try reflexivity.
  inversion Hall as [|? ? _ Hrest]; subst.
  now inversion Hrest.
Qed.

Lemma lastOf_no_LF (p : string) (lines : list string) :
  forall cur,
    Forall (fun l => no_LF l = true) lines -> no_LF cur = true ->
    no_LF (lastOf p lines cur) = true.
Proof.
  induction lines as [|l ls IH]; intros cur Hall Hcur; [exact Hcur|].
  inversion Hall; subst. cbn [lastOf].
  destruct (HasPrefix l p); apply IH; try assumption.
  now apply fieldValue_no_LF.
Qed.

Lemma digit_no_LF (d : Z) :
  0 <= d < 10 -> Ascii.eqb (digit d) LF = false.
Proof. intros H. unfold digit. apply chr_not_LF; lia. Qed.

Lemma format_digits_no_LF (fuel : nat) :
  forall n acc, 0 <= n -> no_LF acc = true ->
  no_LF (format_digits fuel n acc) = true.
Proof.
  induction fuel as [|f IH]; intros n acc Hn Hacc; [exact Hacc|].
  rewrite format_digits_S.
  assert (Hd : no_LF (String (digit (n mod 10)) acc) = true).
  { cbn [no_LF]. rewrite digit_no_LF, Hacc; [reflexivity|].
    apply Z.mod_pos_bound. lia. }
  destruct (n <? 10); [exact Hd|].
  apply IH; [apply Z.div_pos; lia|exact Hd].
Qed.

(** The row is a single line when the strings it is made of are. *)
Lemma entryString_no_LF (name partUUID hash salt : string) (n : Z) :
  no_LF name = true -> no_LF partUUID = true ->
  no_LF hash = true -> no_LF salt = true ->
  no_LF (entryString name partUUID hash salt n) = true.
Proof.
  intros Hname Hu Hh Hs. unfold entryString.
  assert (Hf : no_LF (FormatUint (u64 (Z.shiftl n 3))) = true).
  { apply format_digits_no_LF; [|reflexivity].
    unfold u64. apply Z.mod_pos_bound. reflexivity. }
  rewrite !no_LF_app, Hname, Hu, Hh, Hs, Hf. reflexivity.
Qed.

End RowFacts.

Section SealedFile.
Import Go GoFacts Spec tools PatchFacts PatchAscii ReportFacts SealFacts
  LineFacts SealVocab RunFacts RowFacts.

(** After a successful run the [grub.cfg] of the EFI partition, read line
    by line, has as many lines as before and every line without [dm=] is
    the same line at the same place, provided the partition UUID holds no
    line feed; the hash and the salt never do.  No other file has
    changed. *)
Theorem seal_success_keeps_other_lines
    (env : Env) (n : Z) (fs : Files)
    (Hok : result (SealOEMPartition env n fs) = Val None)
    (Huuid : forall u, partUUID env "/dev/sda8" = Some u -> no_LF u = true) :
  exists tmpOut content content',
    run env ["mktemp"; "-d"] = Some tmpOut
    /\ fs (grubFile tmpOut) = Some content
    /\ filesAfter (SealOEMPartition env n fs) (grubFile tmpOut)
       = Some content'
    /\ (forall p, p <> grubFile tmpOut ->
                  filesAfter (SealOEMPartition env n fs) p = fs p)
    /\ List.length (Split content' LF) = List.length (Split content LF)
    /\ forall (i : nat) (line : string),
         nth_error (Split content LF) i = Some line ->
         Contains line "dm=" = false ->
         nth_error (Split content' LF) i = Some line.
Proof.
  destruct (SealOEMPartition env n fs) as [[r ev] fs'] eqn:E.
  unfold result, filesAfter in *; cbn [fst snd] in *.
  seal_inv E; try discriminate Hok; run_facts.
  all: match goal with
       | H : patchLines ?e (Split ?c LF) = Val ?l |- _ =>
           eexists _, _, (Join l nl);
           destruct (patchLines_spec _ _ _ H) as [Hlen Hnth];
           assert (Hrow : no_LF e = true)
             by (apply entryString_no_LF;
                 [reflexivity
                 |now apply Huuid
                 |apply lastOf_no_LF; [apply Split_no_LF|reflexivity]
                 |apply lastOf_no_LF; [apply Split_no_LF|reflexivity]]);
           assert (Hall : Forall (fun x => no_LF x = true) l)
             by (apply (patchLines_no_LF e (Split c LF));
                 [assumption|apply Split_no_LF|assumption]);
           assert (Hne : l <> [])
             by (intros ->; pose proof (Split_not_nil c LF);
                 destruct (Split c LF); [contradiction|discriminate])
       end.
  all: split; [reflexivity|].
  all: split; [eassumption|].
  all: split; [unfold grubFile, write; now rewrite String.eqb_refl|].
  all: split; [intros p Hp; unfold grubFile in Hp; unfold write;
               apply String.eqb_neq in Hp; now rewrite Hp|].
  all: rewrite Split_Join by assumption; now split.
Qed.

Lemma seal_success_keeps_other_lines_witness :
  exists tmpOut content content',
    run (Example.env true Example.report) ["mktemp"; "-d"] = Some tmpOut
    /\ Example.files (grubFile tmpOut) = Some content
    /\ filesAfter (SealOEMPartition (Example.env true Example.report) 256
                     Example.files) (grubFile tmpOut)
       = Some content'
    /\ (forall p, p <> grubFile tmpOut ->
                  filesAfter (SealOEMPartition
                                (Example.env true Example.report) 256
                                Example.files) p = Example.files p)
    /\ List.length (Split content' LF) = List.length (Split content LF)
    /\ forall (i : nat) (line : string),
         nth_error (Split content LF) i = Some line ->
         Contains line "dm=" = false ->
         nth_error (Split content' LF) i = Some line.
Proof.
  apply (seal_success_keeps_other_lines (Example.env true Example.report) 256
           Example.files).
  - vm_compute. reflexivity.
  - intros u Hu. injection Hu as <-. reflexivity.
Defined.

End SealedFile.

(** ** The size errors [Execute] can log *)

Section OEMErrors.
Import Go partutil cmd finish Vocab SizeFacts ValidateFacts FlagFacts
  SealFacts ExecuteFacts.

(** [validateOEM] reports a size in a wrong format only when the size does
    not convert. *)
Lemma validateOEM_format_error (b : Build) (s : string) :
  snd (validateOEM b) = Some (InvalidOEMSizeFormat s) ->
  OEMSize b <> "" /\ ConvertSizeToBytes (OEMSize b) = None.
Proof.
  destruct (String.eqb_spec (OEMSize b) "") as [He|Hne].
  - unfold validateOEM. rewrite He. cbn [String.eqb].
    destruct (SealOEM b); cbn [negb]; [|discriminate].
    destruct (_ <? _); discriminate.
  - destruct (ConvertSizeToBytes (OEMSize b)) as [n|] eqn:Hc; [|now split].
    pose proof (ConvertSizeToBytes_range _ _ Hc) as Hr.
    destruct (SealOEM b) eqn:Hseal.
    + rewrite (validateOEM_sealed b n) by assumption.
      rewrite checkDiskSize_eq
        by (unfold u64; apply Z.mod_pos_bound; reflexivity).
      destruct (_ <? _); discriminate.
    + rewrite (validateOEM_unsealed b n) by assumption.
      rewrite checkDiskSize_eq by assumption.
      destruct (_ <? _); discriminate.
Qed.

(** In a run of [Execute] the format error of [validateOEM] is dead code:
    [validate] has already converted the same string, so the errors of
    [validateOEM] that are logged are the two about the disk size. *)
Theorem Execute_logs_only_disk_size_errors
    (w : World) (f : FinishImageBuild) (e : cmd.Error)
    (Hlog : In (LogError (OEMError e)) (snd (Execute w f))) :
  e = NeedExtraDiskSpace \/ exists msg, e = DiskSizeTooSmall msg imgSize.
Proof.
  destruct (Execute w f) as [st ev] eqn:E. cbn [snd] in Hlog.
  execute_inv E; in_cases Hlog.
  injection Hlog as ->.
  match goal with
  | Hv : validateOEM ?b = (_, Some _) |- _ => rename Hv into Hoem
  end.
  destruct e as [s| |msg k]; [exfalso|now left|right].
  - match type of Hoem with
    | validateOEM ?b = _ =>
        destruct (validateOEM_format_error b s) as [Hne Hnone];
          [now rewrite Hoem|]
    end.
    cbn [OEMSize] in Hne, Hnone.
    match goal with
    | Hv : validate f = None |- _ =>
        apply validate_None_iff in Hv;
          destruct Hv as ([Hv|(m & Hm & _)] & _); congruence
    end.
  - exists msg. f_equal.
    revert Hoem. unfold validateOEM, checkDiskSize.
    repeat match goal with
           | |- context [match ?x with _ => _ end] => destruct x
           end; intros [= ? ?]; congruence.
Qed.

Lemma Execute_logs_only_disk_size_errors_witness :
  DiskSizeTooSmall msgSeal 10 = NeedExtraDiskSpace
  \/ exists msg, DiskSizeTooSmall msgSeal 10 = DiskSizeTooSmall msg imgSize.
Proof.
  apply (Execute_logs_only_disk_size_errors FinishExample.world
           (mkFinishImageBuild "out-project" "us-west1-b" "build-project"
              "" "-sealed" "" false 0 [] [] false "1G" 11 "1h0m0s")).
  vm_compute. do 3 right. left. reflexivity.
Defined.

End OEMErrors.
